(** * Merchant-summary backend: date normalisation, ingestion and summary

    A shallow embedding of the Express server in [src/server.js] (the
    [/upload] and [/generate] handlers and their helper [parseExcelDate]),
    with the JavaScript built-ins they call modelled after ECMA-262:
    strings are sequences of UTF-16 code units, numbers are binary64
    floating-point values ([spec_float] at precision 53), [Date] objects
    hold a time value in milliseconds or NaN, and abrupt completions are a
    result type. *)

From Stdlib Require Import ZArith NArith Lia List String Ascii Bool Decimal.
From Stdlib Require Import Sorted Permutation.
From Stdlib Require Import SpecFloat.
From Stdlib Require DecimalPos DecimalN.
From stdpp Require Import base option list gmap.

Local Open Scope Z_scope.

(* ================================================================= *)
(** ** Strings: sequences of UTF-16 code units *)

Module JsString.

Definition jsstring := list N.

(** An ASCII literal as a JavaScript string. *)
Definition u (s : string) : jsstring := map N_of_ascii (list_ascii_of_string s).

(** The relational operators on two strings compare code units
    lexicographically (IsLessThan, string case). *)
Fixpoint compare (a b : jsstring) : comparison :=
  match a, b with
  | [], [] => Eq
  | [], _ :: _ => Lt
  | _ :: _, [] => Gt
  | x :: a', y :: b' =>
      match N.compare x y with
      | Eq => compare a' b'
      | c => c
      end
  end.

Definition ltb (a b : jsstring) : bool :=
  match compare a b with Lt => true | _ => false end.

(** [a <= b] *)
Definition leb (a b : jsstring) : bool :=
  match compare a b with Gt => false | _ => true end.

(** [a >= b] *)
Definition geb (a b : jsstring) : bool := leb b a.

Definition eqb (a b : jsstring) : bool := bool_decide (a = b).

(** [s.split(sep)] for a separator of one code unit. *)
Fixpoint split (sep : N) (s : jsstring) : list jsstring :=
  match s with
  | [] => [[]]
  | c :: r =>
      if N.eqb c sep then [] :: split sep r
      else match split sep r with
           | p :: ps => (c :: p) :: ps
           | [] => [[c]]
           end
  end.

(** WhiteSpace and LineTerminator code points, as [trim] and the numeric
    parsers strip them. *)
Definition isWhiteSpace (c : N) : bool :=
  ((9 <=? c) && (c <=? 13) || (c =? 32) || (c =? 160) || (c =? 5760)
   || (8192 <=? c) && (c <=? 8202) || (c =? 8232) || (c =? 8233)
   || (c =? 8239) || (c =? 8287) || (c =? 12288) || (c =? 65279))%N.

Fixpoint trimStart (s : jsstring) : jsstring :=
  match s with
  | c :: r => if isWhiteSpace c then trimStart r else s
  | [] => []
  end.

Definition trimEnd (s : jsstring) : jsstring := rev (trimStart (rev s)).

Definition trim (s : jsstring) : jsstring := trimEnd (trimStart s).

Definition isDigit (c : N) : bool := ((48 <=? c) && (c <=? 57))%N.

Definition digitVal (c : N) : Z := Z.of_N c - 48.

(** The value of a run of decimal digits. *)
Definition digitsVal (ds : jsstring) : Z :=
  fold_left (fun acc c => 10 * acc + digitVal c) ds 0.

(** The longest prefix of digits, and the rest. *)
Fixpoint spanDigits (s : jsstring) : jsstring * jsstring :=
  match s with
  | c :: r =>
      if isDigit c then let '(ds, rest) := spanDigits r in (c :: ds, rest)
      else ([], s)
  | [] => ([], [])
  end.

Fixpoint uint_codes (d : Decimal.uint) : jsstring :=
  match d with
  | Decimal.Nil => []
  | Decimal.D0 r => 48%N :: uint_codes r
  | Decimal.D1 r => 49%N :: uint_codes r
  | Decimal.D2 r => 50%N :: uint_codes r
  | Decimal.D3 r => 51%N :: uint_codes r
  | Decimal.D4 r => 52%N :: uint_codes r
  | Decimal.D5 r => 53%N :: uint_codes r
  | Decimal.D6 r => 54%N :: uint_codes r
  | Decimal.D7 r => 55%N :: uint_codes r
  | Decimal.D8 r => 56%N :: uint_codes r
  | Decimal.D9 r => 57%N :: uint_codes r
  end.

(** The decimal digits of a non-negative integer (of its absolute value
    otherwise). *)
Definition decimal (z : Z) : jsstring := uint_codes (N.to_uint (Z.abs_N z)).

(** [s.padStart(w, "0")] *)
Definition padZeros (w : nat) (s : jsstring) : jsstring :=
  repeat 48%N (w - length s)%nat ++ s.

(** Code points of a string: a high surrogate followed by a low surrogate
    is one supplementary code point, any other code unit stands for
    itself. Only used to state orderings by code point. *)
Fixpoint codePoints (s : jsstring) : list N :=
  match s with
  | [] => []
  | c :: r =>
      match r with
      | d :: r' =>
          if ((55296 <=? c) && (c <=? 56319) && (56320 <=? d) && (d <=? 57343))%N
          then (65536 + (c - 55296) * 1024 + (d - 56320))%N :: codePoints r'
          else c :: codePoints r
      | [] => [c]
      end
  end.

End JsString.

Export JsString(jsstring, u).

(* ================================================================= *)
(** ** Numbers: binary64 *)

Module JsNumber.

Definition prec : Z := 53.
Definition emax : Z := 1024.

(** A Number value: NaN, the infinities, the two zeros, or a finite
    [m * 2^e] with the sign as a flag. *)
Definition number := spec_float.

#[global] Instance number_eq_dec : EqDecision number.
Proof. solve_decision. Defined.

Definition NaN : number := S754_nan.
Definition add : number -> number -> number := SFadd prec emax.
Definition sub : number -> number -> number := SFsub prec emax.
Definition mul : number -> number -> number := SFmul prec emax.
Definition div : number -> number -> number := SFdiv prec emax.
Definition ltb : number -> number -> bool := SFltb.

(** The Number value for an integer (round to nearest, ties to even). *)
Definition Z2num (z : Z) : number := binary_normalize prec emax z 0 false.

(** The Number value for the fraction [p / q], negated when [neg]. *)
Definition Q2num (neg : bool) (p q : positive) : number :=
  let '(mz, ez, lz) := SFdiv_core_binary prec emax (Zpos p) 0 (Zpos q) 0 in
  binary_round_aux prec emax neg mz ez lz.

(** The Number value for [m * 10^e10], negated when [neg]. *)
Definition dec2num (neg : bool) (m : Z) (e10 : Z) : number :=
  match m with
  | Zpos p =>
      if 0 <=? e10
      then binary_normalize prec emax ((if neg then -1 else 1) * (m * 10 ^ e10)) 0 neg
      else Q2num neg p (Z.to_pos (10 ^ (- e10)))
  | _ => S754_zero neg
  end.

(** The mantissa and exponent of the canonical representation of a
    positive integer below 2^53. *)
Definition canon_m (c : Z) : positive := Z.to_pos (c * 2 ^ (53 - Zdigits2 c)).
Definition canon_e (c : Z) : Z := Zdigits2 c - 53.

Definition isNaN (x : number) : bool :=
  match x with S754_nan => true | _ => false end.

Definition isFinite (x : number) : bool :=
  match x with S754_nan | S754_infinity _ => false | _ => true end.

(** ToBoolean on a Number: false for NaN and the zeros. *)
Definition truthy (x : number) : bool :=
  match x with S754_nan | S754_zero _ => false | _ => true end.

(** [x || 0] *)
Definition orZero (x : number) : number := if truthy x then x else Z2num 0.

(** SameValueZero on Numbers. *)
Definition sameValueZero (x y : number) : bool :=
  match x, y with
  | S754_nan, S754_nan => true
  | S754_zero _, S754_zero _ => true
  | _, _ => bool_decide (x = y)
  end.

(** The integer part of a finite Number, truncating towards zero
    (ToIntegerOrInfinity); [None] for NaN and the infinities. *)
Definition truncate (x : number) : option Z :=
  match x with
  | S754_zero _ => Some 0
  | S754_finite s m e =>
      let a := if 0 <=? e then Zpos m * 2 ^ e else Zpos m / 2 ^ (- e) in
      Some (if s then - a else a)
  | _ => None
  end.

(** [abs x <= bound] for an integer bound, exactly. *)
Definition absLeZ (x : number) (bound : Z) : bool :=
  match x with
  | S754_zero _ => 0 <=? bound
  | S754_finite _ m e =>
      if 0 <=? e then Zpos m * 2 ^ e <=? bound
      else Zpos m <=? bound * 2 ^ (- e)
  | _ => false
  end.

(** *** parseFloat *)

Import JsString.

Definition Infinity_lit : jsstring := u "Infinity".

Fixpoint isPrefix (p s : jsstring) : bool :=
  match p, s with
  | [], _ => true
  | a :: p', b :: s' => N.eqb a b && isPrefix p' s'
  | _ :: _, [] => false
  end.

(** An optional leading sign: the flag is true for [-]. *)
Definition takeSign (s : jsstring) : bool * jsstring :=
  match s with
  | 45%N :: r => (true, r)
  | 43%N :: r => (false, r)
  | _ => (false, s)
  end.

(** The exponent part: [e] or [E], an optional sign and at least one
    digit. Anything else is not part of the literal: the exponent is 0
    and the text is left as it was. *)
Definition takeExponent (s : jsstring) : Z * jsstring :=
  match s with
  | c :: r =>
      if (c =? 101)%N || (c =? 69)%N then
        let '(neg, r') := takeSign r in
        let '(ds, rest) := spanDigits r' in
        match ds with
        | [] => (0, s)
        | _ => (if neg then - digitsVal ds else digitsVal ds, rest)
        end
      else (0, s)
  | [] => (0, [])
  end.

(** The longest prefix of [s] that is a StrDecimalLiteral, as a Number,
    and what follows it; [None] when there is no such prefix. *)
Definition decimalPrefix (s : jsstring) : option (number * jsstring) :=
  let '(neg, s1) := takeSign s in
  if isPrefix Infinity_lit s1 then Some (S754_infinity neg, drop (length Infinity_lit) s1) else
  let '(ip, r1) := spanDigits s1 in
  let '(fp, r2) :=
    match r1 with
    | 46%N :: r => spanDigits r
    | _ => ([], r1)
    end in
  match ip ++ fp with
  | [] => None
  | ds =>
      let '(e, rest) := takeExponent r2 in
      Some (dec2num neg (digitsVal ds) (e - Z.of_nat (length fp)), rest)
  end.

(** [parseFloat] on a string: leading white space is skipped, the longest
    prefix that is a StrDecimalLiteral is converted, and NaN results when
    there is none. *)
Definition parseFloatString (s : jsstring) : number :=
  match decimalPrefix (trimStart s) with
  | Some (x, _) => x
  | None => NaN
  end.

(** *** StringToNumber *)

(** The value of a digit in a radix up to 16, if it is one. *)
Definition radixDigit (radix : Z) (c : N) : option Z :=
  let v :=
    if isDigit c then Z.of_N c - 48
    else if (97 <=? c)%N && (c <=? 102)%N then Z.of_N c - 87
    else if (65 <=? c)%N && (c <=? 70)%N then Z.of_N c - 55
    else radix in
  if v <? radix then Some v else None.

Fixpoint radixVal (radix : Z) (acc : Z) (ds : jsstring) : option Z :=
  match ds with
  | [] => Some acc
  | c :: r =>
      match radixDigit radix c with
      | Some v => radixVal radix (radix * acc + v) r
      | None => None
      end
  end.

(** The digits of [0x], [0o] and [0b] literals. *)
Definition radixLiteral (radix : Z) (ds : jsstring) : number :=
  match ds, radixVal radix 0 ds with
  | _ :: _, Some v => Z2num v
  | _, _ => NaN
  end.

(** ToNumber on a String: white space around is dropped, the empty text
    is 0, and the rest must be one numeric literal as a whole. *)
Definition stringToNumber (s : jsstring) : number :=
  let t := trim s in
  let decimal_ :=
    match decimalPrefix t with
    | Some (x, []) => x
    | _ => NaN
    end in
  match t with
  | [] => Z2num 0
  | 48%N :: c :: r =>
      if (c =? 120)%N || (c =? 88)%N then radixLiteral 16 r
      else if (c =? 111)%N || (c =? 79)%N then radixLiteral 8 r
      else if (c =? 98)%N || (c =? 66)%N then radixLiteral 2 r
      else decimal_
  | _ => decimal_
  end.

(** *** Number.prototype.toString *)

(** Number of decimal digits of a positive integer. *)
Definition numDigits (x : Z) : Z := Z.of_nat (length (decimal x)).

Fixpoint stripZeros (rev_digits : jsstring) : jsstring :=
  match rev_digits with
  | 48%N :: r => stripZeros r
  | _ => rev_digits
  end.

(** The least [j >= from] with [den <= num * 10^j], for a fraction below
    one. *)
Fixpoint leadingZeros (num den : Z) (j : Z) (fuel : nat) : Z :=
  match fuel with
  | O => j
  | S fuel' => if den <=? num * 10 ^ j then j else leadingZeros num den (j + 1) fuel'
  end.

(** The decimal exponent [n] of the positive fraction [num / den]:
    [10^(n-1) <= num / den < 10^n]. *)
Definition decimalExponent (num den : Z) : Z :=
  if den <=? num then numDigits (num / den)
  else 1 - leadingZeros num den 1 400.

(** Searches the least number [k] of significant digits for which some
    [s * 10^(n-k)] converts back to [x], the exact value of [x] being
    [num / den]; of two such [s] the one nearer to the exact value is
    taken, the even one at equal distance. [fuel] bounds [k]; 17 digits
    always suffice for a binary64 value. *)
Fixpoint shortest (x : number) (num den n : Z) (k : Z) (fuel : nat) : Z * Z :=
  (* the exact value times 10^(k-n), as a fraction a / b *)
  let a := if n <=? k then num * 10 ^ (k - n) else num in
  let b := if n <=? k then den else den * 10 ^ (n - k) in
  let lo := a / b in
  let hi := lo + 1 in
  let okLo := bool_decide (dec2num false lo (n - k) = x) in
  let okHi := bool_decide (dec2num false hi (n - k) = x) in
  match fuel with
  | O => (lo, k)
  | S fuel' =>
      if okLo && okHi then
        (if a - lo * b <? hi * b - a then lo
         else if hi * b - a <? a - lo * b then hi
         else if Z.even lo then lo else hi, k)
      else if okLo then (lo, k)
      else if okHi then (hi, k)
      else shortest x num den n (k + 1) fuel'
  end.

(** The text of a finite positive Number [m * 2^e]. *)
Definition positiveToString (m : positive) (e : Z) : jsstring :=
  let num := if 0 <=? e then Zpos m * 2 ^ e else Zpos m in
  let den := if 0 <=? e then 1 else 2 ^ (- e) in
  let n0 := decimalExponent num den in
  let '(s, k0) := shortest (S754_finite false m e) num den n0 1 17 in
  (* [s] may have come out as 10^k0: one more digit, all zeros but one *)
  let n := n0 + (numDigits s - k0) in
  let ds := rev (stripZeros (rev (decimal s))) in
  let k := Z.of_nat (length ds) in
  if (-5 <=? n) && (n <=? 21) then
    if k <=? n then ds ++ repeat 48%N (Z.to_nat (n - k))
    else if 0 <? n then take (Z.to_nat n) ds ++ 46%N :: drop (Z.to_nat n) ds
    else 48%N :: 46%N :: repeat 48%N (Z.to_nat (- n)) ++ ds
  else
    let exponent := (if n <? 0 then 45%N else 43%N) :: decimal (n - 1) in
    match ds with
    | [] => []
    | d :: [] => d :: 101%N :: exponent
    | d :: rest => d :: 46%N :: rest ++ 101%N :: exponent
    end.

Definition toString (x : number) : jsstring :=
  match x with
  | S754_nan => u "NaN"
  | S754_zero _ => u "0"
  | S754_infinity s => if s then u "-Infinity" else u "Infinity"
  | S754_finite s m e => (if s then [45%N] else []) ++ positiveToString m e
  end.

(** *** Number.prototype.toFixed(2) *)

(** Digits of [n] hundredths, with the point before the last two. *)
Definition fixed2 (n : Z) : jsstring :=
  let m := padZeros 3 (decimal n) in
  let k := length m in
  take (k - 2) m ++ 46%N :: drop (k - 2) m.

Definition toFixed2 (x : number) : jsstring :=
  match x with
  | S754_nan => u "NaN"
  | S754_infinity s => if s then u "-Infinity" else u "Infinity"
  | S754_zero _ => u "0.00"
  | S754_finite s m e =>
      let sign := if s then [45%N] else [] in
      if 0 <=? e then
        let X := Zpos m * 2 ^ e in
        if 10 ^ 21 <=? X
        then sign ++ positiveToString m e
        else sign ++ fixed2 (100 * X)
      else
        (* the integer n with n / 100 nearest to m / 2^(-e), the larger
           of two: floor (100 * m / 2^(-e) + 1/2) *)
        sign ++ fixed2 ((200 * Zpos m + 2 ^ (- e)) / 2 ^ (1 - e))
  end.

End JsNumber.

Export JsNumber(number, Z2num).

(* ================================================================= *)
(** ** Dates: time values and the date-time string format *)

Module JsDate.

Import JsString.

Definition msPerDay : Z := 86400000.
Definition msPerHour : Z := 3600000.
Definition msPerMinute : Z := 60000.
Definition msPerSecond : Z := 1000.

Definition Day (t : Z) : Z := t / msPerDay.
Definition TimeWithinDay (t : Z) : Z := t mod msPerDay.

Definition isLeapYear (y : Z) : bool :=
  if negb (y mod 4 =? 0) then false
  else if negb (y mod 100 =? 0) then true
  else if negb (y mod 400 =? 0) then false
  else true.

Definition DaysInYear (y : Z) : Z := if isLeapYear y then 366 else 365.

(** The day number of 1 January of year [y]. *)
Definition DayFromYear (y : Z) : Z :=
  365 * (y - 1970) + (y - 1969) / 4 - (y - 1901) / 100 + (y - 1601) / 400.

(** The year a day falls in: the largest [y] with [DayFromYear y <= d].
    A year lasts 146097/400 days on average, which places the estimate
    within one year of the answer. *)
Definition YearFromDay (d : Z) : Z :=
  let y := 1970 + d * 400 / 146097 in
  if d <? DayFromYear y then y - 1
  else if DayFromYear (y + 1) <=? d then y + 1
  else y.

Definition YearFromTime (t : Z) : Z := YearFromDay (Day t).

Definition DayWithinYear (t : Z) : Z := Day t - DayFromYear (YearFromTime t).

Definition InLeapYear (t : Z) : Z := if isLeapYear (YearFromTime t) then 1 else 0.

(** Month number, 0 for January. *)
Definition MonthFromTime (t : Z) : Z :=
  let d := DayWithinYear t in
  let l := InLeapYear t in
  if d <? 31 then 0
  else if d <? 59 + l then 1
  else if d <? 90 + l then 2
  else if d <? 120 + l then 3
  else if d <? 151 + l then 4
  else if d <? 181 + l then 5
  else if d <? 212 + l then 6
  else if d <? 243 + l then 7
  else if d <? 273 + l then 8
  else if d <? 304 + l then 9
  else if d <? 334 + l then 10
  else 11.

(** Day of the month, from 1. *)
Definition DateFromTime (t : Z) : Z :=
  let d := DayWithinYear t in
  let l := InLeapYear t in
  match MonthFromTime t with
  | 0 => d + 1
  | 1 => d - 30
  | 2 => d - 58 - l
  | 3 => d - 89 - l
  | 4 => d - 119 - l
  | 5 => d - 150 - l
  | 6 => d - 180 - l
  | 7 => d - 211 - l
  | 8 => d - 242 - l
  | 9 => d - 272 - l
  | 10 => d - 303 - l
  | _ => d - 333 - l
  end.

Definition HourFromTime (t : Z) : Z := (t / msPerHour) mod 24.
Definition MinFromTime (t : Z) : Z := (t / msPerMinute) mod 60.
Definition SecFromTime (t : Z) : Z := (t / msPerSecond) mod 60.
Definition msFromTime (t : Z) : Z := t mod msPerSecond.

(** Days from 1 January to the first of month [mn] (0 for January). *)
Definition daysBeforeMonth (leap : bool) (mn : Z) : Z :=
  let l := if leap then 1 else 0 in
  match mn with
  | 0 => 0
  | 1 => 31
  | 2 => 59 + l
  | 3 => 90 + l
  | 4 => 120 + l
  | 5 => 151 + l
  | 6 => 181 + l
  | 7 => 212 + l
  | 8 => 243 + l
  | 9 => 273 + l
  | 10 => 304 + l
  | _ => 334 + l
  end.

(** MakeDay on integers: months past December carry into the year and
    days past the end of a month carry into the next. *)
Definition MakeDay (year month date : Z) : Z :=
  let ym := year + month / 12 in
  let mn := month mod 12 in
  DayFromYear ym + daysBeforeMonth (isLeapYear ym) mn + date - 1.

Definition MakeTime (h m s ms : Z) : Z :=
  h * msPerHour + m * msPerMinute + s * msPerSecond + ms.

Definition MakeDate (day time : Z) : Z := day * msPerDay + time.

Definition maxTime : Z := 8640000000000000.

(** A time value: milliseconds since 1970-01-01T00:00:00Z within
    [maxTime] either way, or [None] for NaN. *)
Definition timeValue := option Z.

(** TimeClip on an integer number of milliseconds. *)
Definition TimeClipZ (t : Z) : timeValue :=
  if Z.abs t <=? maxTime then Some t else None.

(** TimeClip on a Number: NaN unless finite and within [maxTime], then
    truncated to an integer. *)
Definition TimeClip (x : number) : timeValue :=
  if JsNumber.isFinite x && JsNumber.absLeZ x maxTime then JsNumber.truncate x else None.

(** [date.getTime()] *)
Definition getTime (tv : timeValue) : number :=
  match tv with
  | Some t => Z2num t
  | None => JsNumber.NaN
  end.

(** The year of the date-time string format: four digits from 0 to 9999,
    a sign and six digits otherwise. *)
Definition isoYear (y : Z) : jsstring :=
  if (0 <=? y) && (y <=? 9999) then padZeros 4 (decimal y)
  else (if y <? 0 then 45%N else 43%N) :: padZeros 6 (decimal y).

(** The [YYYY-MM-DD] part for the day a time value falls on. *)
Definition isoDate (t : Z) : jsstring :=
  isoYear (YearFromTime t) ++ 45%N :: padZeros 2 (decimal (MonthFromTime t + 1))
    ++ 45%N :: padZeros 2 (decimal (DateFromTime t)).

(** The [HH:mm:ss.sssZ] part. *)
Definition isoTime (t : Z) : jsstring :=
  padZeros 2 (decimal (HourFromTime t)) ++ 58%N :: padZeros 2 (decimal (MinFromTime t))
    ++ 58%N :: padZeros 2 (decimal (SecFromTime t))
    ++ 46%N :: padZeros 3 (decimal (msFromTime t)) ++ [90%N].

(** The string [toISOString] builds for a valid time value. *)
Definition isoString (t : Z) : jsstring := isoDate t ++ 84%N :: isoTime t.

(** *** The date-only forms of the date-time string format *)

(** Exactly [n] digits at the head of [s]: their value and the rest. *)
Definition takeDigits (n : nat) (s : jsstring) : option (Z * jsstring) :=
  let ds := take n s in
  if bool_decide (length ds = n) && forallb isDigit ds
  then Some (digitsVal ds, drop n s) else None.

(** The year: [YYYY], or a sign and six digits other than [-000000]. *)
Definition parseYear (s : jsstring) : option (Z * jsstring) :=
  match s with
  | 43%N :: r => takeDigits 6 r
  | 45%N :: r =>
      match takeDigits 6 r with
      | Some (y, r') => if y =? 0 then None else Some (- y, r')
      | None => None
      end
  | _ => takeDigits 4 s
  end.

(** [-NN] at the head of [s]. *)
Definition parseDashed (s : jsstring) : option (Z * jsstring) :=
  match s with
  | 45%N :: r => takeDigits 2 r
  | _ => None
  end.

(** The fields (year, month from 1, day) of [YYYY], [YYYY-MM] or
    [YYYY-MM-DD], with the month in 1..12 and the day in 1..31. *)
Definition parseDateOnly (s : jsstring) : option (Z * Z * Z) :=
  match parseYear s with
  | None => None
  | Some (y, []) => Some (y, 1, 1)
  | Some (y, r) =>
      match parseDashed r with
      | None => None
      | Some (m, r') =>
          if (1 <=? m) && (m <=? 12) then
            match r' with
            | [] => Some (y, m, 1)
            | _ =>
                match parseDashed r' with
                | Some (d, []) => if (1 <=? d) && (d <=? 31) then Some (y, m, d) else None
                | _ => None
                end
            end
          else None
      end
  end.

(** Days in month [m] (from 1) of year [y]. *)
Definition DaysInMonth (y m : Z) : Z :=
  match m with
  | 2 => if isLeapYear y then 29 else 28
  | 4 | 6 | 9 | 11 => 30
  | _ => 31
  end.

(** A date-only string denotes midnight UTC. The day is accepted up to 31
    in every month and carried over by [MakeDay], as V8 does. *)
Definition parseDateOnlyTime (s : jsstring) : timeValue :=
  match parseDateOnly s with
  | Some (y, m, d) => TimeClipZ (MakeDate (MakeDay y (m - 1) d) 0)
  | None => None
  end.

(** *** The host *)

(** What ECMA-262 leaves to the implementation: the local time zone
    adjustment (milliseconds to add to UTC, for a local time [t]) and
    [Date.parse], whose strings outside the date-time string format are
    recognised or not as the implementation pleases. *)
Record Host := {
  LocalTZA : Z -> Z;
  Date_parse : jsstring -> timeValue
}.

(** Every implementation reads a date-only string of a real calendar day
    as midnight UTC of that day. *)
Definition conforms (h : Host) : Prop :=
  forall s y m d,
    parseDateOnly s = Some (y, m, d) -> d <= DaysInMonth y m ->
    Date_parse h s = TimeClipZ (MakeDate (MakeDay y (m - 1) d) 0).

(** A host on UTC that recognises the date-only forms and nothing else. *)
Definition utcHost : Host :=
  {| LocalTZA := fun _ => 0; Date_parse := parseDateOnlyTime |}.

(** The same, five and a half hours east of UTC. *)
Definition istHost : Host :=
  {| LocalTZA := fun _ => 19800000; Date_parse := parseDateOnlyTime |}.

(** [new Date(year, month, date)]: local midnight, as a UTC time value. *)
Definition newDateLocal (h : Host) (year month date : Z) : timeValue :=
  let t := MakeDate (MakeDay year month date) (MakeTime 0 0 0 0) in
  TimeClipZ (t - LocalTZA h t).

(** [new Date(x)] for a Number. *)
Definition newDateNumber (x : number) : timeValue := TimeClip x.

(** [new Date(s)] for a String. *)
Definition newDateString (h : Host) (s : jsstring) : timeValue :=
  match Date_parse h s with
  | Some t => TimeClipZ t
  | None => None
  end.

End JsDate.

(* ================================================================= *)
(** ** Values and completions *)

Import JsString JsNumber JsDate.

(** The cell values [sheet_to_json] hands over (with [cellDates] a date
    cell is a [Date] object), and what JSON request bodies hold. *)
Inductive jsval :=
  | VUndefined
  | VNull
  | VBool (b : bool)
  | VNum (x : number)
  | VStr (s : jsstring)
  | VDate (t : timeValue).

#[global] Instance jsval_eq_dec : EqDecision jsval.
Proof. solve_decision. Defined.

Inductive jstype := TUndefined | TObject | TBoolean | TNumber | TString.

#[global] Instance jstype_eq_dec : EqDecision jstype.
Proof. solve_decision. Defined.

Definition typeof (v : jsval) : jstype :=
  match v with
  | VUndefined => TUndefined
  | VNull | VDate _ => TObject
  | VBool _ => TBoolean
  | VNum _ => TNumber
  | VStr _ => TString
  end.

Definition toBoolean (v : jsval) : bool :=
  match v with
  | VUndefined | VNull => false
  | VBool b => b
  | VNum x => JsNumber.truthy x
  | VStr s => negb (JsString.eqb s [])
  | VDate _ => true
  end.

(** SameValueZero, as [Map] keys and [includes] compare. Two [Date]
    values are taken for the same object when their time values agree. *)
Definition sameValueZero (a b : jsval) : bool :=
  match a, b with
  | VNum x, VNum y => JsNumber.sameValueZero x y
  | _, _ => bool_decide (a = b)
  end.

(** [parseFloat(v)]: the argument is converted to a string first. A
    Number prints and reads back as itself, [-0] as [0]; [undefined],
    [null], booleans and dates print as text that is no number. *)
Definition parseFloat (v : jsval) : number :=
  match v with
  | VStr s => parseFloatString s
  | VNum (S754_zero _) => Z2num 0
  | VNum x => x
  | _ => NaN
  end.

(** ToNumber, a [Date] giving its time value. *)
Definition toNumber (v : jsval) : number :=
  match v with
  | VUndefined => NaN
  | VNull => Z2num 0
  | VBool b => Z2num (if b then 1 else 0)
  | VNum x => x
  | VStr s => stringToNumber s
  | VDate t => getTime t
  end.

Inductive jserror := RangeError | TypeError.

(** The outcome of evaluating code: a value, or a thrown error. *)
Inductive completion (A : Type) :=
  | Normal (a : A)
  | Throw (e : jserror).

Arguments Normal {A} a.
Arguments Throw {A} e.

#[global] Instance completion_ret : MRet completion := fun A a => Normal a.

#[global] Instance completion_bind : MBind completion := fun A B f c =>
  match c with
  | Normal a => f a
  | Throw e => Throw e
  end.

(** [try { body } catch (err) { handler }] *)
Definition tryCatch {A} (body : completion A) (handler : jserror -> completion A) : completion A :=
  match body with
  | Normal a => Normal a
  | Throw e => handler e
  end.

(** [date.toISOString()] throws a RangeError on an invalid date. *)
Definition toISOString (d : timeValue) : completion jsstring :=
  match d with
  | Some t => Normal (isoString t)
  | None => Throw RangeError
  end.

(** [new Date(value)] with one argument: a [Date] is copied, a String is
    parsed, anything else is converted to a Number of milliseconds. *)
Definition newDate (h : Host) (value : jsval) : timeValue :=
  match value with
  | VDate t => t
  | VStr s => newDateString h s
  | VNum x => newDateNumber x
  | VBool b => newDateNumber (Z2num (if b then 1 else 0))
  | VNull => newDateNumber (Z2num 0)
  | VUndefined => None
  end.

(* ================================================================= *)
(** ** [parseExcelDate] (src/server.js) *)

Section ParseExcelDate.

Context (h : Host).

(** [date.toISOString().split('T')[0]] *)
Definition datePart (date : timeValue) : completion jsval :=
  s ← toISOString date;
  match JsString.split 84 s with
  | p :: _ => Normal (VStr p)
  | [] => Normal VUndefined
  end.

(** The inner loop over [formats]: the first that parses is returned. *)
Fixpoint tryFormats (formats : list jsstring) : completion (option jsval) :=
  match formats with
  | [] => Normal None
  | format :: rest =>
      let date := newDateString h format in
      if negb (isNaN (getTime date))
      then r ← datePart date; Normal (Some r)
      else tryFormats rest
  end.

(** The candidate strings built from three parts: day first
    ([DD-MM-YYYY] read as [YYYY-MM-DD]), then month first. *)
Definition formatsOf (p0 p1 p2 : jsstring) : list jsstring :=
  [ p2 ++ 45%N :: p1 ++ 45%N :: p0 ;
    p2 ++ 45%N :: p0 ++ 45%N :: p1 ].

(** The outer loop over [separators]. *)
Fixpoint trySeparators (value : jsstring) (separators : list N) : completion (option jsval) :=
  match separators with
  | [] => Normal None
  | sep :: rest =>
      match JsString.split sep value with
      | [p0; p1; p2] =>
          r ← tryFormats (formatsOf p0 p1 p2);
          match r with
          | Some v => Normal (Some v)
          | None => trySeparators value rest
          end
      | _ => trySeparators value rest
      end
  end.

(** ['-'], ['/'], ['.'] *)
Definition separators : list N := [45%N; 47%N; 46%N].

Definition excelEpoch : timeValue := newDateLocal h 1899 11 30.

(** The body of the [try] block. *)
Definition parseExcelDate_try (value : jsval) : completion jsval :=
  match value with
  | VNum x =>
      let date :=
        newDateNumber
          (JsNumber.add (getTime excelEpoch)
             (JsNumber.mul (JsNumber.sub x (Z2num 1)) (Z2num 86400000))) in
      datePart date
  | _ =>
      r ← match value with
          | VStr s => trySeparators s separators
          | _ => Normal None
          end;
      match r with
      | Some v => Normal v
      | None =>
          let date := newDate h value in
          if negb (isNaN (getTime date)) then datePart date else Normal VNull
      end
  end.

Definition parseExcelDate (value : jsval) : completion jsval :=
  if negb (toBoolean value) then Normal VNull
  else tryCatch (parseExcelDate_try value) (fun err => Normal VNull).

End ParseExcelDate.

(* ================================================================= *)
(** ** Rows, the stored dataset and the two handlers (src/server.js) *)

(** A row object: column name to cell value. *)
Abbreviation row := (gmap jsstring jsval).

(** [row[key]]: a missing property reads as [undefined]. *)
Definition get (r : row) (key : jsstring) : jsval := default VUndefined (r !! key).

Definition k_Date : jsstring := u "Date".
Definition k_DateOnly : jsstring := u "DateOnly".
Definition k_RowIndex : jsstring := u "RowIndex".
Definition k_Merchant : jsstring := u "Merchant Name".
Definition k_Withdrawal : jsstring := u "Withdrawal Amount".
Definition k_Fees : jsstring := u "Withdrawal Fees".

(** One row of the Summary sheet. The key of the percentage column is
    computed from the rate (["<rate>% Amount"]); the row holds the key
    next to the value. *)
Record SummaryRow := {
  Merchant : jsval;
  TotalWithdrawalAmount : jsstring;
  TotalWithdrawalFees : jsstring;
  PercentKey : jsstring;
  PercentAmount : jsstring;
  TransactionCount : nat
}.

Record Workbook := {
  Transactions : list row;
  Summary : list SummaryRow
}.

(** [app.locals.fileData], less the file name and the upload time. *)
Record FileData := {
  processedData : list row;
  merchants : list jsstring
}.

(** The state the handlers share: the stored upload and the files in the
    output directory. *)
Record World := {
  fileData : option FileData;
  outputFiles : list (jsstring * Workbook)
}.

Inductive Response :=
  | ErrorResponse (status : Z) (error : jsstring)
  | UploadResponse (merchants : list jsstring) (count : nat) (firstFew : list row)
  | GenerateResponse (summary : list SummaryRow) (downloadUrl dateRange : jsstring)
      (transactionCount merchantCount : nat).

(** [[...new Set(xs)]]: the distinct elements in order of first
    appearance. *)
Fixpoint setOf (seen xs : list jsstring) : list jsstring :=
  match xs with
  | [] => []
  | x :: r => if bool_decide (x ∈ seen) then setOf seen r else x :: setOf (x :: seen) r
  end.

(** [xs.sort()] on strings: ascending by code units. Insertion of each
    element before the first greater one keeps equal elements in order. *)
Fixpoint insertSorted (x : jsstring) (sorted : list jsstring) : list jsstring :=
  match sorted with
  | [] => [x]
  | y :: r => if JsString.ltb x y then x :: sorted else y :: insertSorted x r
  end.

Definition sort (xs : list jsstring) : list jsstring :=
  fold_left (fun acc x => insertSorted x acc) xs [].

Section Server.

Context (h : Host).

(** *** POST /upload, from the parsed sheet on *)

(** The callback of [rawData.map]: [null] when building the record
    throws. *)
Definition processRow (index : nat) (r : row) : option row :=
  match
    tryCatch
      (d ← parseExcelDate h (get r k_Date);
       Normal (Some (<[k_DateOnly := d]> (<[k_RowIndex := VNum (Z2num (Z.of_nat index + 2))]> r))))
      (fun err => Normal None)
  with
  | Normal o => o
  | Throw _ => None
  end.

(** [rawData.map(...).filter(row => row !== null)] *)
Definition processRows (rawData : list row) : list row :=
  omap id (imap processRow rawData).

(** [name && typeof name === 'string' && name.trim() !== ''] *)
Definition isMerchantName (name : jsval) : bool :=
  toBoolean name && bool_decide (typeof name = TString)
  && match name with
     | VStr s => negb (JsString.eqb (JsString.trim s) [])
     | _ => false
     end.

(** The strings among values; after the filter above every value is
    one. *)
Definition stringsOf (vs : list jsval) : list jsstring :=
  omap (fun v => match v with VStr s => Some s | _ => None end) vs.

Definition extractMerchants (data : list row) : list jsstring :=
  sort (setOf [] (stringsOf (List.filter isMerchantName (map (fun r => get r k_Merchant) data)))).

Definition upload (rawData : list row) (w : World) : Response * World :=
  if bool_decide (length rawData = 0%nat) then (ErrorResponse 400 (u "NO_DATA"), w)
  else
    let data := processRows rawData in
    let ms := extractMerchants data in
    (UploadResponse ms (length data) (take 3 data),
     {| fileData := Some {| processedData := data; merchants := ms |};
        outputFiles := outputFiles w |}).

(** *** POST /generate *)

(** The request body. [selectedMerchants] is [None] when absent or not an
    array; the dates are [None] when absent. *)
Record GenerateRequest := {
  selectedMerchants : option (list jsstring);
  percentage : jsval;
  startDate : option jsstring;
  endDate : option jsstring
}.

(** [selectedMerchants.includes(v)] on an array of strings. *)
Definition includes (selected : list jsstring) (v : jsval) : bool :=
  match v with
  | VStr s => bool_decide (s ∈ selected)
  | _ => false
  end.

(** [v >= s] and [v <= s] for a string [s]: two strings are compared by
    code units, anything else as Numbers, a NaN on either side giving
    false. *)
Definition geStr (v : jsval) (s : jsstring) : bool :=
  match v with
  | VStr d => JsString.geb d s
  | _ => SFleb (stringToNumber s) (toNumber v)
  end.

Definition leStr (v : jsval) (s : jsstring) : bool :=
  match v with
  | VStr d => JsString.leb d s
  | _ => SFleb (toNumber v) (stringToNumber s)
  end.

(** The callback of [processedData.filter]. *)
Definition matches (selected : list jsstring) (start stop : jsstring) (r : row) : bool :=
  toBoolean (get r k_DateOnly)
  && geStr (get r k_DateOnly) start
  && leStr (get r k_DateOnly) stop
  && includes selected (get r k_Merchant).

Definition filterData (data : list row) (selected : list jsstring) (start stop : jsstring)
  : list row :=
  List.filter (matches selected start stop) data.

(** The value [summaryMap] keeps per merchant. *)
Record Totals := {
  withdrawal : number;
  fee : number;
  percentAmount : number;
  count : nat
}.

Definition zeroTotals : Totals :=
  {| withdrawal := Z2num 0; fee := Z2num 0; percentAmount := Z2num 0; count := 0 |}.

(** A [Map] in insertion order. *)
Definition SummaryMap := list (jsval * Totals).

Definition mapHas (m : SummaryMap) (key : jsval) : bool :=
  existsb (fun e => sameValueZero (fst e) key) m.

(** [m.set(key, v)] for a key that is not in [m]. *)
Definition mapAdd (m : SummaryMap) (key : jsval) (v : Totals) : SummaryMap := m ++ [(key, v)].

(** Updates the entry of [key] in place, as the assignments through
    [m.get(key)] do. *)
Definition mapUpdate (m : SummaryMap) (key : jsval) (f : Totals -> Totals) : SummaryMap :=
  map (fun e => if sameValueZero (fst e) key then (fst e, f (snd e)) else e) m.

(** The callback of [filteredData.forEach]. *)
Definition accumulate (percent : number) (m : SummaryMap) (r : row) : SummaryMap :=
  let merchant := get r k_Merchant in
  let withdrawal_ := JsNumber.orZero (parseFloat (get r k_Withdrawal)) in
  let fee_ := JsNumber.orZero (parseFloat (get r k_Fees)) in
  let percentAmount_ := JsNumber.div (JsNumber.mul withdrawal_ percent) (Z2num 100) in
  let m1 := if mapHas m merchant then m else mapAdd m merchant zeroTotals in
  mapUpdate m1 merchant (fun current =>
    {| withdrawal := JsNumber.add (withdrawal current) withdrawal_;
       fee := JsNumber.add (fee current) fee_;
       percentAmount := JsNumber.add (percentAmount current) percentAmount_;
       count := count current + 1 |}).

Definition summaryMapOf (percent : number) (filtered : list row) : SummaryMap :=
  fold_left (accumulate percent) filtered [].

(** [`${percent}% Amount`] *)
Definition percentKey (percent : number) : jsstring :=
  JsNumber.toString percent ++ u "% Amount".

(** [Array.from(summaryMap.entries()).map(...)] *)
Definition merchantRows (percent : number) (m : SummaryMap) : list SummaryRow :=
  map (fun e =>
         {| Merchant := fst e;
            TotalWithdrawalAmount := toFixed2 (withdrawal (snd e));
            TotalWithdrawalFees := toFixed2 (fee (snd e));
            PercentKey := percentKey percent;
            PercentAmount := toFixed2 (percentAmount (snd e));
            TransactionCount := count (snd e) |}) m.

(** [rows.reduce((sum, row) => sum + parseFloat(row[field]), 0)] *)
Definition sumField (field : SummaryRow -> jsstring) (rows : list SummaryRow) : number :=
  fold_left (fun sum r => JsNumber.add sum (parseFloat (VStr (field r)))) rows (Z2num 0).

Definition totalsRow (percent : number) (rows : list SummaryRow) : SummaryRow :=
  {| Merchant := VStr (u "TOTAL");
     TotalWithdrawalAmount := toFixed2 (sumField TotalWithdrawalAmount rows);
     TotalWithdrawalFees := toFixed2 (sumField TotalWithdrawalFees rows);
     PercentKey := percentKey percent;
     PercentAmount := toFixed2 (sumField PercentAmount rows);
     TransactionCount := fold_left (fun sum r => sum + TransactionCount r)%nat rows 0%nat |}.

(** [summaryData] after [summaryData.push(totals)]. *)
Definition summaryData (percent : number) (filtered : list row) : list SummaryRow :=
  let rows := merchantRows percent (summaryMapOf percent filtered) in
  rows ++ [totalsRow percent rows].

(** [const { RowIndex, DateOnly, ...rest } = row; return rest] *)
Definition stripBookkeeping (r : row) : row := delete k_DateOnly (delete k_RowIndex r).

(** [!s] for a request field that should hold a string. *)
Definition missing (s : option jsstring) : bool :=
  match s with
  | Some (_ :: _) => false
  | _ => true
  end.

(** [!Date.parse(s)]: NaN and 0 are falsy. *)
Definition unparsable (s : jsstring) : bool :=
  match Date_parse h s with
  | Some t => t =? 0
  | None => true
  end.

(** The handler, given the value [now] of [Date.now()]. *)
Definition generate (now : Z) (req : GenerateRequest) (w : World) : Response * World :=
  match selectedMerchants req with
  | None | Some [] => (ErrorResponse 400 (u "NO_MERCHANTS"), w)
  | Some selected =>
      let percent := parseFloat (percentage req) in
      if isNaN percent || JsNumber.ltb percent (Z2num 0) || JsNumber.ltb (Z2num 100) percent
      then (ErrorResponse 400 (u "INVALID_PERCENTAGE"), w)
      else
        let start := default [] (startDate req) in
        let stop := default [] (endDate req) in
        if missing (startDate req) || missing (endDate req)
           || unparsable start || unparsable stop
        then (ErrorResponse 400 (u "INVALID_DATE"), w)
        else
          match fileData w with
          | None => (ErrorResponse 400 (u "NO_DATA"), w)
          | Some fd =>
              let filtered := filterData (processedData fd) selected start stop in
              if bool_decide (length filtered = 0%nat)
              then (ErrorResponse 404 (u "NO_MATCHING_DATA"), w)
              else
                let sm := summaryMapOf percent filtered in
                let rows := merchantRows percent sm in
                let summary := rows ++ [totalsRow percent rows] in
                let outputFilename := u "summary_" ++ decimal now ++ u ".xlsx" in
                let wb := {| Transactions := map stripBookkeeping filtered;
                             Summary := summary |} in
                (GenerateResponse summary (u "/download/" ++ outputFilename)
                   (start ++ u " to " ++ stop) (length filtered) (length sm),
                 {| fileData := fileData w;
                    outputFiles := outputFiles w ++ [(outputFilename, wb)] |})
          end
  end.

End Server.

(* ================================================================= *)
(** ** The other server files

    The repository holds three more versions of the server. Two of them
    overlap with [src/server.js] in what they compute and differ in how;
    their date helpers and, for the first, its /generate handler are
    embedded here so that the differences can be stated. *)

(** [ToString] on the values a JSON body holds. The text of a [Date] is
    the host's; it is not needed below and left empty. *)
Definition toStringValue (v : jsval) : jsstring :=
  match v with
  | VUndefined => u "undefined"
  | VNull => u "null"
  | VBool b => if b then u "true" else u "false"
  | VNum x => JsNumber.toString x
  | VStr s => s
  | VDate _ => []
  end.

(** *** src/unnamed/part_000 *)

Module Part000.

(** [new Date(Date.UTC(1899, 11, 30))] *)
Definition excelEpoch : timeValue :=
  match TimeClipZ (MakeDate (MakeDay 1899 11 30) (MakeTime 0 0 0 0)) with
  | Some t => newDateNumber (Z2num t)
  | None => None
  end.

(** [date.toISOString().slice(0, 10)] *)
Definition isoSlice (date : timeValue) : completion jsval :=
  s ← toISOString date; Normal (VStr (take 10 s)).

(** [/^\d{2}-\d{2}-\d{4}/.test(s)] *)
Definition dayFirstShape (s : jsstring) : bool :=
  match s with
  | d1 :: d2 :: a :: m1 :: m2 :: b :: y1 :: y2 :: y3 :: y4 :: _ =>
      isDigit d1 && isDigit d2 && (a =? 45)%N && isDigit m1 && isDigit m2 && (b =? 45)%N
      && isDigit y1 && isDigit y2 && isDigit y3 && isDigit y4
  | _ => false
  end.

(** An element of an array of strings inside a template literal: a
    missing one prints as [undefined]. *)
Definition part (parts : list jsstring) (i : nat) : jsstring :=
  default (u "undefined") (parts !! i).

Section Part000.

Context (h : Host).

Definition extractDateOnly (value : jsval) : completion jsval :=
  if negb (toBoolean value) then Normal (VStr [])
  else
    match value with
    | VNum x =>
        isoSlice (newDateNumber
                    (JsNumber.add (getTime excelEpoch)
                       (JsNumber.mul (JsNumber.sub x (Z2num 1)) (Z2num 86400000))))
    | _ =>
        match value with
        | VStr s =>
            if dayFirstShape s then
              let parts := JsString.split 45 (part (JsString.split 32 s) 0) in
              let date :=
                newDateString h (part parts 2 ++ 45%N :: part parts 1 ++ 45%N :: part parts 0) in
              if isNaN (getTime date) then Normal (VStr []) else isoSlice date
            else
              let parsed := newDate h value in
              if isNaN (getTime parsed) then Normal (VStr []) else isoSlice parsed
        | _ =>
            let parsed := newDate h value in
            if isNaN (getTime parsed) then Normal (VStr []) else isoSlice parsed
        end
    end.

(** One row of this version's Summary sheet. *)
Record SummaryRow := {
  Merchant : jsstring;
  TotalWithdrawalAmount : jsstring;
  TotalWithdrawalFees : jsstring;
  PercentKey : jsstring;
  PercentAmount : jsstring
}.

Record Workbook := {
  FilteredData : list row;
  Summary : list SummaryRow
}.

(** The state: the module variable [globalData], whose rows the handlers
    share by reference (a row is addressed by its index), and the one
    output file. *)
Record World := {
  globalData : list row;
  outputFile : option Workbook
}.

(** What the body holds under [selectedMerchants]. The handler tests it
    with [!selectedMerchants] only and then runs [for...of] over it:
    nothing or a falsy value ([null], [false], [0], the empty string);
    an array of strings (a string that is not empty is iterated
    character by character, as the array of its characters would be);
    or a truthy value that cannot be iterated (a number, [true], a plain
    object), on which [for...of] throws a TypeError. *)
Inductive Selection :=
  | NoSelection
  | Merchants (names : list jsstring)
  | NotIterable.

Record Request := {
  selectedMerchants : Selection;
  percentage : jsval;
  startDate : option jsstring;
  endDate : option jsstring
}.

Inductive Response :=
  | ErrorResponse (status : Z) (error : jsstring)
  | SummaryResponse (summary : list SummaryRow) (dateRange : jsstring).

(** [new Date(s).toISOString().slice(0, 10)] *)
Definition normalizeDate (s : jsstring) : completion jsstring :=
  d ← toISOString (newDateString h s); Normal (take 10 d).

(** [parseFloat(v || 0)] *)
Definition amountOf (v : jsval) : number :=
  parseFloat (if toBoolean v then v else VNum (Z2num 0)).

(** The running totals of one merchant, the rows pushed so far and the
    dataset as the assignments have left it. *)
Record Loop := {
  rows_ : list row;
  totalW : number;
  totalF : number;
  totalP : number;
  pushed : list nat
}.

(** The callback of [rows.forEach], on the row at index [i]. *)
Definition visit (percent : number) (key : jsstring) (st : Loop) (i : nat) : Loop :=
  match rows_ st !! i with
  | None => st
  | Some r =>
      let withdrawal_ := amountOf (get r k_Withdrawal) in
      let fee_ := amountOf (get r k_Fees) in
      let percentAmount_ := JsNumber.div (JsNumber.mul withdrawal_ percent) (Z2num 100) in
      {| rows_ := <[i := <[key := VStr (toFixed2 percentAmount_)]> r]> (rows_ st);
         totalW := JsNumber.add (totalW st) withdrawal_;
         totalF := JsNumber.add (totalF st) fee_;
         totalP := JsNumber.add (totalP st) percentAmount_;
         pushed := pushed st ++ [i] |}
  end.

(** Indices of the rows of [data] that satisfy [p]. *)
Definition indicesWhere (p : row -> bool) (data : list row) : list nat :=
  omap id (imap (fun i r => if p r then Some i else None) data).

(** The state of the outer loop. *)
Record Outer := {
  data_ : list row;
  summaryData : list SummaryRow;
  filteredData : list nat;
  grandW : number;
  grandF : number;
  grandP : number
}.

(** The body of [for (const merchant of selectedMerchants)]. *)
Definition perMerchant (percent : number) (key : jsstring) (dateFiltered : list nat)
    (o : Outer) (merchant : jsstring) : Outer :=
  let rows :=
    List.filter (fun i => match data_ o !! i with
                          | Some r => bool_decide (get r k_Merchant = VStr merchant)
                          | None => false
                          end) dateFiltered in
  let st := fold_left (visit percent key) rows
              {| rows_ := data_ o; totalW := Z2num 0; totalF := Z2num 0; totalP := Z2num 0;
                 pushed := [] |} in
  {| data_ := rows_ st;
     summaryData := summaryData o
       ++ [{| Merchant := merchant;
              TotalWithdrawalAmount := toFixed2 (totalW st);
              TotalWithdrawalFees := toFixed2 (totalF st);
              PercentKey := key;
              PercentAmount := toFixed2 (totalP st) |}];
     filteredData := filteredData o ++ pushed st;
     grandW := JsNumber.add (grandW o) (totalW st);
     grandF := JsNumber.add (grandF o) (totalF st);
     grandP := JsNumber.add (grandP o) (totalP st) |}.

(** The handler from [for (const merchant of selectedMerchants)] on,
    for an array of strings. *)
Definition summarize (percent : number) (key : jsstring) (normalizedStart normalizedEnd : jsstring)
    (dateFiltered : list nat) (selected : list jsstring) (w : World)
  : completion (Response * World) :=
  let o := fold_left (perMerchant percent key dateFiltered) selected
             {| data_ := globalData w; summaryData := []; filteredData := [];
                grandW := Z2num 0; grandF := Z2num 0; grandP := Z2num 0 |} in
  let summary := summaryData o
    ++ [{| Merchant := u "TOTAL";
           TotalWithdrawalAmount := toFixed2 (grandW o);
           TotalWithdrawalFees := toFixed2 (grandF o);
           PercentKey := key;
           PercentAmount := toFixed2 (grandP o) |}] in
  if bool_decide (length (filteredData o) = 0%nat) && bool_decide (length summary = 0%nat)
  then Normal (ErrorResponse 404 (u "No data found in range"), w)
  else
    Normal (SummaryResponse summary (normalizedStart ++ u " to " ++ normalizedEnd),
            {| globalData := data_ o;
               outputFile := Some {| FilteredData := omap (fun i => data_ o !! i) (filteredData o);
                                     Summary := summary |} |}).

Definition generate (req : Request) (w : World) : completion (Response * World) :=
  match selectedMerchants req, startDate req, endDate req with
  | NoSelection, _, _ => Normal (ErrorResponse 400 (u "Missing fields"), w)
  | selection, Some (c :: start), Some (c' :: stop) =>
      if negb (toBoolean (percentage req)) then Normal (ErrorResponse 400 (u "Missing fields"), w)
      else
        let percent := parseFloat (percentage req) in
        if isNaN percent then Normal (ErrorResponse 400 (u "Invalid percentage"), w)
        else
          normalizedStart ← normalizeDate (c :: start);
          normalizedEnd ← normalizeDate (c' :: stop);
          let dateFiltered :=
            indicesWhere (fun r => geStr (get r k_DateOnly) normalizedStart
                                   && leStr (get r k_DateOnly) normalizedEnd) (globalData w) in
          let key := toStringValue (percentage req) ++ u "% Amount" in
          match selection with
          | Merchants selected =>
              summarize percent key normalizedStart normalizedEnd dateFiltered selected w
          | _ => Throw TypeError
          end
  | _, _, _ => Normal (ErrorResponse 400 (u "Missing fields"), w)
  end.

(** [globalData = rawData.map(row => ({ ...row, DateOnly: ... }))]: an
    error thrown for one row ends the request. *)
Fixpoint ingest (rawData : list row) : completion (list row) :=
  match rawData with
  | [] => Normal []
  | r :: rest =>
      d ← extractDateOnly (get r k_Date);
      rs ← ingest rest;
      Normal (<[k_DateOnly := d]> r :: rs)
  end.

End Part000.

End Part000.

(** *** src/unnamed/part_001 *)

Module Part001.

(** [s.split(/[-/]/)] *)
Fixpoint splitDashSlash (s : jsstring) : list jsstring :=
  match s with
  | [] => [[]]
  | c :: r =>
      if (c =? 45)%N || (c =? 47)%N then [] :: splitDashSlash r
      else match splitDashSlash r with
           | p :: ps => (c :: p) :: ps
           | [] => [[c]]
           end
  end.

Section Part001.

Context (h : Host).

Definition parseExcelDate (excelDate : jsval) : completion jsval :=
  tryCatch
    (match excelDate with
     | VNum x =>
         datePart (newDateNumber
                     (JsNumber.add (getTime (newDateLocal h 1899 11 30))
                        (JsNumber.mul (JsNumber.sub x (Z2num 1)) (Z2num 86400000))))
     | VStr s =>
         match splitDashSlash s with
         | [p0; p1; p2] => datePart (newDateString h (p2 ++ 45%N :: p1 ++ 45%N :: p0))
         | _ => datePart (newDate h excelDate)
         end
     | _ => datePart (newDate h excelDate)
     end)
    (fun err => Normal VNull).

End Part001.

End Part001.

(* ================================================================= *)
(** ** Vocabulary of the statements *)

(** The [YYYY-MM-DD] string of the day with number [d], counted from
    1970-01-01. *)
Definition isoDateOfDay (d : Z) : jsstring := isoDate (d * msPerDay).

(** The day number of 1899-12-30, and local midnight of that day as the
    time value [new Date(1899, 11, 30)] starts from. *)
Definition epochDay : Z := MakeDay 1899 11 30.
Definition epochLocal : Z := MakeDate epochDay (MakeTime 0 0 0 0).

(** The candidates one separator contributes: when it splits the text in
    three, the day-first ([DD-MM-YYYY] read as [YYYY-MM-DD]) and then the
    month-first rearrangement. *)
Definition candidatesAt (s : jsstring) (sep : N) : list jsstring :=
  match JsString.split sep s with
  | [p0; p1; p2] => formatsOf p0 p1 p2
  | _ => []
  end.

(** The strings [parseExcelDate] has the [Date] parser try for a text, in
    the order it tries them: the candidates of each separator, last the
    text as it stands. *)
Definition interpretations (s : jsstring) : list jsstring :=
  flat_map (candidatesAt s) separators ++ [s].

(** A character of a date part: a digit, [-] or [+]. *)
Definition dateChar (c : N) : Prop := isDigit c = true \/ c = 45%N \/ c = 43%N.

(** A part of a date text: free of the three separators. *)
Definition plain (p : jsstring) : Prop :=
  Forall (fun c => c <> 45%N /\ c <> 47%N /\ c <> 46%N) p.

(** The date part of the first string that parses to a valid date. *)
Fixpoint firstValid (h : Host) (cs : list jsstring) : option jsstring :=
  match cs with
  | [] => None
  | c :: r =>
      match newDateString h c with
      | Some t => Some (isoDate t)
      | None => firstValid h r
      end
  end.

(** Three parts joined by a separator, and a calendar date written with
    two digits for the day and the month and four for the year:
    [YYYY-MM-DD]. *)
Definition joined (sep : N) (p0 p1 p2 : jsstring) : jsstring :=
  p0 ++ sep :: p1 ++ sep :: p2.

Definition two (n : Z) : jsstring := padZeros 2 (decimal n).
Definition four (n : Z) : jsstring := padZeros 4 (decimal n).

Definition ymd (y m d : Z) : jsstring := joined 45 (four y) (two m) (two d).

(** [null] for no date. *)
Definition dateOrNull (d : option jsstring) : jsval :=
  match d with
  | Some s => VStr s
  | None => VNull
  end.

(** The value [parseExcelDate] returns for the [Date] cell of a row. *)
Definition dateOnlyOf (h : Host) (r : row) : jsval :=
  match parseExcelDate h (get r k_Date) with
  | Normal d => d
  | Throw _ => VNull
  end.

(** Strictly ascending by code units, stated on its own. *)
Inductive lexLt : jsstring -> jsstring -> Prop :=
  | lexLt_nil c b : lexLt [] (c :: b)
  | lexLt_head x y a b : (x < y)%N -> lexLt (x :: a) (y :: b)
  | lexLt_tail x a b : lexLt a b -> lexLt (x :: a) (x :: b).

Definition lexLe (a b : jsstring) : Prop := a = b \/ lexLt a b.

(** The summary rows of a response, none for an error. *)
Definition summaryOf (r : Response) : list SummaryRow :=
  match r with
  | GenerateResponse s _ _ _ _ => s
  | _ => []
  end.

(** The workbooks written between two states of the output directory. *)
Definition written (w w' : World) : list Workbook :=
  map snd (drop (length (outputFiles w)) (outputFiles w')).

(** The two raw rows of the specification's scenario. *)
Definition rowA : row :=
  <[k_Date := VNum (Z2num 45001)]> (<[k_Merchant := VStr (u "A")]>
    (<[k_Withdrawal := VNum (Z2num 100)]> (<[k_Fees := VNum (Z2num 2)]> ∅))).

Definition rowB : row :=
  <[k_Date := VNum (Z2num 45002)]> (<[k_Merchant := VStr (u "B")]>
    (<[k_Withdrawal := VNum (Z2num 50)]> (<[k_Fees := VNum (Z2num 1)]> ∅))).

(** A state with nothing uploaded. *)
Definition emptyWorld : World := {| fileData := None; outputFiles := [] |}.

(** A request that passes the checks of /generate in a state that holds
    an upload: the merchants selected, the rate as a Number between 0 and
    100, the two dates, and the stored upload. *)
Definition accepted (h : Host) (req : GenerateRequest) (w : World)
    (selected : list jsstring) (percent : number) (start stop : jsstring) (fd : FileData)
  : Prop :=
  selectedMerchants req = Some selected /\ selected <> []
  /\ percent = parseFloat (percentage req)
  /\ isNaN percent = false
  /\ JsNumber.ltb percent (Z2num 0) = false
  /\ JsNumber.ltb (Z2num 100) percent = false
  /\ startDate req = Some start /\ endDate req = Some stop
  /\ start <> [] /\ stop <> []
  /\ unparsable h start = false /\ unparsable h stop = false
  /\ fileData w = Some fd.

(** The request of the specification's scenario: both merchants, 5 per
    cent, March 2023. *)
Definition marchRequest : GenerateRequest :=
  {| selectedMerchants := Some [u "A"; u "B"];
     percentage := VStr (u "5");
     startDate := Some (u "2023-03-01");
     endDate := Some (u "2023-03-31") |}.

(** The same for April, when there are no transactions. *)
Definition aprilRequest : GenerateRequest :=
  {| selectedMerchants := Some [u "A"; u "B"];
     percentage := VStr (u "5");
     startDate := Some (u "2023-04-01");
     endDate := Some (u "2023-04-30") |}.

(** The state after the scenario's upload. *)
Definition scenarioWorld : World := snd (upload utcHost [rowA; rowB] emptyWorld).

(** The name of the workbook written at time [now]. *)
Definition outputName (now : Z) : jsstring := u "summary_" ++ decimal now ++ u ".xlsx".

(** The summary the scenario expects. *)
Definition scenarioSummary : list SummaryRow :=
  [ {| Merchant := VStr (u "A"); TotalWithdrawalAmount := u "100.00";
       TotalWithdrawalFees := u "2.00"; PercentKey := u "5% Amount";
       PercentAmount := u "5.00"; TransactionCount := 1 |};
    {| Merchant := VStr (u "B"); TotalWithdrawalAmount := u "50.00";
       TotalWithdrawalFees := u "1.00"; PercentKey := u "5% Amount";
       PercentAmount := u "2.50"; TransactionCount := 1 |};
    {| Merchant := VStr (u "TOTAL"); TotalWithdrawalAmount := u "150.00";
       TotalWithdrawalFees := u "3.00"; PercentKey := u "5% Amount";
       PercentAmount := u "7.50"; TransactionCount := 2 |} ].

(** Two merchants with four thousandths each. *)
Definition tinyRows : list row :=
  [ <[k_Merchant := VStr (u "A")]> (<[k_Withdrawal := VStr (u "0.004")]> ∅) ;
    <[k_Merchant := VStr (u "B")]> (<[k_Withdrawal := VStr (u "0.004")]> ∅) ].

(** The scenario for the version in part_000: its dataset after the
    upload, and the March request. *)
Definition scenarioData000 : list row :=
  match Part000.ingest utcHost [rowA; rowB] with
  | Normal rs => rs
  | Throw _ => []
  end.

Definition marchRequest000 : Part000.Request :=
  {| Part000.selectedMerchants := Part000.Merchants [u "A"; u "B"];
     Part000.percentage := VStr (u "5");
     Part000.startDate := Some (u "2023-03-01");
     Part000.endDate := Some (u "2023-03-31") |}.

Definition aprilRequest000 : Part000.Request :=
  {| Part000.selectedMerchants := Part000.Merchants [u "A"];
     Part000.percentage := VStr (u "5");
     Part000.startDate := Some (u "2023-04-01");
     Part000.endDate := Some (u "2023-04-30") |}.

(** The dataset [tinyRows] dated 2023-03-15. *)
Definition tinyData000 : list row :=
  map (fun r => <[k_DateOnly := VStr (u "2023-03-15")]> r) tinyRows.

(** What /generate of part_000 leaves in [globalData], and the summary
    it answers with. *)
Definition after000 (req : Part000.Request) (data : list row) : list row :=
  match Part000.generate utcHost req
          {| Part000.globalData := data; Part000.outputFile := None |} with
  | Normal (_, w') => Part000.globalData w'
  | Throw _ => data
  end.

Definition summary000 (req : Part000.Request) (data : list row) : list Part000.SummaryRow :=
  match Part000.generate utcHost req
          {| Part000.globalData := data; Part000.outputFile := None |} with
  | Normal (Part000.SummaryResponse summary _, _) => summary
  | _ => []
  end.

(* ================================================================= *)
(** ** The upload filter and GET /download (src/server.js) *)

(** [s.includes(p)], and [re.test(s)] for a pattern [re] that is the
    plain text [p]: [p] occurs somewhere in [s]. *)
Fixpoint occursIn (p s : jsstring) : bool :=
  JsNumber.isPrefix p s
  || match s with
     | [] => false
     | _ :: r => occursIn p r
     end.

(** [/xlsx|xls|csv/.test(s)] *)
Definition filetypes (s : jsstring) : bool :=
  occursIn (u "xlsx") s || occursIn (u "xls") s || occursIn (u "csv") s.

(** What the filter takes from the platform: [path.extname], which
    differs between POSIX and Windows, and [String.prototype.toLowerCase],
    the Unicode case mapping. *)
Record Platform := {
  extname : jsstring -> jsstring;
  toLowerCase : jsstring -> jsstring
}.

(** The two fields of multer's file object the filters read. *)
Record File := {
  originalname : jsstring;
  mimetype : jsstring
}.

(** What the filter hands to its callback: [cb(null, true)], or
    [cb(new Error(message), false)]. *)
Inductive FilterResult :=
  | Accept
  | Reject (message : jsstring).

Definition fileFilter (p : Platform) (file : File) : FilterResult :=
  let extname_ := filetypes (toLowerCase p (extname p (originalname file))) in
  let mimetype_ := filetypes (mimetype file) in
  if mimetype_ && extname_ then Accept
  else Reject (u "Only Excel/CSV files are allowed!").

(** [s] without the prefix [p], when it starts with it. *)
Fixpoint stripPrefix (p s : jsstring) : option jsstring :=
  match p, s with
  | [], _ => Some s
  | a :: p', b :: s' => if (a =? b)%N then stripPrefix p' s' else None
  | _ :: _, [] => None
  end.

(** [/^summary_\d+\.xlsx$/] matches [s]: after the prefix the longest
    run of digits is not empty and what follows it is [.xlsx] to the end
    (a digit run cut short would be followed by a digit, not by the
    point). *)
Definition summaryFilename (s : jsstring) : bool :=
  match stripPrefix (u "summary_") s with
  | Some r =>
      let '(ds, rest) := spanDigits r in
      negb (JsString.eqb ds []) && JsString.eqb rest (u ".xlsx")
  | None => false
  end.

(** The output directory as the list of the writes made to it: a later
    write replaces an earlier file of the same name, so the file under a
    name is the last one written under it. *)
Fixpoint lookupFile (name : jsstring) (files : list (jsstring * Workbook)) : option Workbook :=
  match files with
  | [] => None
  | (n, wb) :: r =>
      match lookupFile name r with
      | Some wb' => Some wb'
      | None => if JsString.eqb n name then Some wb else None
      end
  end.

(** [fs.unlink] of the file under [name]. *)
Definition unlink (name : jsstring) (files : list (jsstring * Workbook))
  : list (jsstring * Workbook) :=
  List.filter (fun e => negb (JsString.eqb (fst e) name)) files.

Inductive DownloadResponse :=
  | DownloadError (status : Z) (error : jsstring)
  | DownloadFile (contentType contentDisposition : jsstring) (body : Workbook).

Definition xlsxContentType : jsstring :=
  u "application/vnd.openxmlformats-officedocument.spreadsheetml.sheet".

(** The handler of GET /download/:filename, up to the end of the stream:
    the file is sent whole and removed when the stream has ended. (A read
    error in the middle of the stream, which ends the response with
    status 500, is a failure of the file system and not modelled.) *)
Definition download (filename : jsstring) (w : World) : DownloadResponse * World :=
  if negb (toBoolean (VStr filename)) || negb (summaryFilename filename)
  then (DownloadError 400 (u "INVALID_FILENAME"), w)
  else
    match lookupFile filename (outputFiles w) with
    | None => (DownloadError 404 (u "FILE_NOT_FOUND"), w)
    | Some wb =>
        (DownloadFile xlsxContentType (u "attachment; filename=" ++ filename) wb,
         {| fileData := fileData w; outputFiles := unlink filename (outputFiles w) |})
    end.

(** One request served: the state before and after. [Date.now()] is not
    negative on a clock set after 1970. *)
Inductive step (h : Host) : World -> World -> Prop :=
  | step_upload rawData w : step h w (snd (upload h rawData w))
  | step_generate now req w : 0 <= now -> step h w (snd (generate h now req w))
  | step_download filename w : step h w (snd (download filename w)).

(** The states the server can be in: it starts with nothing uploaded and
    an emptied output directory. *)
Inductive reachable (h : Host) : World -> Prop :=
  | reachable_start : reachable h emptyWorld
  | reachable_step w w' : reachable h w -> step h w w' -> reachable h w'.

(** What holds of every state the server can be in: each file in the
    output directory has a name /download accepts and holds a workbook
    with transactions and a summary that ends with the [TOTAL] row; and
    the stored upload is what /upload computes from some sheet with
    rows. *)
Definition wellFormed (h : Host) (w : World) : Prop :=
  (forall name wb, (name, wb) ∈ outputFiles w ->
     summaryFilename name = true
     /\ Transactions wb <> []
     /\ exists rows total, Summary wb = rows ++ [total] /\ Merchant total = VStr (u "TOTAL"))
  /\ (forall fd, fileData w = Some fd ->
        exists rawData, rawData <> []
          /\ processedData fd = processRows h rawData
          /\ merchants fd = extractMerchants (processedData fd)).

(** The media types registered for .xls and .csv files (the one for
    .xlsx files is [xlsxContentType]). *)
Definition xlsContentType : jsstring := u "application/vnd.ms-excel".
Definition csvContentType : jsstring := u "text/csv".

(** The merchant names of some records that are strings, in order, and
    the records of one merchant. *)
Definition merchantsIn (rs : list row) : list jsstring :=
  stringsOf (map (fun r => get r k_Merchant) rs).

Definition recordsOf (m : jsstring) (rs : list row) : list row :=
  List.filter (fun r => bool_decide (get r k_Merchant = VStr m)) rs.

(** The merchant cells that hold a string with something other than
    white space in it, in the order of the rows. *)
Definition namesIn (rs : list row) : list jsstring :=
  List.filter (fun s => negb (JsString.eqb (JsString.trim s) [])) (merchantsIn rs).

(** March 2023 with the two dates exchanged, and a range that starts on
    the first day of 1970. *)
Definition invertedRequest : GenerateRequest :=
  {| selectedMerchants := Some [u "A"; u "B"];
     percentage := VStr (u "5");
     startDate := Some (u "2023-03-31");
     endDate := Some (u "2023-03-01") |}.

Definition epochRequest : GenerateRequest :=
  {| selectedMerchants := Some [u "A"; u "B"];
     percentage := VStr (u "5");
     startDate := Some (u "1970-01-01");
     endDate := Some (u "2023-03-31") |}.

(** *** What part_000's /generate computes, without its loops

    The handler walks the rows of each selected merchant and writes into
    them as it goes. The definitions below describe the outcome from the
    dataset as it was before the request. *)

Section Outcome000.

Context (percent : number) (key : jsstring) (data : list row) (dateFiltered : list nat).

(** The rows in the date range that belong to a merchant, by index. *)
Definition rowsFor (merchant : jsstring) : list nat :=
  List.filter (fun i => match data !! i with
                        | Some r => bool_decide (get r k_Merchant = VStr merchant)
                        | None => false
                        end) dateFiltered.

(** The share of a row's withdrawal. *)
Definition percentAmountOf (r : row) : number :=
  JsNumber.div (JsNumber.mul (Part000.amountOf (get r k_Withdrawal)) percent) (Z2num 100).

(** A quantity added up over rows in order, from a given start and from
    0. *)
Definition sumFrom (f : row -> number) (indices : list nat) (start : number) : number :=
  fold_left (fun acc i => match data !! i with
                          | Some r => JsNumber.add acc (f r)
                          | None => acc
                          end) indices start.

Definition sumOver (f : row -> number) (indices : list nat) : number :=
  sumFrom f indices (Z2num 0).

Definition withdrawalOf (r : row) : number := Part000.amountOf (get r k_Withdrawal).
Definition feeOf (r : row) : number := Part000.amountOf (get r k_Fees).

(** The summary row of a merchant: the sums, rounded. *)
Definition merchantRow000 (merchant : jsstring) : Part000.SummaryRow :=
  {| Part000.Merchant := merchant;
     Part000.TotalWithdrawalAmount := toFixed2 (sumOver withdrawalOf (rowsFor merchant));
     Part000.TotalWithdrawalFees := toFixed2 (sumOver feeOf (rowsFor merchant));
     Part000.PercentKey := key;
     Part000.PercentAmount := toFixed2 (sumOver percentAmountOf (rowsFor merchant)) |}.

(** The sum over the selected merchants of their sums, not rounded in
    between. *)
Definition grandSum (f : row -> number) (selected : list jsstring) : number :=
  fold_left (fun g m => JsNumber.add g (sumOver f (rowsFor m))) selected (Z2num 0).

Definition totalRow000 (selected : list jsstring) : Part000.SummaryRow :=
  {| Part000.Merchant := u "TOTAL";
     Part000.TotalWithdrawalAmount := toFixed2 (grandSum withdrawalOf selected);
     Part000.TotalWithdrawalFees := toFixed2 (grandSum feeOf selected);
     Part000.PercentKey := key;
     Part000.PercentAmount := toFixed2 (grandSum percentAmountOf selected) |}.

(** The dataset with the share written into the rows at [visited]. *)
Definition marked (visited : list nat) : list row :=
  imap (fun i r => if bool_decide (i ∈ visited)
                   then <[key := VStr (toFixed2 (percentAmountOf r))]> r
                   else r) data.

End Outcome000.

(** The key of the share column for a request, and the rows whose
    [DateOnly] lies in a range. *)
Definition shareKey (percentage : jsval) : jsstring :=
  toStringValue percentage ++ u "% Amount".

Definition inRange (start stop : jsstring) (data : list row) : list nat :=
  Part000.indicesWhere (fun r => geStr (get r k_DateOnly) start && leStr (get r k_DateOnly) stop)
    data.

(** A request part_000's /generate does not refuse: something is
    selected, both dates are given and the percentage reads as a number. *)
Definition complete000 (req : Part000.Request) : Prop :=
  Part000.selectedMerchants req <> Part000.NoSelection
  /\ (exists s, Part000.startDate req = Some s /\ s <> [])
  /\ (exists e, Part000.endDate req = Some e /\ e <> [])
  /\ toBoolean (Part000.percentage req) = true
  /\ isNaN (parseFloat (Part000.percentage req)) = false.

(** Both dates of a request are dates for the host's parser. *)
Definition datesParse000 (h : Host) (req : Part000.Request) : Prop :=
  exists s e ts te,
    Part000.startDate req = Some s /\ Part000.endDate req = Some e
    /\ newDateString h s = Some ts /\ newDateString h e = Some te.

(** The March request with the number 5 where the array of merchants
    should be. *)
Definition numberSelection000 : Part000.Request :=
  {| Part000.selectedMerchants := Part000.NotIterable;
     Part000.percentage := VStr (u "5");
     Part000.startDate := Some (u "2023-03-01");
     Part000.endDate := Some (u "2023-03-31") |}.

(** The state part_000's /generate leaves, from a dataset and no output
    file. *)
Definition world000 (req : Part000.Request) (data : list row) : Part000.World :=
  match Part000.generate utcHost req
          {| Part000.globalData := data; Part000.outputFile := None |} with
  | Normal (_, w') => w'
  | Throw _ => {| Part000.globalData := data; Part000.outputFile := None |}
  end.

(* ================================================================= *)
(** ** The handlers of src/unnamed/part_001 *)

Module Part001Server.

(** One row of this version's Summary sheet: there is no count. *)
Record SummaryRow := {
  Merchant : jsval;
  TotalWithdrawalAmount : jsstring;
  TotalWithdrawalFees : jsstring;
  PercentKey : jsstring;
  PercentAmount : jsstring
}.

Record Workbook := {
  Transactions : list row;
  Summary : list SummaryRow
}.

(** [app.locals.processedData] and the output directory. *)
Record World := {
  processedData : option (list row);
  outputFiles : list (jsstring * Workbook)
}.

Inductive Response :=
  | ErrorResponse (status : Z) (error : jsstring)
  | UploadResponse (merchants : list jsstring)
  | GenerateResponse (summary : list SummaryRow) (downloadUrl dateRange : jsstring).

(** [name && name.trim() !== ''], the callback of the filter on the
    merchant names: a truthy value that is no string has no [trim], and
    calling it throws a TypeError. *)
Definition keepName (name : jsval) : completion bool :=
  if negb (toBoolean name) then Normal false
  else
    match name with
    | VStr s => Normal (negb (JsString.eqb (JsString.trim s) []))
    | _ => Throw TypeError
    end.

(** [names.filter(keepName)]: the first error ends the filter. *)
Fixpoint filterNames (names : list jsval) : completion (list jsval) :=
  match names with
  | [] => Normal []
  | name :: rest =>
      keep ← keepName name;
      kept ← filterNames rest;
      Normal (if keep : bool then name :: kept else kept)
  end.

(** The value [summaryMap] keeps per merchant. *)
Record Totals := {
  withdrawal : number;
  fee : number;
  percentAmount : number
}.

Definition SummaryMap := list (jsval * Totals).

Definition mapHas (m : SummaryMap) (key : jsval) : bool :=
  existsb (fun e => sameValueZero (fst e) key) m.

Definition mapUpdate (m : SummaryMap) (key : jsval) (f : Totals -> Totals) : SummaryMap :=
  map (fun e => if sameValueZero (fst e) key then (fst e, f (snd e)) else e) m.

(** The callback of [filteredData.forEach]. *)
Definition accumulate (percent : number) (m : SummaryMap) (r : row) : SummaryMap :=
  let merchant := get r k_Merchant in
  let withdrawal_ := JsNumber.orZero (parseFloat (get r k_Withdrawal)) in
  let fee_ := JsNumber.orZero (parseFloat (get r k_Fees)) in
  let percentAmount_ := JsNumber.div (JsNumber.mul withdrawal_ percent) (Z2num 100) in
  let m1 :=
    if mapHas m merchant then m
    else m ++ [(merchant, {| withdrawal := Z2num 0; fee := Z2num 0; percentAmount := Z2num 0 |})] in
  mapUpdate m1 merchant (fun current =>
    {| withdrawal := JsNumber.add (withdrawal current) withdrawal_;
       fee := JsNumber.add (fee current) fee_;
       percentAmount := JsNumber.add (percentAmount current) percentAmount_ |}).

Definition merchantRows (percent : number) (m : SummaryMap) : list SummaryRow :=
  map (fun e =>
         {| Merchant := fst e;
            TotalWithdrawalAmount := toFixed2 (withdrawal (snd e));
            TotalWithdrawalFees := toFixed2 (fee (snd e));
            PercentKey := percentKey percent;
            PercentAmount := toFixed2 (percentAmount (snd e)) |}) m.

Definition sumField (field : SummaryRow -> jsstring) (rows : list SummaryRow) : number :=
  fold_left (fun sum r => JsNumber.add sum (parseFloat (VStr (field r)))) rows (Z2num 0).

Definition totalsRow (percent : number) (rows : list SummaryRow) : SummaryRow :=
  {| Merchant := VStr (u "TOTAL");
     TotalWithdrawalAmount := toFixed2 (sumField TotalWithdrawalAmount rows);
     TotalWithdrawalFees := toFixed2 (sumField TotalWithdrawalFees rows);
     PercentKey := percentKey percent;
     PercentAmount := toFixed2 (sumField PercentAmount rows) |}.

Section Part001Server.

Context (h : Host).

(** [rawData.map(row => ({ ...row, DateOnly: parseExcelDate(row.Date) }))] *)
Fixpoint processRows (rawData : list row) : completion (list row) :=
  match rawData with
  | [] => Normal []
  | r :: rest =>
      dateOnly ← Part001.parseExcelDate h (get r k_Date);
      rs ← processRows rest;
      Normal (<[k_DateOnly := dateOnly]> r :: rs)
  end.

(** POST /upload, from the parsed sheet on. The dataset is stored after
    the merchants have been extracted. *)
Definition upload (rawData : list row) (w : World) : Response * World :=
  match
    data ← processRows rawData;
    names ← filterNames (map (fun r => get r k_Merchant) data);
    Normal (UploadResponse (setOf [] (stringsOf names)),
            {| processedData := Some data; outputFiles := outputFiles w |})
  with
  | Normal answer => answer
  | Throw _ => (ErrorResponse 500 (u "Failed to process file"), w)
  end.

(** POST /generate, given the value [now] of [Date.now()]. *)
Definition generate (now : Z) (req : GenerateRequest) (w : World) : Response * World :=
  match selectedMerchants req with
  | None | Some [] => (ErrorResponse 400 (u "No merchants selected"), w)
  | Some selected =>
      if negb (toBoolean (percentage req)) || isNaN (parseFloat (percentage req))
      then (ErrorResponse 400 (u "Invalid percentage value"), w)
      else if missing (startDate req) || missing (endDate req)
      then (ErrorResponse 400 (u "Date range not specified"), w)
      else
        let percent := parseFloat (percentage req) in
        let start := default [] (startDate req) in
        let stop := default [] (endDate req) in
        match processedData w with
        | None | Some [] =>
            (ErrorResponse 400 (u "No data available. Please upload a file first."), w)
        | Some data =>
            let filtered := filterData data selected start stop in
            if bool_decide (length filtered = 0%nat)
            then (ErrorResponse 404 (u "No transactions found for the selected criteria"), w)
            else
              let rows := merchantRows percent (fold_left (accumulate percent) filtered []) in
              let summary := rows ++ [totalsRow percent rows] in
              let outputFilename := u "summary_" ++ decimal now ++ u ".xlsx" in
              (GenerateResponse summary (u "/download/" ++ outputFilename)
                 (start ++ u " to " ++ stop),
               {| processedData := processedData w;
                  outputFiles :=
                    outputFiles w
                    ++ [(outputFilename, {| Transactions := filtered; Summary := summary |})] |})
        end
  end.

End Part001Server.

End Part001Server.

(** A summary row of src/server.js without its count, as part_001 has
    it. *)
Definition withoutCount (r : SummaryRow) : Part001Server.SummaryRow :=
  {| Part001Server.Merchant := Merchant r;
     Part001Server.TotalWithdrawalAmount := TotalWithdrawalAmount r;
     Part001Server.TotalWithdrawalFees := TotalWithdrawalFees r;
     Part001Server.PercentKey := PercentKey r;
     Part001Server.PercentAmount := PercentAmount r |}.

(** The same for the value the map keeps, and for an entry of the map. *)
Definition totalsWithoutCount (t : Totals) : Part001Server.Totals :=
  {| Part001Server.withdrawal := withdrawal t;
     Part001Server.fee := fee t;
     Part001Server.percentAmount := percentAmount t |}.

Definition entryWithoutCount (e : jsval * Totals) : jsval * Part001Server.Totals :=
  (fst e, totalsWithoutCount (snd e)).

(** A merchant cell part_001's upload can handle: a string, or a falsy
    value. *)
Definition nameOrNothing (v : jsval) : bool :=
  negb (toBoolean v) || bool_decide (typeof v = TString).

(** The state of part_001 that holds the scenario's records. *)
Definition scenarioWorld001 : Part001Server.World :=
  {| Part001Server.processedData := Some (processRows utcHost [rowA; rowB]);
     Part001Server.outputFiles := [] |}.

(** What part_001's [parseExcelDate] returns for the [Date] cell of a
    row. *)
Definition dateOnlyOf001 (h : Host) (r : row) : jsval :=
  match Part001.parseExcelDate h (get r k_Date) with
  | Normal d => d
  | Throw _ => VNull
  end.

(** *** Whole amounts *)

(** An integer written as an amount: the sign, the digits and two zero
    decimals. *)
Definition money (k : Z) : jsstring :=
  (if k <? 0 then [45%N] else []) ++ decimal k ++ u ".00".

(** The sum of an integer quantity over records, and the sum of its
    absolute values. *)
Definition sumWhole (f : row -> Z) (rs : list row) : Z :=
  fold_right Z.add 0 (map f rs).

Definition sumAbs (f : row -> Z) (rs : list row) : Z :=
  sumWhole (fun r => Z.abs (f r)) rs.

(** The amounts and the fees of the scenario's two rows. *)
Definition scenarioAmount (r : row) : Z :=
  if bool_decide (get r k_Merchant = VStr (u "A")) then 100 else 50.

Definition scenarioFees (r : row) : Z :=
  if bool_decide (get r k_Merchant = VStr (u "A")) then 2 else 1.

(* ================================================================= *)
(** * Properties *)

(** ** Integers in binary64

    Arithmetic on Numbers that hold integers below 2^53 is exact: the
    operations of [SpecFloat] return the canonical representation of the
    integer result. *)

Section ExactIntegers.

Lemma digits2_pos_size p : digits2_pos p = Pos.size p.
Proof. induction p; simpl; congruence. Qed.

Lemma digits2_bounds p :
  2 ^ (Zpos (digits2_pos p) - 1) <= Zpos p < 2 ^ Zpos (digits2_pos p).
Proof.
  rewrite digits2_pos_size. split.
  - pose proof (Pos.size_le p) as H.
    assert (Hp : (Z.pos (2 ^ Pos.size p) <= Z.pos p~0)) by exact H.
    rewrite Pos2Z.inj_pow in Hp.
    replace (Z.pos (Pos.size p)) with (Z.succ (Z.pos (Pos.size p) - 1)) in Hp by lia.
    rewrite Z.pow_succ_r in Hp by lia. lia.
  - pose proof (Pos.size_gt p) as H.
    assert (Hp : (Z.pos p < Z.pos (2 ^ Pos.size p))) by exact H.
    now rewrite Pos2Z.inj_pow in Hp.
Qed.

Lemma digits2_unique p n :
  2 ^ (n - 1) <= Zpos p < 2 ^ n -> Zpos (digits2_pos p) = n.
Proof.
  intros [Hlo Hhi]. pose proof (digits2_bounds p) as [Hlo' Hhi'].
  destruct (Z.lt_trichotomy (Zpos (digits2_pos p)) n) as [Hlt | [Heq | Hgt]]; [|done|].
  - assert (2 ^ Zpos (digits2_pos p) <= 2 ^ (n - 1)) by (apply Z.pow_le_mono_r; lia). lia.
  - assert (0 < n).
    { destruct (Z.le_gt_cases n 0) as [Hn|]; [|done].
      destruct n; [simpl in Hhi; lia|lia|]. rewrite Z.pow_neg_r in Hhi; lia. }
    assert (2 ^ n <= 2 ^ (Zpos (digits2_pos p) - 1)) by (apply Z.pow_le_mono_r; lia). lia.
Qed.

Lemma iter_xO_pow q k : Zpos (Pos.iter xO q k) = Zpos q * 2 ^ Zpos k.
Proof.
  induction k as [|k IH] using Pos.peano_ind.
  - simpl. lia.
  - rewrite Pos.iter_succ, Pos2Z.inj_succ, Z.pow_succ_r by lia.
    rewrite Pos2Z.inj_xO, IH. lia.
Qed.

Lemma digits2_shift q k :
  Zpos (digits2_pos (Pos.iter xO q k)) = Zpos (digits2_pos q) + Zpos k.
Proof.
  apply digits2_unique. rewrite iter_xO_pow.
  pose proof (digits2_bounds q) as [Hlo Hhi].
  replace (Zpos (digits2_pos q) + Zpos k - 1) with ((Zpos (digits2_pos q) - 1) + Zpos k) by lia.
  rewrite !Z.pow_add_r by lia.
  assert (0 < 2 ^ Zpos k) by (apply Z.pow_pos_nonneg; lia). nia.
Qed.

Lemma iter_shr_1_exact k q :
  SpecFloat.iter_pos shr_1 k (Build_shr_record (Zpos (Pos.iter xO q k)) false false)
  = Build_shr_record (Zpos q) false false.
Proof.
  revert q. induction k as [k IH | k IH |]; intros q; simpl.
  - now rewrite !IH.
  - now rewrite !IH.
  - reflexivity.
Qed.

(** A mantissa of exactly [prec] bits with an exponent in range is the
    canonical representation: rounding leaves it alone. *)
Lemma binary_round_aux_canonical s q E :
  Zpos (digits2_pos q) = 53 -> -1074 <= E <= 971 ->
  binary_round_aux prec emax s (Zpos q) E loc_Exact = S754_finite s q E.
Proof.
  intros Hd HE. unfold binary_round_aux, shr_fexp, Zdigits2.
  rewrite Hd. unfold fexp, emin, prec, emax.
  replace (Z.max (53 + E - 53) (3 - 1024 - 53) - E) with 0 by lia.
  simpl shr. cbv iota beta. simpl shr_m. simpl loc_of_shr_record.
  simpl round_nearest_even. unfold Zdigits2. rewrite Hd.
  replace (Z.max (53 + E - 53) (3 - 1024 - 53) - E) with 0 by lia.
  simpl. destruct (Z.leb_spec E (1024 - 53)); [done|lia].
Qed.

Lemma binary_round_aux_shift s q E k :
  Zpos (digits2_pos q) = 53 -> -1074 <= E <= 971 ->
  binary_round_aux prec emax s (Zpos (Pos.iter xO q k)) (E - Zpos k) loc_Exact
  = S754_finite s q E.
Proof.
  intros Hd HE. unfold binary_round_aux at 1.
  unfold shr_fexp at 1. unfold Zdigits2. rewrite digits2_shift, Hd.
  unfold fexp, emin, prec, emax.
  replace (Z.max (53 + Z.pos k + (E - Z.pos k) - 53) (3 - 1024 - 53) - (E - Z.pos k))
    with (Zpos k) by lia.
  unfold shr_record_of_loc, shr. rewrite iter_shr_1_exact.
  replace (E - Z.pos k + Z.pos k) with E by lia.
  simpl shr_m. simpl loc_of_shr_record. simpl round_nearest_even.
  pose proof (binary_round_aux_canonical s q E Hd HE) as Hc.
  unfold binary_round_aux in Hc. unfold prec, emax in Hc.
  destruct (shr_fexp 53 1024 (Z.pos q) E loc_Exact) as [mrs e] eqn:Hs.
  unfold shr_fexp in *.  unfold fexp, emin in *. 
  replace (Z.max (Zdigits2 (Z.pos q) + E - 53) (3 - 1024 - 53) - E) with 0 in *
    by (unfold Zdigits2; lia).
  simpl in Hs. injection Hs as <- <-. simpl. destruct (Z.leb_spec E (1024 - 53)); [done|lia].
Qed.

Lemma binary_round_canon s m e q E :
  Zpos (digits2_pos q) = 53 -> -1074 <= E <= 971 ->
  (E <= e /\ Zpos q = Zpos m * 2 ^ (e - E)) \/ (e <= E /\ Zpos m = Zpos q * 2 ^ (E - e)) ->
  binary_round prec emax s m e = S754_finite s q E.
Proof.
  intros Hd HE Hrel.
  assert (Hcases : (e = E /\ m = q) \/ (exists k, e = E + Zpos k /\ q = Pos.iter xO m k)
                   \/ (exists k, e = E - Zpos k /\ m = Pos.iter xO q k)).
  { destruct Hrel as [[Hle Hv] | [Hle Hv]].
    - destruct (Z.eq_dec e E) as [->|Hne].
      + left. rewrite Z.sub_diag in Hv. simpl in Hv. split; [done|]. lia.
      + right; left. exists (Z.to_pos (e - E)). split; [lia|].
        apply Pos2Z.inj. rewrite iter_xO_pow, Hv. f_equal. f_equal. lia.
    - destruct (Z.eq_dec e E) as [->|Hne].
      + left. rewrite Z.sub_diag in Hv. simpl in Hv. split; [done|]. lia.
      + right; right. exists (Z.to_pos (E - e)). split; [lia|].
        apply Pos2Z.inj. rewrite iter_xO_pow, Hv. f_equal. f_equal. lia. }
  unfold binary_round.
  destruct Hcases as [[-> ->] | [(k & -> & ->) | (k & -> & ->)]].
  - unfold shl_align. rewrite Hd. unfold fexp, emin, prec, emax.
    replace (Z.max (53 + E - 53) (3 - 1024 - 53) - E) with 0 by lia.
    now apply binary_round_aux_canonical.
  - rewrite digits2_shift in Hd.
    unfold shl_align. unfold fexp, emin, prec, emax.
    replace (Z.max (Z.pos (digits2_pos m) + (E + Z.pos k) - 53) (3 - 1024 - 53) - (E + Z.pos k))
      with (Zneg k) by lia.
    replace (Z.max (Z.pos (digits2_pos m) + (E + Z.pos k) - 53) (3 - 1024 - 53)) with E by lia.
    apply binary_round_aux_canonical; [|done]. now rewrite digits2_shift.
  - unfold shl_align. rewrite digits2_shift, Hd. unfold fexp, emin, prec, emax.
    replace (Z.max (53 + Z.pos k + (E - Z.pos k) - 53) (3 - 1024 - 53) - (E - Z.pos k))
      with (Zpos k) by lia.
    now apply binary_round_aux_shift.
Qed.

Lemma binary_round_aux_canon s m e q E :
  Zpos (digits2_pos q) = 53 -> -1074 <= E <= 971 ->
  e <= E -> Zpos m = Zpos q * 2 ^ (E - e) ->
  binary_round_aux prec emax s (Zpos m) e loc_Exact = S754_finite s q E.
Proof.
  intros Hd HE Hle Hv. destruct (Z.eq_dec e E) as [->|Hne].
  - rewrite Z.sub_diag in Hv. replace m with q by lia.
    now apply binary_round_aux_canonical.
  - set (k := Z.to_pos (E - e)). assert (He : e = E - Zpos k) by lia.
    assert (Hm : m = Pos.iter xO q k).
    { apply Pos2Z.inj. rewrite iter_xO_pow, Hv. f_equal. f_equal. lia. }
    clearbody k. subst m e. now apply binary_round_aux_shift.
Qed.

Lemma Zdigits2_pos_bounds c :
  0 < c < 2 ^ 53 -> 1 <= Zdigits2 c <= 53 /\ 2 ^ (Zdigits2 c - 1) <= c < 2 ^ Zdigits2 c.
Proof.
  intros [H0 H1]. destruct c as [|p|p]; try lia. simpl.
  pose proof (digits2_bounds p) as [Hlo Hhi]. split; [split; [lia|]|done].
  destruct (Z.le_gt_cases (Zpos (digits2_pos p)) 53) as [|Hgt]; [done|].
  assert (2 ^ 53 <= 2 ^ (Zpos (digits2_pos p) - 1)) by (apply Z.pow_le_mono_r; lia). lia.
Qed.

Lemma canon_m_spec c :
  0 < c < 2 ^ 53 ->
  Zpos (canon_m c) = c * 2 ^ (53 - Zdigits2 c) /\ Zpos (digits2_pos (canon_m c)) = 53.
Proof.
  intros Hc. destruct (Zdigits2_pos_bounds c Hc) as [Hd [Hlo Hhi]].
  assert (Hp : 0 < 2 ^ (53 - Zdigits2 c)) by (apply Z.pow_pos_nonneg; lia).
  assert (Hm : Zpos (canon_m c) = c * 2 ^ (53 - Zdigits2 c)).
  { unfold canon_m. rewrite Z2Pos.id; [done|nia]. }
  split; [done|]. apply digits2_unique. rewrite Hm.
  assert (E1 : 2 ^ (53 - 1) = 2 ^ (Zdigits2 c - 1) * 2 ^ (53 - Zdigits2 c))
    by (rewrite <- Z.pow_add_r by lia; f_equal; lia).
  assert (E2 : 2 ^ 53 = 2 ^ Zdigits2 c * 2 ^ (53 - Zdigits2 c))
    by (rewrite <- Z.pow_add_r by lia; f_equal; lia).
  rewrite E1, E2. nia.
Qed.

(** [c * 2^K] at exponent [-K] normalises to the canonical form of [c]. *)
Lemma binary_round_int s (c K : Z) :
  0 < c < 2 ^ 53 -> 0 <= K ->
  binary_round prec emax s (Z.to_pos (c * 2 ^ K)) (- K) = S754_finite s (canon_m c) (canon_e c).
Proof.
  intros Hc HK. destruct (canon_m_spec c Hc) as [Hm Hd].
  destruct (Zdigits2_pos_bounds c Hc) as [Hdc _].
  assert (HpK : 0 < 2 ^ K) by (apply Z.pow_pos_nonneg; lia).
  apply binary_round_canon; [done|unfold canon_e; lia|].
  rewrite Z2Pos.id by nia. rewrite Hm. unfold canon_e.
  destruct (Z.le_gt_cases (Zdigits2 c - 53) (- K)) as [Hle|Hgt].
  - left. split; [done|].
    replace (53 - Zdigits2 c) with (K + (- K - (Zdigits2 c - 53))) by lia.
    rewrite Z.pow_add_r by lia. lia.
  - right. split; [lia|].
    replace K with ((53 - Zdigits2 c) + (Zdigits2 c - 53 - - K)) at 1 by lia.
    rewrite Z.pow_add_r by lia. lia.
Qed.

Lemma binary_round_int0 s p :
  Zpos p < 2 ^ 53 ->
  binary_round prec emax s p 0 = S754_finite s (canon_m (Zpos p)) (canon_e (Zpos p)).
Proof.
  intros Hp. pose proof (binary_round_int s (Zpos p) 0 ltac:(lia) ltac:(lia)) as H.
  rewrite Z.pow_0_r, Z.mul_1_r in H. exact H.
Qed.

Lemma binary_normalize_int (c K : Z) :
  Z.abs c < 2 ^ 53 -> 0 <= K ->
  binary_normalize prec emax (c * 2 ^ K) (- K) false = Z2num c.
Proof.
  intros Hc HK. unfold Z2num.
  assert (HpK : 0 < 2 ^ K) by (apply Z.pow_pos_nonneg; lia).
  destruct c as [|p|p].
  - reflexivity.
  - pose proof (binary_round_int false (Zpos p) K ltac:(lia) HK) as H1.
    unfold binary_normalize at 2. rewrite binary_round_int0 by lia.
    unfold binary_normalize.
    destruct (Z.pos p * 2 ^ K) as [|m|m] eqn:Hm; try lia.
    exact H1.
  - pose proof (binary_round_int true (Zpos p) K ltac:(lia) HK) as H1.
    unfold binary_normalize at 2. rewrite binary_round_int0 by lia.
    unfold binary_normalize.
    destruct (Z.neg p * 2 ^ K) as [|m|m] eqn:Hm; try lia.
    replace m with (Z.to_pos (Z.pos p * 2 ^ K)); [exact H1|]. lia.
Qed.

Lemma Z2num_finite c :
  0 < Z.abs c < 2 ^ 53 ->
  Z2num c = S754_finite (c <? 0) (canon_m (Z.abs c)) (canon_e (Z.abs c)).
Proof.
  intros Hc. unfold Z2num.
  destruct c as [|p|p]; [simpl in Hc; lia| |]; simpl binary_normalize;
    rewrite binary_round_int0 by (simpl in Hc; lia); reflexivity.
Qed.

(** Aligning a canonical integer mantissa to a lower exponent. *)
Lemma shl_align_canon c ez :
  0 < c < 2 ^ 53 -> ez <= canon_e c ->
  Zpos (fst (shl_align (canon_m c) (canon_e c) ez)) = c * 2 ^ (- ez).
Proof.
  intros Hc Hez. destruct (canon_m_spec c Hc) as [Hm _].
  destruct (Zdigits2_pos_bounds c Hc) as [Hdc _].
  unfold shl_align. destruct (ez - canon_e c) as [|d|d] eqn:Hd; try lia.
  - simpl. rewrite Hm. f_equal. f_equal. unfold canon_e in *. lia.
  - simpl. rewrite iter_xO_pow, Hm. rewrite <- Z.mul_assoc, <- Z.pow_add_r by lia.
    f_equal. f_equal. unfold canon_e in *. lia.
Qed.

Lemma cond_Zopp_abs c : cond_Zopp (c <? 0) (Z.abs c) = c.
Proof. unfold cond_Zopp. destruct (Z.ltb_spec c 0); lia. Qed.


Lemma Z2num_0 : Z2num 0 = S754_zero false.
Proof. reflexivity. Qed.

Lemma SFadd_Z2num a b :
  Z.abs a < 2 ^ 53 -> Z.abs b < 2 ^ 53 -> Z.abs (a + b) < 2 ^ 53 ->
  SFadd prec emax (Z2num a) (Z2num b) = Z2num (a + b).
Proof.
  intros Ha Hb Hab.
  destruct (Z.eq_dec a 0) as [->|Ha0].
  { rewrite Z2num_0, Z.add_0_l. destruct (Z.eq_dec b 0) as [->|Hb0]; [reflexivity|].
    rewrite (Z2num_finite b) by lia. reflexivity. }
  destruct (Z.eq_dec b 0) as [->|Hb0].
  { rewrite Z2num_0, Z.add_0_r. rewrite (Z2num_finite a) by lia. reflexivity. }
  rewrite (Z2num_finite a), (Z2num_finite b) by lia. unfold SFadd.
  set (ez := Z.min _ _).
  assert (Hez : ez <= canon_e (Z.abs a) /\ ez <= canon_e (Z.abs b) /\ ez <= 0).
  { unfold ez, canon_e.
    pose proof (Zdigits2_pos_bounds (Z.abs a) ltac:(lia)).
    pose proof (Zdigits2_pos_bounds (Z.abs b) ltac:(lia)). lia. }
  rewrite !shl_align_canon by lia.
  rewrite <- !(Z.mul_comm (2 ^ (- ez))).
  assert (Hs : forall c, cond_Zopp (c <? 0) (2 ^ (- ez) * Z.abs c) = c * 2 ^ (- ez)).
  { intros c. unfold cond_Zopp.
    destruct (Z.ltb_spec c 0); [rewrite Z.abs_neq by lia|rewrite Z.abs_eq by lia]; ring. }
  rewrite !Hs, <- Z.mul_add_distr_r.
  pose proof (binary_normalize_int (a + b) (- ez) Hab ltac:(lia)) as H.
  now rewrite Z.opp_involutive in H.
Qed.

Lemma SFsub_Z2num a b :
  Z.abs a < 2 ^ 53 -> Z.abs b < 2 ^ 53 -> Z.abs (a - b) < 2 ^ 53 ->
  SFsub prec emax (Z2num a) (Z2num b) = Z2num (a - b).
Proof.
  intros Ha Hb Hab.
  destruct (Z.eq_dec b 0) as [->|Hb0].
  { rewrite Z2num_0, Z.sub_0_r. destruct (Z.eq_dec a 0) as [->|Ha0]; [reflexivity|].
    rewrite (Z2num_finite a) by lia. reflexivity. }
  destruct (Z.eq_dec a 0) as [->|Ha0].
  { rewrite Z2num_0, Z.sub_0_l. rewrite (Z2num_finite b), (Z2num_finite (- b)) by lia.
    rewrite Z.abs_opp. simpl. f_equal.
    destruct (Z.ltb_spec b 0), (Z.ltb_spec (- b) 0); try reflexivity; lia. }
  rewrite (Z2num_finite a), (Z2num_finite b) by lia. unfold SFsub.
  set (ez := Z.min _ _).
  assert (Hez : ez <= canon_e (Z.abs a) /\ ez <= canon_e (Z.abs b) /\ ez <= 0).
  { unfold ez, canon_e.
    pose proof (Zdigits2_pos_bounds (Z.abs a) ltac:(lia)).
    pose proof (Zdigits2_pos_bounds (Z.abs b) ltac:(lia)). lia. }
  rewrite !shl_align_canon by lia.
  rewrite <- !(Z.mul_comm (2 ^ (- ez))).
  assert (Hs : forall c, cond_Zopp (c <? 0) (2 ^ (- ez) * Z.abs c) = c * 2 ^ (- ez)).
  { intros c. unfold cond_Zopp.
    destruct (Z.ltb_spec c 0); [rewrite Z.abs_neq by lia|rewrite Z.abs_eq by lia]; ring. }
  rewrite !Hs, <- Z.mul_sub_distr_r.
  pose proof (binary_normalize_int (a - b) (- ez) Hab ltac:(lia)) as H.
  now rewrite Z.opp_involutive in H.
Qed.

Lemma SFmul_Z2num a b :
  Z.abs a < 2 ^ 53 -> 0 < b < 2 ^ 53 -> Z.abs (a * b) < 2 ^ 53 ->
  SFmul prec emax (Z2num a) (Z2num b) = Z2num (a * b).
Proof.
  intros Ha Hb Hab.
  destruct (Z.eq_dec a 0) as [->|Ha0].
  { rewrite Z.mul_0_l, Z2num_0, (Z2num_finite b) by lia.
    simpl. destruct (Z.ltb_spec b 0); [lia|reflexivity]. }
  assert (Hab0 : a * b <> 0) by nia.
  rewrite (Z2num_finite a), (Z2num_finite b), (Z2num_finite (a * b)) by lia.
  unfold SFmul.
  replace (xorb (a <? 0) (b <? 0)) with (a * b <? 0)
    by (destruct (Z.ltb_spec a 0), (Z.ltb_spec b 0), (Z.ltb_spec (a * b) 0); try reflexivity; nia).
  destruct (canon_m_spec (Z.abs a) ltac:(lia)) as [Hma _].
  destruct (canon_m_spec (Z.abs b) ltac:(lia)) as [Hmb _].
  destruct (canon_m_spec (Z.abs (a * b)) ltac:(lia)) as [Hmc Hdc].
  destruct (Zdigits2_pos_bounds (Z.abs a) ltac:(lia)) as [Hda [La Ua]].
  destruct (Zdigits2_pos_bounds (Z.abs b) ltac:(lia)) as [Hdb [Lb Ub]].
  destruct (Zdigits2_pos_bounds (Z.abs (a * b)) ltac:(lia)) as [Hdc' [Lc Uc]].
  (* the product has at least da + db - 1 digits *)
  assert (Hdig : Zdigits2 (Z.abs a) + Zdigits2 (Z.abs b) - 1 <= Zdigits2 (Z.abs (a * b))).
  { destruct (Z.le_gt_cases (Zdigits2 (Z.abs a) + Zdigits2 (Z.abs b) - 1) (Zdigits2 (Z.abs (a * b))))
      as [|Hgt]; [done|].
    assert (2 ^ Zdigits2 (Z.abs (a * b)) <= 2 ^ ((Zdigits2 (Z.abs a) - 1) + (Zdigits2 (Z.abs b) - 1)))
      by (apply Z.pow_le_mono_r; lia).
    rewrite Z.pow_add_r in H by lia. rewrite Z.abs_mul in *. nia. }
  apply binary_round_aux_canon; [done|unfold canon_e; lia|unfold canon_e; lia|].
  rewrite Pos2Z.inj_mul, Hma, Hmb, Hmc. unfold canon_e.
  rewrite Z.abs_mul in *.
  set (da := Zdigits2 (Z.abs a)) in *. set (db := Zdigits2 (Z.abs b)) in *.
  set (dc := Zdigits2 (Z.abs a * Z.abs b)) in *.
  replace (Z.abs a * 2 ^ (53 - da) * (Z.abs b * 2 ^ (53 - db)))
    with (Z.abs a * Z.abs b * (2 ^ (53 - da) * 2 ^ (53 - db))) by lia.
  rewrite <- !Z.mul_assoc. do 2 f_equal.
  rewrite <- !Z.pow_add_r by lia. f_equal; lia.
Qed.

Lemma Z2num_truthy n : n <> 0 -> Z.abs n < 2 ^ 53 -> JsNumber.truthy (Z2num n) = true.
Proof. intros Hn Hb. now rewrite Z2num_finite by lia. Qed.

Lemma truncate_Z2num z : Z.abs z < 2 ^ 53 -> JsNumber.truncate (Z2num z) = Some z.
Proof.
  intros Hz. destruct (Z.eq_dec z 0) as [->|Hz0]; [reflexivity|].
  rewrite Z2num_finite by lia. unfold JsNumber.truncate.
  destruct (canon_m_spec (Z.abs z) ltac:(lia)) as [Hm _].
  destruct (Zdigits2_pos_bounds (Z.abs z) ltac:(lia)) as [Hd _].
  assert (Ha : (if 0 <=? canon_e (Z.abs z)
                then Z.pos (canon_m (Z.abs z)) * 2 ^ canon_e (Z.abs z)
                else Z.pos (canon_m (Z.abs z)) / 2 ^ (- canon_e (Z.abs z))) = Z.abs z).
  { rewrite Hm. unfold canon_e. destruct (Z.leb_spec 0 (Zdigits2 (Z.abs z) - 53)).
    - replace (Zdigits2 (Z.abs z)) with 53 by lia. simpl. lia.
    - replace (- (Zdigits2 (Z.abs z) - 53)) with (53 - Zdigits2 (Z.abs z)) by lia.
      apply Z.div_mul. apply Z.pow_nonzero; lia. }
  rewrite Ha. f_equal. destruct (Z.ltb_spec z 0); lia.
Qed.

Lemma absLeZ_Z2num z b :
  Z.abs z < 2 ^ 53 -> 0 <= b -> JsNumber.absLeZ (Z2num z) b = (Z.abs z <=? b).
Proof.
  intros Hz Hb. destruct (Z.eq_dec z 0) as [->|Hz0]; [reflexivity|].
  rewrite Z2num_finite by lia. unfold JsNumber.absLeZ.
  destruct (canon_m_spec (Z.abs z) ltac:(lia)) as [Hm _].
  destruct (Zdigits2_pos_bounds (Z.abs z) ltac:(lia)) as [Hd _].
  rewrite Hm. unfold canon_e. destruct (Z.leb_spec 0 (Zdigits2 (Z.abs z) - 53)).
  - replace (Zdigits2 (Z.abs z)) with 53 by lia. simpl. f_equal. lia.
  - replace (- (Zdigits2 (Z.abs z) - 53)) with (53 - Zdigits2 (Z.abs z)) by lia.
    assert (Hp : 0 < 2 ^ (53 - Zdigits2 (Z.abs z))) by (apply Z.pow_pos_nonneg; lia).
    destruct (Z.leb_spec (Z.abs z) b), (Z.leb_spec (Z.abs z * 2 ^ (53 - Zdigits2 (Z.abs z)))
                                          (b * 2 ^ (53 - Zdigits2 (Z.abs z)))); try reflexivity; nia.
Qed.

Lemma isFinite_Z2num z : Z.abs z < 2 ^ 53 -> JsNumber.isFinite (Z2num z) = true.
Proof.
  intros Hz. destruct (Z.eq_dec z 0) as [->|Hz0]; [reflexivity|].
  now rewrite Z2num_finite by lia.
Qed.

Lemma TimeClip_Z2num z : Z.abs z < 2 ^ 53 -> TimeClip (Z2num z) = TimeClipZ z.
Proof.
  intros Hz. unfold TimeClip, TimeClipZ.
  rewrite isFinite_Z2num, absLeZ_Z2num, truncate_Z2num by (done || unfold maxTime; lia).
  reflexivity.
Qed.

End ExactIntegers.

(** ** Strings and dates *)

Section DateStrings.

Lemma uint_codes_digits d : Forall (fun c => isDigit c = true) (uint_codes d).
Proof. induction d; simpl; constructor; done. Qed.

Lemma decimal_digits z : Forall (fun c => isDigit c = true) (decimal z).
Proof. apply uint_codes_digits. Qed.

Lemma padZeros_digits w s :
  Forall (fun c => isDigit c = true) s -> Forall (fun c => isDigit c = true) (padZeros w s).
Proof.
  intros Hs. unfold padZeros. apply Forall_app. split; [|done].
  apply Forall_forall. intros c Hc. apply list_elem_of_In, repeat_spec in Hc. now subst.
Qed.

Lemma digits_dateChars s :
  Forall (fun c => isDigit c = true) s -> Forall dateChar s.
Proof. intros H. eapply Forall_impl; [exact H|]. intros c Hc. now left. Qed.

Lemma isoYear_chars y : Forall dateChar (isoYear y).
Proof.
  unfold isoYear. destruct (_ && _).
  - apply digits_dateChars, padZeros_digits, decimal_digits.
  - constructor.
    + destruct (y <? 0); [right; left|right; right]; reflexivity.
    + apply digits_dateChars, padZeros_digits, decimal_digits.
Qed.

Lemma isoDate_chars t : Forall dateChar (isoDate t).
Proof.
  unfold isoDate. apply Forall_app. split; [apply isoYear_chars|].
  constructor; [right; left; reflexivity|].
  apply Forall_app. split; [apply digits_dateChars, padZeros_digits, decimal_digits|].
  constructor; [right; left; reflexivity|].
  apply digits_dateChars, padZeros_digits, decimal_digits.
Qed.

Lemma split_cons_length sep s : JsString.split sep s <> [].
Proof. induction s as [|c r IH]; simpl; [done|]. destruct (N.eqb c sep); [done|]. now destruct (JsString.split sep r). Qed.

(** Splitting at the first separator. *)
Lemma split_prefix sep p r :
  Forall (fun c => c <> sep) p ->
  JsString.split sep (p ++ sep :: r) = p :: JsString.split sep r.
Proof.
  induction 1 as [|c p Hc Hp IH]; simpl.
  - now rewrite N.eqb_refl.
  - rewrite IH. destruct (N.eqb_spec c sep); [contradiction|reflexivity].
Qed.

Lemma isoDate_nonempty t : isoDate t <> [].
Proof.
  unfold isoDate. intros H. apply app_eq_nil in H as [_ H]. discriminate H.
Qed.

Lemma datePart_valid t : datePart (Some t) = Normal (VStr (isoDate t)).
Proof.
  unfold datePart, toISOString, isoString. simpl.
  rewrite split_prefix; [reflexivity|].
  eapply Forall_impl; [apply isoDate_chars|].
  intros c [Hc | [-> | ->]]; [|done..].
  intros ->. discriminate Hc.
Qed.

(** The date part depends on the day only. *)
Lemma isoDate_Day t : isoDate t = isoDateOfDay (Day t).
Proof.
  unfold isoDateOfDay, isoDate, YearFromTime, MonthFromTime, DateFromTime, MonthFromTime,
    InLeapYear, DayWithinYear, YearFromTime.
  assert (H : Day (Day t * msPerDay) = Day t) by (unfold Day; now apply Z.div_mul).
  now rewrite !H.
Qed.

End DateStrings.

(* ================================================================= *)
(** ** The calendar

    [YearFromDay] computes what ECMA-262 defines as the largest year that
    starts on or before a day, and the fields of a calendar date are read
    back from its time value. *)

Section Calendar.

Lemma DayFromYear_estimate d :
  DayFromYear (1970 + d * 400 / 146097 - 1) <= d < DayFromYear (1970 + d * 400 / 146097 + 2).
Proof. unfold DayFromYear. Z.div_mod_to_equations. lia. Qed.

(** [YearFromDay] meets the definition of YearFromTime: the day lies in
    the year it returns. *)
Lemma YearFromDay_spec d :
  DayFromYear (YearFromDay d) <= d < DayFromYear (YearFromDay d + 1).
Proof.
  unfold YearFromDay. pose proof (DayFromYear_estimate d) as [Hlo Hhi].
  set (y := 1970 + d * 400 / 146097) in *.
  destruct (Z.ltb_spec d (DayFromYear y)).
  - replace (y - 1 + 1) with y by lia. lia.
  - destruct (Z.leb_spec (DayFromYear (y + 1)) d).
    + replace (y + 1 + 1) with (y + 2) by lia. lia.
    + lia.
Qed.

Lemma DayFromYear_next y : DayFromYear (y + 1) = DayFromYear y + DaysInYear y.
Proof.
  unfold DayFromYear, DaysInYear, isLeapYear.
  destruct (Z.eqb_spec (y mod 4) 0), (Z.eqb_spec (y mod 100) 0), (Z.eqb_spec (y mod 400) 0);
    simpl; Z.div_mod_to_equations; lia.
Qed.

Lemma DayFromYear_mono y1 y2 : y1 <= y2 -> DayFromYear y1 <= DayFromYear y2.
Proof. unfold DayFromYear. intros. Z.div_mod_to_equations. lia. Qed.

Lemma YearFromDay_unique d y :
  DayFromYear y <= d < DayFromYear (y + 1) -> YearFromDay d = y.
Proof.
  intros [Hlo Hhi]. pose proof (YearFromDay_spec d) as [Hlo' Hhi'].
  destruct (Z.lt_trichotomy (YearFromDay d) y) as [Hlt | [Heq | Hgt]]; [|done|].
  - pose proof (DayFromYear_mono (YearFromDay d + 1) y ltac:(lia)). lia.
  - pose proof (DayFromYear_mono (y + 1) (YearFromDay d) ltac:(lia)). lia.
Qed.

(** The fields of a calendar date survive the trip through its time
    value. *)
Lemma MakeDay_fields y m d :
  1 <= m <= 12 -> 1 <= d <= DaysInMonth y m ->
  YearFromTime (MakeDate (MakeDay y (m - 1) d) 0) = y
  /\ MonthFromTime (MakeDate (MakeDay y (m - 1) d) 0) = m - 1
  /\ DateFromTime (MakeDate (MakeDay y (m - 1) d) 0) = d.
Proof.
  intros Hm Hd.
  assert (HD : Day (MakeDate (MakeDay y (m - 1) d) 0) = MakeDay y (m - 1) d).
  { unfold Day, MakeDate. rewrite Z.add_0_r. apply Z.div_mul. unfold msPerDay. lia. }
  assert (Hmk : MakeDay y (m - 1) d
                = DayFromYear y + daysBeforeMonth (isLeapYear y) (m - 1) + d - 1).
  { unfold MakeDay. replace ((m - 1) / 12) with 0 by (Z.div_mod_to_equations; lia).
    replace ((m - 1) mod 12) with (m - 1) by (Z.div_mod_to_equations; lia).
    now rewrite Z.add_0_r. }
  assert (Hrange : 0 <= daysBeforeMonth (isLeapYear y) (m - 1) + d - 1 < DaysInYear y).
  { unfold DaysInYear, DaysInMonth, daysBeforeMonth in *.
    assert (Hc : m = 1 \/ m = 2 \/ m = 3 \/ m = 4 \/ m = 5 \/ m = 6 \/ m = 7 \/ m = 8
                 \/ m = 9 \/ m = 10 \/ m = 11 \/ m = 12) by lia.
    destruct (isLeapYear y);
      destruct Hc as [->|[->|[->|[->|[->|[->|[->|[->|[->|[->|[->| ->]]]]]]]]]]];
      simpl in *; lia. }
  assert (HY : YearFromTime (MakeDate (MakeDay y (m - 1) d) 0) = y).
  { unfold YearFromTime. rewrite HD, Hmk. apply YearFromDay_unique.
    rewrite DayFromYear_next. lia. }
  split; [exact HY|].
  unfold MonthFromTime, DateFromTime, MonthFromTime, DayWithinYear, InLeapYear.
  rewrite HY, HD, Hmk.
  replace (DayFromYear y + daysBeforeMonth (isLeapYear y) (m - 1) + d - 1 - DayFromYear y)
    with (daysBeforeMonth (isLeapYear y) (m - 1) + d - 1) by lia.
  unfold DaysInMonth, daysBeforeMonth in *.
  assert (Hc : m = 1 \/ m = 2 \/ m = 3 \/ m = 4 \/ m = 5 \/ m = 6 \/ m = 7 \/ m = 8
               \/ m = 9 \/ m = 10 \/ m = 11 \/ m = 12) by lia.
  destruct (isLeapYear y);
    destruct Hc as [->|[->|[->|[->|[->|[->|[->|[->|[->|[->|[->| ->]]]]]]]]]]];
    simpl in *;
    repeat match goal with
           | |- context [?a <? ?b] => destruct (Z.ltb_spec a b); try lia
           end; split; lia.
Qed.

End Calendar.

(* ================================================================= *)
(** ** Spreadsheet serial numbers *)

Section SerialDates.

Context (h : Host).

Lemma epochLocal_value : epochLocal = -2209161600000.
Proof. reflexivity. Qed.

Lemma excelEpoch_value :
  Z.abs (LocalTZA h epochLocal) <= msPerDay ->
  excelEpoch h = Some (epochLocal - LocalTZA h epochLocal).
Proof.
  intros Htz. unfold excelEpoch, newDateLocal. fold epochDay. fold epochLocal.
  unfold TimeClipZ. rewrite epochLocal_value in *. unfold msPerDay, maxTime in *.
  destruct (Z.leb_spec (Z.abs (-2209161600000 - LocalTZA h (-2209161600000))) 8640000000000000);
    [reflexivity|lia].
Qed.

(** The numeric branch on an integer serial: the arithmetic is exact and
    the date is a valid one. *)
Lemma serial_time (n : Z) :
  Z.abs (LocalTZA h epochLocal) <= msPerDay ->
  Z.abs (epochLocal - LocalTZA h epochLocal + (n - 1) * msPerDay) <= maxTime ->
  parseExcelDate_try h (VNum (Z2num n))
  = Normal (VStr (isoDate (epochLocal - LocalTZA h epochLocal + (n - 1) * msPerDay))).
Proof.
  intros Htz Ht. unfold parseExcelDate_try. rewrite excelEpoch_value by done.
  unfold getTime, JsNumber.add, JsNumber.sub, JsNumber.mul, newDateNumber.
  rewrite epochLocal_value in *. unfold msPerDay, maxTime in *.
  assert (H53 : 2 ^ 53 = 9007199254740992) by reflexivity.
  rewrite SFsub_Z2num by (rewrite H53; lia).
  rewrite SFmul_Z2num by (rewrite H53; lia).
  rewrite SFadd_Z2num by (rewrite H53; lia).
  rewrite TimeClip_Z2num by (rewrite H53; lia).
  unfold TimeClipZ, maxTime.
  destruct (Z.leb_spec (Z.abs (-2209161600000 - LocalTZA h (-2209161600000) + (n - 1) * 86400000))
              8640000000000000); [|lia].
  apply datePart_valid.
Qed.

Lemma serial_day (n tza : Z) :
  Day (epochLocal - tza + (n - 1) * msPerDay) = epochDay + (n - 1) + (- tza) / msPerDay.
Proof.
  unfold Day. replace (epochLocal - tza + (n - 1) * msPerDay)
    with (- tza + (epochDay + (n - 1)) * msPerDay)
    by (unfold epochLocal, MakeDate, MakeTime; lia).
  rewrite Z.div_add by (unfold msPerDay; lia). lia.
Qed.

(** What the numeric branch computes: a non-zero integer serial [n]
    whose date the [Date] type can hold is normalised to the [YYYY-MM-DD] string of the day
    [n - 1] days after 1899-12-30, moved back by the whole days that local
    midnight lies before midnight UTC ([tza] is the host's offset from
    UTC; on a host on UTC the term is 0, east of UTC it is -1). *)
Theorem parseExcelDate_serial (n : Z) :
  n <> 0 ->
  Z.abs (LocalTZA h epochLocal) <= msPerDay ->
  Z.abs (epochLocal - LocalTZA h epochLocal + (n - 1) * msPerDay) <= maxTime ->
  parseExcelDate h (VNum (Z2num n))
  = Normal (VStr (isoDateOfDay (epochDay + (n - 1) + (- LocalTZA h epochLocal) / msPerDay))).
Proof.
  intros Hn Htz Ht. unfold parseExcelDate.
  assert (Hb : Z.abs n < 2 ^ 53).
  { change (2 ^ 53) with 9007199254740992. rewrite epochLocal_value in *.
    unfold msPerDay, maxTime in *. lia. }
  simpl toBoolean. rewrite Z2num_truthy by done. simpl negb. cbv iota.
  rewrite serial_time by done. simpl tryCatch.
  now rewrite isoDate_Day, serial_day.
Qed.

End SerialDates.

(** Serial 45001 on a host on UTC. *)
Lemma parseExcelDate_serial_witness :
  45001 <> 0 /\ Z.abs (LocalTZA utcHost epochLocal) <= msPerDay
  /\ Z.abs (epochLocal - LocalTZA utcHost epochLocal + (45001 - 1) * msPerDay) <= maxTime
  /\ parseExcelDate utcHost (VNum (Z2num 45001)) = Normal (VStr (u "2023-03-15")).
Proof.
  assert (H1 : 45001 <> 0) by lia.
  assert (H2 : Z.abs (LocalTZA utcHost epochLocal) <= msPerDay) by (vm_compute; discriminate).
  assert (H3 : Z.abs (epochLocal - LocalTZA utcHost epochLocal + (45001 - 1) * msPerDay) <= maxTime)
    by (vm_compute; discriminate).
  split; [exact H1|]. split; [exact H2|]. split; [exact H3|].
  exact (parseExcelDate_serial utcHost 45001 H1 H2 H3).
Defined.

(** A serial with a fraction is subject to rounding: the Number just
    below 2 stands for 1899-12-30 a fraction of a millisecond before
    midnight, and the sum rounds up to midnight of 1899-12-31. *)
Lemma serial_fraction_rounds_up :
  parseExcelDate utcHost (VNum (S754_finite false 9007199254740991 (-52)))
  = Normal (VStr (u "1899-12-31"))
  /\ JsNumber.ltb (S754_finite false 9007199254740991 (-52)) (Z2num 2) = true.
Proof. split; vm_compute; reflexivity. Qed.

(** Serial 1 is the epoch day itself, 1899-12-30, not 1899-12-31 (and a
    day earlier still east of UTC). *)
Lemma serial_1_is_not_1899_12_31 :
  parseExcelDate utcHost (VNum (Z2num 1)) = Normal (VStr (u "1899-12-30"))
  /\ parseExcelDate istHost (VNum (Z2num 1)) = Normal (VStr (u "1899-12-29"))
  /\ parseExcelDate utcHost (VNum (Z2num 1)) <> Normal (VStr (u "1899-12-31")).
Proof. repeat split; [vm_compute; reflexivity..|vm_compute; discriminate]. Qed.

(** C1: the numeric branch of src/server.js builds the epoch as local
    midnight ([new Date(1899, 11, 30)]) and prints the result in UTC
    ([toISOString]), so the day it answers depends on where the host is.
    For serial 45001 a host on UTC answers 2023-03-15, the day 45000 days
    after 1899-12-30, and a host east of UTC the day before. The same
    host reads the text ["2023-03-15"] as that day, and part_000, which
    builds the epoch with [Date.UTC], answers 2023-03-15 for the serial
    there too. Serial 1 is 1899-12-30 on the first host and 1899-12-29 on
    the second, on neither 1899-12-31. *)
Lemma parseExcelDate_serial_depends_on_host :
  parseExcelDate utcHost (VNum (Z2num 45001)) = Normal (VStr (u "2023-03-15"))
  /\ parseExcelDate istHost (VNum (Z2num 45001)) = Normal (VStr (u "2023-03-14"))
  /\ parseExcelDate istHost (VStr (u "2023-03-15")) = Normal (VStr (u "2023-03-15"))
  /\ Part000.extractDateOnly istHost (VNum (Z2num 45001)) = Normal (VStr (u "2023-03-15"))
  /\ parseExcelDate utcHost (VNum (Z2num 1)) = Normal (VStr (u "1899-12-30"))
  /\ parseExcelDate istHost (VNum (Z2num 1)) = Normal (VStr (u "1899-12-29")).
Proof. repeat split; vm_compute; reflexivity. Qed.

(* ================================================================= *)
(** ** Conversions never yield NaN for an integer *)

Section NoNaN.

Lemma shr_1_nonneg mrs : 0 <= shr_m mrs -> 0 <= shr_m (shr_1 mrs).
Proof. destruct mrs as [[|[p|p|]|p] r s]; simpl; lia. Qed.

Lemma iter_shr_1_nonneg k mrs :
  0 <= shr_m mrs -> 0 <= shr_m (SpecFloat.iter_pos shr_1 k mrs).
Proof.
  revert mrs. induction k as [k IH | k IH |]; intros mrs H; simpl.
  - apply IH, IH, shr_1_nonneg, H.
  - apply IH, IH, H.
  - apply shr_1_nonneg, H.
Qed.

Lemma shr_fexp_nonneg m e l :
  0 <= m -> 0 <= shr_m (fst (shr_fexp prec emax m e l)).
Proof.
  intros Hm. unfold shr_fexp, shr.
  assert (H0 : 0 <= shr_m (shr_record_of_loc m l)) by (destruct l as [|[]]; exact Hm).
  destruct (fexp prec emax (Zdigits2 m + e) - e); simpl; [done| |done].
  now apply iter_shr_1_nonneg.
Qed.

Lemma round_nearest_even_nonneg m l : 0 <= m -> 0 <= round_nearest_even m l.
Proof.
  intros Hm. destruct l as [|[]]; simpl; try lia. destruct (Z.even m); lia.
Qed.

Lemma binary_round_aux_not_nan s m e l :
  0 <= m -> isNaN (binary_round_aux prec emax s m e l) = false.
Proof.
  intros Hm. unfold binary_round_aux.
  pose proof (shr_fexp_nonneg m e l Hm) as H1.
  destruct (shr_fexp prec emax m e l) as [mrs' e'] eqn:E1. simpl in H1.
  pose proof (shr_fexp_nonneg _ e' loc_Exact
                (round_nearest_even_nonneg _ (loc_of_shr_record mrs') H1)) as H2.
  destruct (shr_fexp prec emax _ e' loc_Exact) as [mrs'' e''] eqn:E2. simpl in H2.
  destruct (shr_m mrs'') as [|p|p]; [reflexivity| |lia].
  now destruct (e'' <=? emax - prec).
Qed.

Lemma Z2num_not_nan z : isNaN (Z2num z) = false.
Proof.
  unfold Z2num, binary_normalize, binary_round.
  destruct z as [|p|p]; [reflexivity| |];
    destruct (shl_align _ _ _); apply binary_round_aux_not_nan; lia.
Qed.

Lemma getTime_valid t : isNaN (getTime (Some t)) = false.
Proof. apply Z2num_not_nan. Qed.

End NoNaN.

(* ================================================================= *)
(** ** Text dates *)

Section TextDates.

Context (h : Host).

Lemma firstValid_app cs ds :
  firstValid h (cs ++ ds)
  = match firstValid h cs with Some d => Some d | None => firstValid h ds end.
Proof.
  induction cs as [|c cs IH]; simpl; [reflexivity|].
  now destruct (newDateString h c).
Qed.

Lemma tryFormats_spec fs :
  tryFormats h fs = Normal (VStr <$> firstValid h fs).
Proof.
  induction fs as [|f fs IH]; simpl; [reflexivity|].
  destruct (newDateString h f) as [t|] eqn:E.
  - rewrite getTime_valid. simpl. now rewrite datePart_valid.
  - simpl. exact IH.
Qed.

Lemma trySeparators_spec s seps :
  trySeparators h s seps = Normal (VStr <$> firstValid h (flat_map (candidatesAt s) seps)).
Proof.
  induction seps as [|sep seps IH]; cbn [trySeparators flat_map]; [reflexivity|].
  rewrite firstValid_app. unfold candidatesAt at 1.
  destruct (JsString.split sep s) as [|p0 [|p1 [|p2 [|? ?]]]]; try exact IH.
  rewrite tryFormats_spec. cbn [mbind completion_bind].
  destruct (firstValid h (formatsOf p0 p1 p2)); [reflexivity|exact IH].
Qed.

Lemma parseExcelDate_try_text s :
  parseExcelDate_try h (VStr s) = Normal (dateOrNull (firstValid h (interpretations s))).
Proof.
  unfold parseExcelDate_try, interpretations. rewrite trySeparators_spec.
  rewrite firstValid_app. cbn [mbind completion_bind firstValid newDate].
  destruct (firstValid h (flat_map (candidatesAt s) separators)); [reflexivity|].
  destruct (newDateString h s) as [t|] eqn:E; simpl.
  - rewrite Z2num_not_nan. simpl. apply datePart_valid.
  - reflexivity.
Qed.

Lemma parseExcelDate_text_spec s :
  s <> [] ->
  parseExcelDate h (VStr s) = Normal (dateOrNull (firstValid h (interpretations s))).
Proof.
  intros Hs. unfold parseExcelDate.
  replace (toBoolean (VStr s)) with true
    by (simpl; unfold JsString.eqb; now rewrite bool_decide_eq_false_2).
  cbn [negb]. now rewrite parseExcelDate_try_text.
Qed.

(** Three parts joined by [-], none holding a separator, yield the
    day-first string, the month-first string and the text itself. *)
Lemma split_no_sep sep s : Forall (fun c => c <> sep) s -> JsString.split sep s = [s].
Proof.
  induction 1 as [|c s Hc Hs IH]; simpl; [reflexivity|].
  rewrite IH. now destruct (N.eqb_spec c sep).
Qed.

Lemma interpretations_three p0 p1 p2 :
  plain p0 -> plain p1 -> plain p2 ->
  interpretations (p0 ++ 45%N :: p1 ++ 45%N :: p2)
  = [ p2 ++ 45%N :: p1 ++ 45%N :: p0 ;
      p2 ++ 45%N :: p0 ++ 45%N :: p1 ;
      p0 ++ 45%N :: p1 ++ 45%N :: p2 ].
Proof.
  intros H0 H1 H2. unfold interpretations, separators. cbn [flat_map]. unfold candidatesAt.
  assert (Hd : forall p, plain p -> Forall (fun c => c <> 45%N) p).
  { intros p Hp. eapply Forall_impl; [exact Hp|]. now intros c (? & ? & ?). }
  assert (Hs : forall sep p, sep = 47%N \/ sep = 46%N -> plain p -> Forall (fun c => c <> sep) p).
  { intros sep p Hsep Hp. eapply Forall_impl; [exact Hp|].
    intros c (? & ? & ?). now destruct Hsep as [-> | ->]. }
  rewrite (split_prefix 45 p0) by auto. rewrite (split_prefix 45 p1) by auto.
  rewrite (split_no_sep 45 p2) by auto.
  assert (Ha : forall sep, sep = 47%N \/ sep = 46%N ->
            JsString.split sep (p0 ++ 45%N :: p1 ++ 45%N :: p2) = [p0 ++ 45%N :: p1 ++ 45%N :: p2]).
  { intros sep Hsep. apply split_no_sep.
    assert (Hne : 45%N <> sep) by (now destruct Hsep as [-> | ->]).
    apply Forall_app; split; [auto|]. constructor; [done|].
    apply Forall_app; split; [auto|]. constructor; [done|auto]. }
  rewrite !Ha by auto. reflexivity.
Qed.

End TextDates.

(* ================================================================= *)
(** ** The claims about [parseExcelDate] on text, failures and zero *)

Lemma conforms_date (h : Host) s y m d :
  conforms h -> parseDateOnly s = Some (y, m, d) -> d <= DaysInMonth y m ->
  newDateString h s
  = match TimeClipZ (MakeDate (MakeDay y (m - 1) d) 0) with
    | Some t => TimeClipZ t
    | None => None
    end.
Proof. intros Hc Hs Hd. unfold newDateString. now rewrite (Hc s y m d Hs Hd). Qed.

Lemma utcHost_conforms : conforms utcHost.
Proof. intros s y m d Hs _. simpl. unfold parseDateOnlyTime. now rewrite Hs. Qed.

Lemma parseExcelDate_try_other (h : Host) v :
  typeof v <> TNumber -> typeof v <> TString ->
  parseExcelDate_try h v
  = Normal (match newDate h v with Some t => VStr (isoDate t) | None => VNull end).
Proof.
  intros Hn Hs. destruct v; try done; unfold parseExcelDate_try; cbn [mbind completion_bind];
    (destruct (newDate h _) as [tv|]; [rewrite getTime_valid; apply datePart_valid|reflexivity]).
Qed.

(** What [parseExcelDate] returns: [null], or the date part of a valid
    time value. *)
Lemma parseExcelDate_result (h : Host) v :
  parseExcelDate h v = Normal VNull
  \/ exists t, parseExcelDate h v = Normal (VStr (isoDate t)).
Proof.
  unfold parseExcelDate. destruct (toBoolean v) eqn:Hb; cbn [negb]; [|now left].
  destruct (decide (typeof v = TNumber)) as [Hn|Hn];
    [|destruct (decide (typeof v = TString)) as [Hs|Hs]].
  - destruct v; try discriminate Hn. unfold parseExcelDate_try.
    destruct (newDateNumber _) as [t|].
    + rewrite datePart_valid. right. now exists t.
    + now left.
  - destruct v; try discriminate Hs. rewrite parseExcelDate_try_text. simpl.
    clear Hb. induction (interpretations s) as [|c cs IH]; simpl; [now left|].
    destruct (newDateString h c) as [t|]; [right; now exists t|exact IH].
  - rewrite parseExcelDate_try_other by done.
    destruct (newDate h v) as [t|]; [right; now exists t|now left].
Qed.

(** C6: [parseExcelDate] returns normally on every value, with [null] or
    a string; the empty string gives [null]; a text none of whose
    interpretations parses gives [null], ["not a date"] among them
    wherever the host's parser rejects that string, as the reference
    host does. An error thrown
    inside (here by [toISOString] on a date out of range) is caught. *)
Theorem parseExcelDate_never_throws (h : Host) :
  (forall v, exists r, parseExcelDate h v = Normal r /\ (r = VNull \/ exists s, r = VStr s))
  /\ parseExcelDate h (VStr []) = Normal VNull
  /\ (forall s, Forall (fun c => newDateString h c = None) (interpretations s) ->
        parseExcelDate h (VStr s) = Normal VNull)
  /\ (Date_parse h (u "not a date") = None ->
        parseExcelDate h (VStr (u "not a date")) = Normal VNull)
  /\ parseExcelDate utcHost (VStr (u "not a date")) = Normal VNull
  /\ parseExcelDate_try h (VNum (S754_infinity false)) = Throw RangeError
  /\ parseExcelDate h (VNum (S754_infinity false)) = Normal VNull
  /\ parseExcelDate h (VNum NaN) = Normal VNull.
Proof.
  assert (Hnone : forall cs, Forall (fun c => newDateString h c = None) cs -> firstValid h cs = None).
  { induction 1 as [|c cs Hc _ IH]; simpl; [reflexivity|]. now rewrite Hc. }
  assert (Hfail : forall s, Forall (fun c => newDateString h c = None) (interpretations s) ->
                            parseExcelDate h (VStr s) = Normal VNull).
  { intros s Hs. destruct s as [|c s]; [reflexivity|].
    rewrite parseExcelDate_text_spec by discriminate. now rewrite Hnone. }
  split; [|split; [reflexivity|split; [exact Hfail|split; [|split; [|split; [|split]]]]]].
  - intros v. destruct (parseExcelDate_result h v) as [H | [t H]]; rewrite H; eauto.
  - intros Hnad. apply Hfail.
    change (interpretations (u "not a date")) with [u "not a date"].
    constructor; [|constructor]. unfold newDateString. now rewrite Hnad.
  - vm_compute; reflexivity.
  - unfold parseExcelDate_try, excelEpoch.
    destruct (getTime (newDateLocal h 1899 11 30)) as [s|s| |s m e]; try reflexivity.
    now destruct s.
  - unfold parseExcelDate. simpl toBoolean. cbn [negb].
    unfold parseExcelDate_try, excelEpoch.
    destruct (getTime (newDateLocal h 1899 11 30)) as [s|s| |s m e] eqn:E; try reflexivity.
    now destruct s.
  - reflexivity.
Qed.

(** C10: serial 0 gives [null], as every falsy value does (0, the empty
    string, [null], [undefined]): the test comes before the numeric
    branch, which on its own would have produced a date for 0. *)
Theorem parseExcelDate_zero (h : Host) :
  parseExcelDate h (VNum (Z2num 0)) = Normal VNull
  /\ (forall v, toBoolean v = false -> parseExcelDate h v = Normal VNull)
  /\ toBoolean (VNum (Z2num 0)) = false
  /\ toBoolean (VStr []) = false
  /\ toBoolean VNull = false
  /\ toBoolean VUndefined = false
  /\ parseExcelDate_try utcHost (VNum (Z2num 0)) = Normal (VStr (u "1899-12-29")).
Proof.
  repeat split; try reflexivity.
  intros v Hv. unfold parseExcelDate. now rewrite Hv.
Qed.

(* ================================================================= *)
(** ** Ingestion *)

Section Ingestion.

Context (h : Host).

Lemma processRow_spec i r :
  processRow h i r
  = Some (<[k_DateOnly := dateOnlyOf h r]> (<[k_RowIndex := VNum (Z2num (Z.of_nat i + 2))]> r)).
Proof.
  unfold processRow, dateOnlyOf.
  destruct (parseExcelDate_result h (get r k_Date)) as [H | [t H]]; now rewrite H.
Qed.

Lemma omap_imap_Some {A B} (g : nat -> A -> B) (l : list A) :
  omap id (imap (fun i x => Some (g i x)) l) = imap g l.
Proof.
  revert g. induction l as [|x l IH]; intros g; [reflexivity|].
  cbn [imap omap]. simpl. f_equal. apply (IH (g ∘ S)).
Qed.

Lemma processRows_spec rawData :
  processRows h rawData
  = imap (fun i r => <[k_DateOnly := dateOnlyOf h r]>
                       (<[k_RowIndex := VNum (Z2num (Z.of_nat i + 2))]> r)) rawData.
Proof.
  unfold processRows.
  rewrite (imap_ext (processRow h)
             (fun i r => Some (<[k_DateOnly := dateOnlyOf h r]>
                                 (<[k_RowIndex := VNum (Z2num (Z.of_nat i + 2))]> r))))
    by (intros; apply processRow_spec).
  apply omap_imap_Some.
Qed.

Lemma processRows_length rawData : length (processRows h rawData) = length rawData.
Proof. rewrite processRows_spec. apply length_imap. Qed.

Lemma processRows_lookup rawData i r :
  rawData !! i = Some r ->
  processRows h rawData !! i
  = Some (<[k_DateOnly := dateOnlyOf h r]> (<[k_RowIndex := VNum (Z2num (Z.of_nat i + 2))]> r)).
Proof. intros Hr. rewrite processRows_spec, list_lookup_imap, Hr. reflexivity. Qed.

Lemma processRows_elem rawData r' :
  r' ∈ processRows h rawData ->
  exists i r, rawData !! i = Some r
    /\ r' = <[k_DateOnly := dateOnlyOf h r]> (<[k_RowIndex := VNum (Z2num (Z.of_nat i + 2))]> r).
Proof.
  intros Hin. apply list_elem_of_lookup in Hin as [i Hi].
  destruct (rawData !! i) as [r|] eqn:Hr.
  - rewrite (processRows_lookup _ _ _ Hr) in Hi. injection Hi as <-. eauto.
  - apply lookup_ge_None in Hr. apply lookup_lt_Some in Hi.
    rewrite processRows_length in Hi. lia.
Qed.

Lemma keys_distinct :
  k_DateOnly <> k_RowIndex /\ k_Merchant <> k_DateOnly /\ k_Merchant <> k_RowIndex.
Proof. repeat split; discriminate. Qed.

Lemma dateOnlyOf_result r :
  dateOnlyOf h r = VNull \/ exists t, dateOnlyOf h r = VStr (isoDate t).
Proof.
  unfold dateOnlyOf.
  destruct (parseExcelDate_result h (get r k_Date)) as [H | [t H]]; rewrite H; eauto.
Qed.

End Ingestion.

(** C9, as amended: the record of the raw row at index [i] holds the
    row's fields unchanged except under the names [RowIndex] and
    [DateOnly]; those two are set, to [i + 2] and to the normalised
    [Date] cell; no row is dropped; and what /generate writes to the
    Transactions sheet for a record is the raw row without those two
    names (so no percentage field is attached). *)
Theorem processRows_frame (h : Host) (rawData : list row) (i : nat) (r : row) :
  rawData !! i = Some r ->
  length (processRows h rawData) = length rawData
  /\ exists r' d,
      processRows h rawData !! i = Some r'
      /\ parseExcelDate h (get r k_Date) = Normal d
      /\ r' !! k_DateOnly = Some d
      /\ r' !! k_RowIndex = Some (VNum (Z2num (Z.of_nat i + 2)))
      /\ (forall k, k <> k_DateOnly -> k <> k_RowIndex -> r' !! k = r !! k)
      /\ (forall k, k <> k_DateOnly -> k <> k_RowIndex -> stripBookkeeping r' !! k = r !! k)
      /\ stripBookkeeping r' !! k_DateOnly = None
      /\ stripBookkeeping r' !! k_RowIndex = None.
Proof.
  intros Hr. split; [apply processRows_length|].
  destruct keys_distinct as (Hk & _).
  eexists. exists (dateOnlyOf h r). split; [exact (processRows_lookup h rawData i r Hr)|].
  split.
  { unfold dateOnlyOf.
    destruct (parseExcelDate_result h (get r k_Date)) as [H | [t H]]; now rewrite H. }
  unfold stripBookkeeping.
  split; [apply lookup_insert_eq|].
  split; [rewrite lookup_insert_ne by done; apply lookup_insert_eq|].
  split; [intros k H1 H2; now rewrite !lookup_insert_ne by congruence|].
  split.
  { intros k H1 H2. rewrite !lookup_delete_ne by congruence.
    now rewrite !lookup_insert_ne by congruence. }
  split; [apply lookup_delete_eq|].
  rewrite lookup_delete_ne by done. apply lookup_delete_eq.
Qed.

(** The scenario's first row. *)
Lemma processRows_frame_witness :
  [rowA] !! 0%nat = Some rowA
  /\ length (processRows utcHost [rowA]) = length [rowA].
Proof.
  split; [reflexivity|].
  exact (proj1 (processRows_frame utcHost [rowA] 0 rowA eq_refl)).
Defined.

(** C9 as stated fails: the record has a third field, [RowIndex], that the
    raw row lacks; and a raw column that happens to be called [DateOnly]
    is overwritten. *)
Lemma record_gains_RowIndex :
  processRows utcHost [rowA]
  = [<[k_DateOnly := VStr (u "2023-03-15")]> (<[k_RowIndex := VNum (Z2num 2)]> rowA)]
  /\ rowA !! k_RowIndex = None
  /\ k_RowIndex <> k_DateOnly
  /\ processRows utcHost [<[k_DateOnly := VStr (u "x")]> ∅]
     = [<[k_DateOnly := VNull]> (<[k_RowIndex := VNum (Z2num 2)]> ∅)].
Proof. repeat split; try (vm_compute; reflexivity). discriminate. Qed.

(* ================================================================= *)
(** ** The order on strings *)

Section StringOrder.

Lemma compare_refl a : JsString.compare a a = Eq.
Proof. induction a as [|x a IH]; simpl; [reflexivity|]. now rewrite N.compare_refl. Qed.

Lemma compare_eq a b : JsString.compare a b = Eq -> a = b.
Proof.
  revert b. induction a as [|x a IH]; intros [|y b] H; simpl in H; try done.
  destruct (N.compare_spec x y); try done. subst. f_equal. now apply IH.
Qed.

Lemma compare_antisym a b : JsString.compare b a = CompOpp (JsString.compare a b).
Proof.
  revert b. induction a as [|x a IH]; intros [|y b]; simpl; try reflexivity.
  rewrite (N.compare_antisym x y). destruct (N.compare x y); simpl; [apply IH|reflexivity..].
Qed.

Lemma compare_lt a b : JsString.compare a b = Lt <-> lexLt a b.
Proof.
  split.
  - revert b. induction a as [|x a IH]; intros [|y b] H; simpl in H; try done.
    + constructor.
    + destruct (N.compare_spec x y) as [->|Hlt|Hgt]; try done.
      * apply lexLt_tail, IH, H.
      * now apply lexLt_head.
  - induction 1 as [c b|x y a b Hxy|x a b _ IH]; simpl.
    + reflexivity.
    + apply N.compare_lt_iff in Hxy. now rewrite Hxy.
    + now rewrite N.compare_refl.
Qed.

Lemma leb_lexLe a b : JsString.leb a b = true <-> lexLe a b.
Proof.
  unfold JsString.leb, lexLe. split.
  - destruct (JsString.compare a b) eqn:E; try done; intros _.
    + left. now apply compare_eq.
    + right. now apply compare_lt.
  - intros [->|H]; [now rewrite compare_refl|].
    apply compare_lt in H. now rewrite H.
Qed.

Lemma ltb_lexLt a b : JsString.ltb a b = true <-> lexLt a b.
Proof.
  unfold JsString.ltb. rewrite <- compare_lt. destruct (JsString.compare a b); split; done.
Qed.

Lemma lexLt_irrefl a : ~ lexLt a a.
Proof. intros H. apply compare_lt in H. rewrite compare_refl in H. discriminate. Qed.

Lemma lexLt_trans a b c : lexLt a b -> lexLt b c -> lexLt a c.
Proof.
  intros Hab. revert c. induction Hab as [x b|x y a b Hxy|x a b _ IH]; intros c Hbc;
    inversion Hbc; subst.
  - constructor.
  - constructor.
  - apply lexLt_head. lia.
  - now apply lexLt_head.
  - now apply lexLt_head.
  - apply lexLt_tail. now apply IH.
Qed.

Lemma lexLt_total a b : lexLt a b \/ a = b \/ lexLt b a.
Proof.
  destruct (JsString.compare a b) eqn:E.
  - right; left. now apply compare_eq.
  - left. now apply compare_lt.
  - right; right. apply compare_lt. rewrite compare_antisym, E. reflexivity.
Qed.

Lemma lexLe_trans a b c : lexLe a b -> lexLe b c -> lexLe a c.
Proof.
  intros [->|H1] [->|H2]; try (now left); try (now right).
  right. eapply lexLt_trans; eauto.
Qed.

Lemma lexLe_refl a : lexLe a a.
Proof. now left. Qed.

End StringOrder.

(* ================================================================= *)
(** ** The merchant list *)

Section Merchants.

Lemma setOf_elem seen xs x : x ∈ setOf seen xs <-> x ∈ xs /\ x ∉ seen.
Proof.
  revert seen. induction xs as [|y r IH]; intros seen; simpl.
  - split; [intros H; inversion H|intros [H _]; inversion H].
  - case_bool_decide as Hy.
    + rewrite IH, elem_of_cons. split; [intros [H Hn]; auto|].
      intros [[-> | H] Hn]; [contradiction|done].
    + rewrite !elem_of_cons, IH, elem_of_cons. split.
      * intros [-> | [H Hn]]; split; auto.
      * intros [[-> | H] Hn]; [now left|].
        destruct (decide (x = y)) as [->|Hne]; [now left|right; split; [done|]].
        intros [?|?]; done.
Qed.

Lemma setOf_NoDup seen xs : NoDup (setOf seen xs).
Proof.
  revert seen. induction xs as [|y r IH]; intros seen; simpl; [constructor|].
  case_bool_decide; [apply IH|]. constructor; [|apply IH].
  rewrite setOf_elem, elem_of_cons. intros [_ Hn]. apply Hn. now left.
Qed.

Lemma insertSorted_perm x l : insertSorted x l ≡ₚ x :: l.
Proof.
  induction l as [|y r IH]; simpl; [reflexivity|].
  destruct (JsString.ltb x y); [reflexivity|].
  rewrite IH. apply Permutation_swap.
Qed.

Lemma fold_insert_perm xs acc :
  fold_left (fun acc x => insertSorted x acc) xs acc ≡ₚ xs ++ acc.
Proof.
  revert acc. induction xs as [|x r IH]; intros acc; simpl; [reflexivity|].
  rewrite IH, insertSorted_perm. now rewrite Permutation_middle.
Qed.

Lemma sort_perm xs : sort xs ≡ₚ xs.
Proof. unfold sort. rewrite fold_insert_perm. now rewrite app_nil_r. Qed.

Lemma insertSorted_sorted x l :
  StronglySorted lexLe l -> StronglySorted lexLe (insertSorted x l).
Proof.
  induction 1 as [|y r Hr IH Hy]; simpl.
  - constructor; constructor.
  - destruct (JsString.ltb x y) eqn:E.
    + apply ltb_lexLt in E. constructor; [now constructor|].
      constructor; [now right|].
      eapply Forall_impl; [exact Hy|]. intros z Hz.
      eapply lexLe_trans; [right; exact E|exact Hz].
    + constructor; [exact IH|].
      rewrite insertSorted_perm. constructor; [|exact Hy].
      destruct (lexLt_total x y) as [H | [-> | H]].
      * apply ltb_lexLt in H. congruence.
      * apply lexLe_refl.
      * now right.
Qed.

Lemma sort_sorted xs : StronglySorted lexLe (sort xs).
Proof.
  unfold sort. assert (H : StronglySorted lexLe []) by constructor.
  revert H. generalize (@nil jsstring). induction xs as [|x r IH]; intros acc H; simpl; [exact H|].
  apply IH, insertSorted_sorted, H.
Qed.

Lemma sorted_strict l : StronglySorted lexLe l -> NoDup l -> StronglySorted lexLt l.
Proof.
  induction 1 as [|x r Hr IH Hx]; intros Hnd; [constructor|].
  apply NoDup_cons in Hnd as [Hnotin Hnd]. constructor; [now apply IH|].
  apply Forall_forall. intros y Hy.
  rewrite Forall_forall in Hx. destruct (Hx y Hy) as [->|H]; [contradiction|exact H].
Qed.

Lemma stringsOf_elem vs s : s ∈ stringsOf vs <-> VStr s ∈ vs.
Proof.
  unfold stringsOf. rewrite list_elem_of_omap. split.
  - intros (v & Hv & E). destruct v; try discriminate. now injection E as ->.
  - intros H. now exists (VStr s).
Qed.

Lemma trim_nil : JsString.trim [] = [].
Proof. reflexivity. Qed.

Lemma isMerchantName_str s :
  isMerchantName (VStr s) = true <-> JsString.trim s <> [].
Proof.
  unfold isMerchantName, toBoolean, JsString.eqb. simpl typeof.
  rewrite (bool_decide_eq_true_2 (TString = TString)) by done. rewrite andb_true_r.
  rewrite andb_true_iff, !negb_true_iff, !bool_decide_eq_false.
  split; [now intros [_ H]|]. intros H. split; [|exact H].
  intros ->. now apply H.
Qed.

Lemma extractMerchants_elem data s :
  s ∈ extractMerchants data
  <-> JsString.trim s <> [] /\ exists r, r ∈ data /\ get r k_Merchant = VStr s.
Proof.
  unfold extractMerchants. rewrite sort_perm, setOf_elem, stringsOf_elem.
  rewrite list_elem_of_In, filter_In, <- list_elem_of_In, list_elem_of_fmap, isMerchantName_str.
  split.
  - intros [[(r & E & Hr) Ht] _]. split; [exact Ht|]. now exists r.
  - intros [Ht (r & Hr & E)]. split; [|apply not_elem_of_nil].
    split; [|exact Ht]. now exists r.
Qed.

Lemma extractMerchants_NoDup data : NoDup (extractMerchants data).
Proof. unfold extractMerchants. rewrite sort_perm. apply setOf_NoDup. Qed.

Lemma extractMerchants_sorted data : StronglySorted lexLt (extractMerchants data).
Proof.
  apply sorted_strict; [apply sort_sorted|apply extractMerchants_NoDup].
Qed.

End Merchants.

(** C5, as amended: the merchants an upload answers with are exactly the
    strings found in the merchant field of the records whose trimmed form
    is not empty, each as it stands in the sheet (not trimmed), without
    repetition, strictly ascending by UTF-16 code units; the empty string
    is not among them. *)
Theorem upload_merchants (h : Host) (rawData : list row) (w w' : World)
    (ms : list jsstring) (n : nat) (few : list row) :
  upload h rawData w = (UploadResponse ms n few, w') ->
  fileData w' = Some {| processedData := processRows h rawData; merchants := ms |}
  /\ (forall s, s ∈ ms
        <-> JsString.trim s <> []
            /\ exists r, r ∈ processRows h rawData /\ get r k_Merchant = VStr s)
  /\ NoDup ms
  /\ StronglySorted lexLt ms
  /\ [] ∉ ms.
Proof.
  unfold upload. case_bool_decide; [discriminate|].
  intros E. injection E as <- <- <- <-. simpl.
  split; [reflexivity|]. split; [apply extractMerchants_elem|].
  split; [apply extractMerchants_NoDup|]. split; [apply extractMerchants_sorted|].
  rewrite extractMerchants_elem. now intros [Ht _].
Qed.

(** The scenario's two rows. *)
Lemma upload_merchants_witness :
  upload utcHost [rowA; rowB] emptyWorld
  = (UploadResponse [u "A"; u "B"] 2 (processRows utcHost [rowA; rowB]),
     {| fileData := Some {| processedData := processRows utcHost [rowA; rowB];
                            merchants := [u "A"; u "B"] |};
        outputFiles := [] |})
  /\ NoDup [u "A"; u "B"].
Proof.
  assert (E : upload utcHost [rowA; rowB] emptyWorld
              = (UploadResponse [u "A"; u "B"] 2 (processRows utcHost [rowA; rowB]),
                 {| fileData := Some {| processedData := processRows utcHost [rowA; rowB];
                                        merchants := [u "A"; u "B"] |};
                    outputFiles := [] |})) by (vm_compute; reflexivity).
  split; [exact E|].
  exact (proj1 (proj2 (proj2 (upload_merchants utcHost _ _ _ _ _ _ E)))).
Defined.

(** C5 as stated fails: a name with blanks around it is listed with its
    blanks, not trimmed; and the order is by code units, which puts a
    supplementary character (a surrogate pair, here U+1F600) before
    U+FF61 although its code point is larger. *)
Lemma merchants_not_trimmed :
  extractMerchants [<[k_Merchant := VStr (u " A")]> ∅] = [u " A"]
  /\ JsString.trim (u " A") = u "A"
  /\ (u "A" ∉ extractMerchants [<[k_Merchant := VStr (u " A")]> ∅])
  /\ extractMerchants [<[k_Merchant := VStr [65377%N]]> ∅;
                       <[k_Merchant := VStr [55357%N; 56832%N]]> ∅]
     = [[55357%N; 56832%N]; [65377%N]]
  /\ codePoints [55357%N; 56832%N] = [128512%N]
  /\ codePoints [65377%N] = [65377%N]
  /\ (65377 < 128512)%N.
Proof.
  repeat split; try (vm_compute; reflexivity).
  vm_compute. intros H. inversion H as [|? ? ? H']; subst. inversion H'.
Qed.

(* ================================================================= *)
(** ** Filtering *)

Section Filtering.

Context (h : Host).

Lemma record_DateOnly rawData r :
  r ∈ processRows h rawData ->
  get r k_DateOnly = VNull \/ exists t, get r k_DateOnly = VStr (isoDate t).
Proof.
  intros Hr. apply processRows_elem in Hr as (i & r0 & _ & ->).
  unfold get. rewrite lookup_insert_eq. simpl. apply dateOnlyOf_result.
Qed.

Lemma includes_spec selected v :
  includes selected v = true <-> exists m, v = VStr m /\ m ∈ selected.
Proof.
  unfold includes. destruct v; try (split; [discriminate|intros (m & E & _); discriminate]).
  rewrite bool_decide_eq_true. split; [eauto|]. now intros (m & [= ->] & H).
Qed.

Lemma matches_spec rawData selected start stop r :
  r ∈ processRows h rawData ->
  matches selected start stop r = true
  <-> get r k_DateOnly <> VNull
      /\ (exists d, get r k_DateOnly = VStr d /\ lexLe start d /\ lexLe d stop)
      /\ (exists m, get r k_Merchant = VStr m /\ m ∈ selected).
Proof.
  intros Hr. unfold matches. rewrite !andb_true_iff, includes_spec.
  destruct (record_DateOnly rawData r Hr) as [E | [t E]]; rewrite E.
  - simpl. split; [intros [[[? _] _] _]; discriminate|now intros [? _]].
  - simpl. unfold JsString.eqb. rewrite bool_decide_eq_false_2 by apply isoDate_nonempty.
    unfold JsString.geb. rewrite !leb_lexLe. split.
    + intros [[[_ H1] H2] H3]. split; [discriminate|]. split; [eauto|exact H3].
    + intros (_ & (d & [= <-] & H1 & H2) & H3). auto.
Qed.

End Filtering.

(** C2: a record of the uploaded dataset is among the filtered rows
    exactly when its [DateOnly] is not [null], lies between the start and
    the end date in the lexicographic order of strings, both ends
    included, and its merchant is one of the selected; so a record dated
    on the end date itself is kept. *)
Theorem filterData_spec (h : Host) (rawData : list row) (selected : list jsstring)
    (start stop : jsstring) (r : row) :
  r ∈ processRows h rawData ->
  (r ∈ filterData (processRows h rawData) selected start stop
   <-> get r k_DateOnly <> VNull
       /\ (exists d, get r k_DateOnly = VStr d /\ lexLe start d /\ lexLe d stop)
       /\ (exists m, get r k_Merchant = VStr m /\ m ∈ selected))
  /\ (get r k_DateOnly = VStr stop -> lexLe start stop ->
      (exists m, get r k_Merchant = VStr m /\ m ∈ selected) ->
      r ∈ filterData (processRows h rawData) selected start stop).
Proof.
  intros Hr.
  assert (Hiff : r ∈ filterData (processRows h rawData) selected start stop
                 <-> matches selected start stop r = true).
  { unfold filterData. rewrite list_elem_of_In, filter_In, <- list_elem_of_In. tauto. }
  split.
  - rewrite Hiff. exact (matches_spec h rawData selected start stop r Hr).
  - intros E Hle Hm. rewrite Hiff, (matches_spec h rawData) by done.
    rewrite E. split; [discriminate|]. split; [|exact Hm].
    exists stop. split; [reflexivity|]. split; [exact Hle|apply lexLe_refl].
Qed.

(** The scenario's first record in March 2023. *)
Lemma filterData_spec_witness :
  <[k_DateOnly := VStr (u "2023-03-15")]> (<[k_RowIndex := VNum (Z2num 2)]> rowA)
    ∈ processRows utcHost [rowA; rowB]
  /\ <[k_DateOnly := VStr (u "2023-03-15")]> (<[k_RowIndex := VNum (Z2num 2)]> rowA)
       ∈ filterData (processRows utcHost [rowA; rowB]) [u "A"; u "B"]
           (u "2023-03-01") (u "2023-03-15").
Proof.
  assert (Hin : <[k_DateOnly := VStr (u "2023-03-15")]> (<[k_RowIndex := VNum (Z2num 2)]> rowA)
                  ∈ processRows utcHost [rowA; rowB]).
  { apply list_elem_of_lookup. exists 0%nat. vm_compute. reflexivity. }
  split; [exact Hin|].
  apply (proj2 (filterData_spec utcHost [rowA; rowB] [u "A"; u "B"]
                  (u "2023-03-01") (u "2023-03-15") _ Hin)).
  - vm_compute. reflexivity.
  - right. apply compare_lt. vm_compute. reflexivity.
  - exists (u "A"). split; [vm_compute; reflexivity|]. apply elem_of_cons. now left.
Defined.

(* ================================================================= *)
(** ** The /generate handler *)

Section Generate.

Context (h : Host).

(** What an accepted request is answered with. *)
Lemma generate_accepted now req w selected percent start stop fd :
  accepted h req w selected percent start stop fd ->
  generate h now req w
  = let filtered := filterData (processedData fd) selected start stop in
    if bool_decide (length filtered = 0%nat)
    then (ErrorResponse 404 (u "NO_MATCHING_DATA"), w)
    else
      (GenerateResponse (summaryData percent filtered) (u "/download/" ++ outputName now)
         (start ++ u " to " ++ stop) (length filtered) (length (summaryMapOf percent filtered)),
       {| fileData := fileData w;
          outputFiles := outputFiles w
            ++ [(outputName now,
                 {| Transactions := map stripBookkeeping filtered;
                    Summary := summaryData percent filtered |})] |}).
Proof.
  intros (Hsel & Hne & -> & Hnan & Hlo & Hhi & Hs & He & Hsn & Hen & Hsp & Hep & Hfd).
  unfold generate. rewrite Hsel. destruct selected as [|m ms]; [done|].
  rewrite Hnan, Hlo, Hhi, Hs, He.
  destruct start as [|c start]; [done|]. destruct stop as [|c' stop]; [done|].
  cbn [orb from_option id missing]. rewrite Hsp, Hep, Hfd. reflexivity.
Qed.

(** A summary is only ever the answer to an accepted request with rows
    to show. *)
Lemma generate_inv now req w summary url range tc mc w' :
  generate h now req w = (GenerateResponse summary url range tc mc, w') ->
  exists selected percent start stop fd,
    accepted h req w selected percent start stop fd
    /\ filterData (processedData fd) selected start stop <> []
    /\ summary = summaryData percent (filterData (processedData fd) selected start stop)
    /\ tc = length (filterData (processedData fd) selected start stop)
    /\ w' = {| fileData := fileData w;
               outputFiles := outputFiles w
                 ++ [(outputName now,
                      {| Transactions :=
                           map stripBookkeeping (filterData (processedData fd) selected start stop);
                         Summary := summary |})] |}.
Proof.
  unfold generate.
  destruct (selectedMerchants req) as [[|m ms]|] eqn:Hsel; try discriminate.
  destruct (isNaN (parseFloat (percentage req))) eqn:Hnan; [discriminate|].
  destruct (JsNumber.ltb (parseFloat (percentage req)) (Z2num 0)) eqn:Hlo; [discriminate|].
  destruct (JsNumber.ltb (Z2num 100) (parseFloat (percentage req))) eqn:Hhi; [discriminate|].
  cbn [orb].
  destruct (startDate req) as [[|c start]|] eqn:Hs; try discriminate.
  destruct (endDate req) as [[|c' stop]|] eqn:He; try discriminate.
  cbn [missing orb from_option id].
  destruct (unparsable h (c :: start)) eqn:Hsp; [discriminate|].
  destruct (unparsable h (c' :: stop)) eqn:Hep; [discriminate|].
  cbn [orb].
  destruct (fileData w) as [fd|] eqn:Hfd; [|discriminate].
  case_bool_decide as Hlen; [discriminate|].
  intros E. injection E as <- <- <- <- <- <-.
  exists (m :: ms), (parseFloat (percentage req)), (c :: start), (c' :: stop), fd.
  split; [unfold accepted; repeat split; done|].
  split; [now intros Hnil; rewrite Hnil in Hlen|]. done.
Qed.

Lemma generate_fileData now req w : fileData (snd (generate h now req w)) = fileData w.
Proof.
  unfold generate.
  destruct (selectedMerchants req) as [[|m ms]|]; try reflexivity.
  destruct (_ || _ || _); [reflexivity|].
  destruct (_ || _ || _ || _); [reflexivity|].
  destruct (fileData w) eqn:E; [|simpl; congruence].
  case_bool_decide; simpl; congruence.
Qed.

(** The answer and the workbook written depend on the stored upload and
    the request only. *)
Lemma generate_same now1 now2 req w1 w2 :
  fileData w1 = fileData w2 ->
  summaryOf (fst (generate h now1 req w1)) = summaryOf (fst (generate h now2 req w2))
  /\ written w1 (snd (generate h now1 req w1)) = written w2 (snd (generate h now2 req w2))
  /\ (forall status code,
        fst (generate h now1 req w1) = ErrorResponse status code
        <-> fst (generate h now2 req w2) = ErrorResponse status code).
Proof.
  intros Hfd. unfold generate. rewrite Hfd.
  assert (Hnone : forall w, written w w = []) by (intros w; unfold written; now rewrite drop_all).
  destruct (selectedMerchants req) as [[|m ms]|]; try (now rewrite !Hnone).
  destruct (_ || _ || _); [now rewrite !Hnone|].
  destruct (_ || _ || _ || _); [now rewrite !Hnone|].
  destruct (fileData w2); [|now rewrite !Hnone].
  case_bool_decide; [now rewrite !Hnone|].
  unfold written. simpl. rewrite !drop_app_length. repeat split; discriminate.
Qed.

End Generate.

(** C7: an accepted request whose filter leaves no record is answered
    404 with the code [NO_MATCHING_DATA]; no summary is produced, no
    workbook is written and the state is as before. *)
Theorem generate_no_match (h : Host) (now : Z) (req : GenerateRequest) (w : World)
    (selected : list jsstring) (percent : number) (start stop : jsstring) (fd : FileData) :
  accepted h req w selected percent start stop fd ->
  filterData (processedData fd) selected start stop = [] ->
  generate h now req w = (ErrorResponse 404 (u "NO_MATCHING_DATA"), w)
  /\ summaryOf (fst (generate h now req w)) = []
  /\ written w (snd (generate h now req w)) = [].
Proof.
  intros Hacc Hnil. rewrite (generate_accepted h now req w _ _ _ _ _ Hacc).
  cbv zeta. rewrite Hnil. simpl. unfold written. now rewrite drop_all.
Qed.

(** The scenario's upload asked about April. *)
Lemma generate_no_match_witness :
  accepted utcHost aprilRequest scenarioWorld [u "A"; u "B"] (Z2num 5)
    (u "2023-04-01") (u "2023-04-30")
    {| processedData := processRows utcHost [rowA; rowB]; merchants := [u "A"; u "B"] |}
  /\ filterData (processRows utcHost [rowA; rowB]) [u "A"; u "B"]
       (u "2023-04-01") (u "2023-04-30") = []
  /\ generate utcHost 1700000000000 aprilRequest scenarioWorld
     = (ErrorResponse 404 (u "NO_MATCHING_DATA"), scenarioWorld).
Proof.
  assert (Hacc : accepted utcHost aprilRequest scenarioWorld [u "A"; u "B"] (Z2num 5)
                   (u "2023-04-01") (u "2023-04-30")
                   {| processedData := processRows utcHost [rowA; rowB];
                      merchants := [u "A"; u "B"] |})
    by (unfold accepted; repeat split; try discriminate; vm_compute; reflexivity).
  assert (Hnil : filterData (processRows utcHost [rowA; rowB]) [u "A"; u "B"]
                   (u "2023-04-01") (u "2023-04-30") = []) by (vm_compute; reflexivity).
  split; [exact Hacc|]. split; [exact Hnil|].
  exact (proj1 (generate_no_match utcHost 1700000000000 aprilRequest scenarioWorld
                  _ _ _ _ _ Hacc Hnil)).
Defined.

(** C3: in every summary the rows before the last hold, per merchant, the
    accumulated values rounded to two decimals by [toFixed(2)]; the last
    row is the [TOTAL] row, and each of its amounts is the sum of the
    rounded texts of the rows before it, read back as Numbers and added
    from 0 in order, rounded again with [toFixed(2)]; its count is the
    sum of their counts. *)
Theorem totals_from_rounded_rows (h : Host) (now : Z) (req : GenerateRequest) (w w' : World)
    (summary : list SummaryRow) (url range : jsstring) (tc mc : nat) :
  generate h now req w = (GenerateResponse summary url range tc mc, w') ->
  exists selected percent start stop fd rows total,
    accepted h req w selected percent start stop fd
    /\ summary = rows ++ [total]
    /\ Forall2 (fun e r =>
                  Merchant r = fst e
                  /\ TotalWithdrawalAmount r = toFixed2 (withdrawal (snd e))
                  /\ TotalWithdrawalFees r = toFixed2 (fee (snd e))
                  /\ PercentKey r = percentKey percent
                  /\ PercentAmount r = toFixed2 (percentAmount (snd e))
                  /\ TransactionCount r = count (snd e))
         (summaryMapOf percent (filterData (processedData fd) selected start stop)) rows
    /\ Merchant total = VStr (u "TOTAL")
    /\ TotalWithdrawalAmount total
       = toFixed2 (fold_left (fun sum r =>
                                JsNumber.add sum (parseFloatString (TotalWithdrawalAmount r)))
                     rows (Z2num 0))
    /\ TotalWithdrawalFees total
       = toFixed2 (fold_left (fun sum r =>
                                JsNumber.add sum (parseFloatString (TotalWithdrawalFees r)))
                     rows (Z2num 0))
    /\ PercentAmount total
       = toFixed2 (fold_left (fun sum r =>
                                JsNumber.add sum (parseFloatString (PercentAmount r)))
                     rows (Z2num 0))
    /\ TransactionCount total
       = fold_left (fun sum r => (sum + TransactionCount r)%nat) rows 0%nat.
Proof.
  intros E. apply generate_inv in E as (selected & percent & start & stop & fd & Hacc & _ & -> & _).
  exists selected, percent, start, stop, fd.
  eexists. eexists. split; [exact Hacc|]. split; [reflexivity|].
  split; [|repeat split].
  unfold merchantRows. induction (summaryMapOf _ _) as [|e sm IH]; simpl; constructor;
    repeat split; auto.
Qed.

(** The scenario: 100.00 + 50.00 = 150.00. *)
Lemma totals_from_rounded_rows_witness :
  generate utcHost 1700000000000 marchRequest scenarioWorld
  = (GenerateResponse scenarioSummary (u "/download/summary_1700000000000.xlsx")
       (u "2023-03-01 to 2023-03-31") 2 2,
     snd (generate utcHost 1700000000000 marchRequest scenarioWorld))
  /\ exists rows total, scenarioSummary = rows ++ [total] /\ Merchant total = VStr (u "TOTAL").
Proof.
  assert (E : generate utcHost 1700000000000 marchRequest scenarioWorld
              = (GenerateResponse scenarioSummary (u "/download/summary_1700000000000.xlsx")
                   (u "2023-03-01 to 2023-03-31") 2 2,
                 snd (generate utcHost 1700000000000 marchRequest scenarioWorld)))
    by (vm_compute; reflexivity).
  split; [exact E|].
  destruct (totals_from_rounded_rows utcHost _ _ _ _ _ _ _ _ _ E)
    as (_ & _ & _ & _ & _ & rows & total & _ & Hs & _ & Ht & _).
  exists rows, total. split; [exact Hs|exact Ht].
Defined.

(** The total is not the rounding of the exact sum: two merchants with
    0.004 each show 0.00 and 0.00, and the [TOTAL] row shows 0.00, while
    the accumulated values add up to 0.008, which rounds to 0.01. *)
Lemma total_of_rounded_differs :
  map TotalWithdrawalAmount (summaryData (Z2num 5) tinyRows) = [u "0.00"; u "0.00"; u "0.00"]
  /\ toFixed2 (fold_left (fun sum e => JsNumber.add sum (withdrawal (snd e)))
                 (summaryMapOf (Z2num 5) tinyRows) (Z2num 0)) = u "0.01".
Proof. split; vm_compute; reflexivity. Qed.

(** C8: a second call with the same request, on the state the first one
    left, gives the same summary rows (and the same error when it is one)
    and writes a workbook with the same two sheets; the stored upload is
    the same after each call as before. *)
Theorem generate_twice (h : Host) (now1 now2 : Z) (req : GenerateRequest) (w : World) :
  fileData (snd (generate h now1 req w)) = fileData w
  /\ fileData (snd (generate h now2 req (snd (generate h now1 req w)))) = fileData w
  /\ summaryOf (fst (generate h now2 req (snd (generate h now1 req w))))
     = summaryOf (fst (generate h now1 req w))
  /\ written (snd (generate h now1 req w))
       (snd (generate h now2 req (snd (generate h now1 req w))))
     = written w (snd (generate h now1 req w))
  /\ (forall status code,
        fst (generate h now1 req w) = ErrorResponse status code ->
        fst (generate h now2 req (snd (generate h now1 req w))) = ErrorResponse status code).
Proof.
  pose proof (generate_fileData h now1 req w) as H1.
  pose proof (generate_fileData h now2 req (snd (generate h now1 req w))) as H2.
  destruct (generate_same h now2 now1 req _ _ H1) as (Hs & Hw & He).
  split; [exact H1|]. split; [congruence|]. split; [exact Hs|]. split; [exact Hw|].
  intros status code. apply He.
Qed.

(* ================================================================= *)
(** ** The other server files *)

Section OtherFiles.

(** part_000: the falsy test is there too, with the empty string for
    "no date"; the epoch is built in UTC, so serial 1 is 1899-12-30 on
    every host; there is no [try], and a serial too large for a [Date]
    throws. *)
Lemma Part000_extractDateOnly_numbers (h : Host) :
  Part000.extractDateOnly h (VNum (Z2num 0)) = Normal (VStr [])
  /\ Part000.extractDateOnly h (VNum (Z2num 1)) = Normal (VStr (u "1899-12-30"))
  /\ Part000.extractDateOnly h (VNum (Z2num 45001)) = Normal (VStr (u "2023-03-15"))
  /\ Part000.extractDateOnly h (VNum (Z2num (10 ^ 30))) = Throw RangeError.
Proof. repeat split; vm_compute; reflexivity. Qed.

(** part_000: /generate writes the percentage into the rows of the
    dataset itself. *)
Lemma Part000_generate_mutates :
  map (fun r => r !! u "5% Amount") scenarioData000 = [None; None]
  /\ map (fun r => r !! u "5% Amount") (after000 marchRequest000 scenarioData000)
     = [Some (VStr (u "5.00")); Some (VStr (u "2.50"))].
Proof. split; vm_compute; reflexivity. Qed.

(** part_000: the [TOTAL] row rounds the sum of the accumulated values,
    not the sum of the rounded rows: 0.00 and 0.00 are totalled 0.01. *)
Lemma Part000_total_from_raw :
  map Part000.TotalWithdrawalAmount (summary000 marchRequest000 tinyData000)
  = [u "0.00"; u "0.00"; u "0.01"].
Proof. vm_compute; reflexivity. Qed.

(** part_000: with nothing in range the answer is still a summary, of
    zeros; the 404 is out of reach because the [TOTAL] row is pushed
    before the test. *)
Lemma Part000_no_match_is_a_summary :
  map Part000.Merchant (summary000 aprilRequest000 scenarioData000) = [u "A"; u "TOTAL"]
  /\ map Part000.TotalWithdrawalAmount (summary000 aprilRequest000 scenarioData000)
     = [u "0.00"; u "0.00"].
Proof. split; vm_compute; reflexivity. Qed.

(** part_001: no error escapes either. *)
Lemma Part001_parseExcelDate_returns (h : Host) v :
  exists r, Part001.parseExcelDate h v = Normal r.
Proof.
  unfold Part001.parseExcelDate.
  match goal with |- context [tryCatch ?b _] => destruct b as [r|e] end; simpl; eauto.
Qed.

(** part_001: only the day-first reading is tried for a text of three
    parts, so a month-first date is lost where [src/server.js] finds it;
    and there is no test for falsy values, so serial 0 is a date. *)
Lemma Part001_parseExcelDate_differs :
  Part001.parseExcelDate utcHost (VStr (u "01/31/2024")) = Normal VNull
  /\ parseExcelDate utcHost (VStr (u "01/31/2024")) = Normal (VStr (u "2024-01-31"))
  /\ Part001.parseExcelDate utcHost (VNum (Z2num 0)) = Normal (VStr (u "1899-12-29"))
  /\ Part001.parseExcelDate utcHost (VStr (u "31-01-2024")) = Normal (VStr (u "2024-01-31")).
Proof. repeat split; vm_compute; reflexivity. Qed.

End OtherFiles.

(* ================================================================= *)
(** ** Downloads, the states of the server and the upload filter *)

Section Download.

Lemma decimal_nonempty z : decimal z <> [].
Proof.
  unfold decimal. destruct (Z.abs_N z) as [|p]; [discriminate|].
  simpl. pose proof (DecimalPos.Unsigned.to_uint_nonnil p) as H.
  destruct (Pos.to_uint p); [contradiction|discriminate..].
Qed.

Lemma stripPrefix_app p s : stripPrefix p (p ++ s) = Some s.
Proof. induction p as [|a p IH]; simpl; [reflexivity|]. now rewrite N.eqb_refl. Qed.

Lemma stripPrefix_Some p s r : stripPrefix p s = Some r -> s = p ++ r.
Proof.
  revert s. induction p as [|a p IH]; intros [|b s] H; simpl in *; try congruence.
  destruct (N.eqb_spec a b); [|discriminate]. subst. simpl. f_equal. now apply IH.
Qed.

Lemma spanDigits_app ds rest :
  Forall (fun c => isDigit c = true) ds ->
  match rest with [] => True | c :: _ => isDigit c = false end ->
  spanDigits (ds ++ rest) = (ds, rest).
Proof.
  intros Hds Hrest. induction Hds as [|c ds Hc _ IH]; simpl.
  - destruct rest as [|c r]; [reflexivity|]. simpl. now rewrite Hrest.
  - now rewrite Hc, IH.
Qed.

Lemma spanDigits_spec s ds rest :
  spanDigits s = (ds, rest) ->
  s = ds ++ rest /\ Forall (fun c => isDigit c = true) ds.
Proof.
  revert ds rest. induction s as [|c s IH]; intros ds rest H; simpl in H.
  - injection H as <- <-. now split.
  - destruct (isDigit c) eqn:Hc.
    + destruct (spanDigits s) as [ds' rest'] eqn:E. injection H as <- <-.
      destruct (IH _ _ eq_refl) as [-> Hd]. split; [reflexivity|now constructor].
    + injection H as <- <-. now split.
Qed.

Lemma summaryFilename_shape s :
  summaryFilename s = true
  <-> exists ds, ds <> [] /\ Forall (fun c => isDigit c = true) ds
                 /\ s = u "summary_" ++ ds ++ u ".xlsx".
Proof.
  unfold summaryFilename. split.
  - destruct (stripPrefix (u "summary_") s) as [r|] eqn:Hp; [|discriminate].
    apply stripPrefix_Some in Hp. destruct (spanDigits r) as [ds rest] eqn:Hs.
    apply spanDigits_spec in Hs as [-> Hd]. rewrite andb_true_iff, negb_true_iff.
    unfold JsString.eqb. rewrite bool_decide_eq_false, bool_decide_eq_true.
    intros [Hne ->]. now exists ds.
  - intros (ds & Hne & Hd & ->). rewrite stripPrefix_app, spanDigits_app by done.
    unfold JsString.eqb. rewrite bool_decide_eq_false_2 by done. reflexivity.
Qed.

Lemma outputName_valid now : summaryFilename (outputName now) = true.
Proof.
  apply summaryFilename_shape. exists (decimal now).
  split; [apply decimal_nonempty|]. split; [apply decimal_digits|reflexivity].
Qed.

Lemma lookupFile_app name files n wb :
  lookupFile name (files ++ [(n, wb)])
  = if JsString.eqb n name then Some wb else lookupFile name files.
Proof.
  induction files as [|[n' wb'] files IH]; simpl.
  - reflexivity.
  - rewrite IH. destruct (JsString.eqb n name); [reflexivity|].
    reflexivity.
Qed.

Lemma lookupFile_Some name files wb :
  lookupFile name files = Some wb -> (name, wb) ∈ files.
Proof.
  induction files as [|[n' wb'] files IH]; simpl; [discriminate|].
  destruct (lookupFile name files) as [wb''|].
  - intros [= <-]. right. now apply IH.
  - unfold JsString.eqb. case_bool_decide; [|discriminate]. intros [= <-]. subst. now left.
Qed.

Lemma lookupFile_None name files :
  lookupFile name files = None <-> forall wb, (name, wb) ∉ files.
Proof.
  induction files as [|[n' wb'] files IH]; simpl.
  - split; [intros _ wb H; inversion H|done].
  - destruct (lookupFile name files) as [wb''|] eqn:E.
    + split; [discriminate|]. intros H. apply lookupFile_Some in E.
      exfalso. apply (H wb''). now right.
    + unfold JsString.eqb. case_bool_decide as Hn.
      * split; [discriminate|]. intros H. exfalso. apply (H wb'). subst. now left.
      * split; [|done]. intros _ wb H. apply elem_of_cons in H as [[= ? ?]|H]; [congruence|].
        now apply (proj1 IH eq_refl wb).
Qed.

Lemma lookupFile_unlink name files : lookupFile name (unlink name files) = None.
Proof.
  apply lookupFile_None. intros wb H. unfold unlink in H.
  apply list_elem_of_In, filter_In in H as [_ H]. simpl in H.
  unfold JsString.eqb in H. now rewrite bool_decide_eq_true_2 in H.
Qed.

Lemma lookupFile_unlink_ne name other files :
  other <> name -> lookupFile other (unlink name files) = lookupFile other files.
Proof.
  intros Hne. induction files as [|[n wb] files IH]; simpl; [reflexivity|].
  unfold JsString.eqb at 1. case_bool_decide as Hn; simpl.
  - rewrite IH. subst n. unfold JsString.eqb. rewrite bool_decide_eq_false_2 by congruence.
    now destruct (lookupFile other files).
  - now rewrite IH.
Qed.

End Download.

(** The name in a request for a download either is [summary_], a
    non-empty run of digits and [.xlsx], and then holds no path separator
    (it names a file directly in the output directory); or it is answered
    400 [INVALID_FILENAME] and nothing changes. *)
Theorem download_names (filename : jsstring) (w : World) :
  ((exists ds, ds <> [] /\ Forall (fun c => isDigit c = true) ds
               /\ filename = u "summary_" ++ ds ++ u ".xlsx")
   /\ Forall (fun c => c <> 47%N /\ c <> 92%N) filename
   /\ fst (download filename w) <> DownloadError 400 (u "INVALID_FILENAME"))
  \/ ((~ exists ds, ds <> [] /\ Forall (fun c => isDigit c = true) ds
                    /\ filename = u "summary_" ++ ds ++ u ".xlsx")
      /\ download filename w = (DownloadError 400 (u "INVALID_FILENAME"), w)).
Proof.
  destruct (summaryFilename filename) eqn:E.
  - left. pose proof (proj1 (summaryFilename_shape filename) E) as (ds & Hne & Hd & ->).
    split; [now exists ds|]. split.
    + apply Forall_app. split; [repeat constructor; discriminate|].
      apply Forall_app. split; [|repeat constructor; discriminate].
      eapply Forall_impl; [exact Hd|]. intros c Hc. split; intros ->; discriminate Hc.
    + unfold download. rewrite E. simpl.
      destruct (lookupFile _ _); simpl; discriminate.
  - right. split.
    + intros H. apply summaryFilename_shape in H. congruence.
    + unfold download. rewrite E. now rewrite orb_true_r.
Qed.

Section GenerateDownload.

Context (h : Host).

(** The whole answer to an accepted request with rows to show. *)
Lemma generate_response now req w summary url range tc mc w' :
  generate h now req w = (GenerateResponse summary url range tc mc, w') ->
  exists selected percent start stop fd,
    accepted h req w selected percent start stop fd
    /\ filterData (processedData fd) selected start stop <> []
    /\ summary = summaryData percent (filterData (processedData fd) selected start stop)
    /\ url = u "/download/" ++ outputName now
    /\ range = start ++ u " to " ++ stop
    /\ tc = length (filterData (processedData fd) selected start stop)
    /\ mc = length (summaryMapOf percent (filterData (processedData fd) selected start stop))
    /\ w' = {| fileData := fileData w;
               outputFiles := outputFiles w
                 ++ [(outputName now,
                      {| Transactions :=
                           map stripBookkeeping (filterData (processedData fd) selected start stop);
                         Summary := summary |})] |}.
Proof.
  intros E. pose proof E as E'.
  apply generate_inv in E' as (selected & percent & start & stop & fd & Hacc & Hne & _).
  rewrite (generate_accepted h now req w _ _ _ _ _ Hacc) in E. cbv zeta in E.
  case_bool_decide as Hlen; [discriminate|]. injection E as <- <- <- <- <- <-.
  exists selected, percent, start, stop, fd.
  split; [exact Hacc|]. split; [exact Hne|]. repeat split.
Qed.

End GenerateDownload.

(** The workbook of a summary can be fetched under the name in the
    answer's URL, once: the download sends the two sheets that were
    written (as many transactions as the answer counts, the summary as
    answered), removes the file and leaves the stored upload alone; asking
    again is answered 404 [FILE_NOT_FOUND]. *)
Theorem generate_then_download (h : Host) (now : Z) (req : GenerateRequest) (w w1 : World)
    (summary : list SummaryRow) (url range : jsstring) (tc mc : nat) :
  0 <= now ->
  generate h now req w = (GenerateResponse summary url range tc mc, w1) ->
  exists wb w2,
    url = u "/download/" ++ outputName now
    /\ download (outputName now) w1
       = (DownloadFile xlsxContentType (u "attachment; filename=" ++ outputName now) wb, w2)
    /\ Summary wb = summary
    /\ length (Transactions wb) = tc
    /\ fileData w2 = fileData w
    /\ download (outputName now) w2 = (DownloadError 404 (u "FILE_NOT_FOUND"), w2).
Proof.
  intros _ E.
  apply generate_response in E
    as (selected & percent & start & stop & fd & _ & _ & -> & -> & _ & -> & _ & ->).
  eexists. eexists. split; [reflexivity|].
  unfold download. rewrite outputName_valid. simpl toBoolean.
  cbn [negb orb]. cbn [outputFiles fileData]. rewrite lookupFile_app.
  unfold JsString.eqb at 1. rewrite bool_decide_eq_true_2 by reflexivity.
  split; [reflexivity|]. cbn [Summary Transactions]. split; [reflexivity|].
  split; [apply length_map|]. split; [reflexivity|].
  cbn [outputFiles]. now rewrite lookupFile_unlink.
Qed.

(** The scenario's summary for March 2023, fetched. *)
Lemma generate_then_download_witness :
  0 <= 1700000000000
  /\ generate utcHost 1700000000000 marchRequest scenarioWorld
     = (GenerateResponse scenarioSummary (u "/download/summary_1700000000000.xlsx")
          (u "2023-03-01 to 2023-03-31") 2 2,
        snd (generate utcHost 1700000000000 marchRequest scenarioWorld))
  /\ exists wb w2,
       download (u "summary_1700000000000.xlsx")
         (snd (generate utcHost 1700000000000 marchRequest scenarioWorld))
       = (DownloadFile xlsxContentType (u "attachment; filename=summary_1700000000000.xlsx") wb, w2)
       /\ Summary wb = scenarioSummary.
Proof.
  assert (H0 : 0 <= 1700000000000) by lia.
  assert (E : generate utcHost 1700000000000 marchRequest scenarioWorld
              = (GenerateResponse scenarioSummary (u "/download/summary_1700000000000.xlsx")
                   (u "2023-03-01 to 2023-03-31") 2 2,
                 snd (generate utcHost 1700000000000 marchRequest scenarioWorld)))
    by (vm_compute; reflexivity).
  split; [exact H0|]. split; [exact E|].
  destruct (generate_then_download utcHost _ _ _ _ _ _ _ _ _ H0 E)
    as (wb & w2 & _ & Hd & Hs & _).
  exists wb, w2. split; [exact Hd|exact Hs].
Defined.

(** A download changes nothing but the file it sends: the stored upload
    stays, every other file stays as it is, and a request that is refused
    (400 or 404) leaves the state as it was. *)
Theorem download_frame (filename : jsstring) (w : World) :
  fileData (snd (download filename w)) = fileData w
  /\ (forall other, other <> filename ->
        lookupFile other (outputFiles (snd (download filename w)))
        = lookupFile other (outputFiles w))
  /\ (forall status code,
        fst (download filename w) = DownloadError status code -> snd (download filename w) = w)
  /\ (forall ct cd wb,
        fst (download filename w) = DownloadFile ct cd wb ->
        lookupFile filename (outputFiles w) = Some wb
        /\ lookupFile filename (outputFiles (snd (download filename w))) = None).
Proof.
  unfold download.
  destruct (negb (toBoolean (VStr filename)) || negb (summaryFilename filename)); simpl.
  { repeat split; done. }
  destruct (lookupFile filename (outputFiles w)) as [wb|] eqn:E; simpl.
  - split; [reflexivity|]. split; [intros other Hne; now apply lookupFile_unlink_ne|].
    split; [discriminate|]. intros ct cd wb' [= <- <- <-].
    split; [reflexivity|apply lookupFile_unlink].
  - repeat split; done.
Qed.

Section Reachable.

Context (h : Host).

Lemma generate_cases now req w :
  (exists status code, generate h now req w = (ErrorResponse status code, w))
  \/ (exists summary url range tc mc w',
        generate h now req w = (GenerateResponse summary url range tc mc, w')).
Proof.
  unfold generate.
  destruct (selectedMerchants req) as [[|m ms]|]; try (left; eauto; fail).
  destruct (_ || _ || _); [left; eauto|].
  destruct (_ || _ || _ || _); [left; eauto|].
  destruct (fileData w); [|left; eauto].
  case_bool_decide; [left; eauto|]. right. eauto 10.
Qed.

Lemma step_wellFormed w w' : wellFormed h w -> step h w w' -> wellFormed h w'.
Proof.
  intros [Hfiles Hdata] Hstep. destruct Hstep as [rawData w|now req w Hnow|filename w].
  - unfold upload. case_bool_decide as Hlen; [now split|]. simpl. split; [exact Hfiles|].
    intros fd [= <-]. exists rawData. simpl. split; [|done].
    intros ->. now apply Hlen.
  - destruct (generate_cases now req w) as [(status & code & E)|(s & url & rg & tc & mc & w' & E)];
      rewrite E; simpl; [now split|].
    apply generate_response in E
      as (selected & percent & start & stop & fd & Hacc & Hne & -> & _ & _ & _ & _ & ->).
    split; simpl; [|exact Hdata].
    intros name wb Hin. apply elem_of_app in Hin as [Hin|Hin]; [now apply Hfiles|].
    apply list_elem_of_singleton in Hin. injection Hin as -> ->. simpl.
    split; [apply outputName_valid|]. split.
    + intros Hnil. apply map_eq_nil in Hnil. contradiction.
    + unfold summaryData. eexists. eexists. split; reflexivity.
  - unfold download. destruct (_ || _); [now split|].
    destruct (lookupFile filename (outputFiles w)); [|now split].
    split; simpl; [|exact Hdata].
    intros name wb Hin. apply Hfiles. unfold unlink in Hin.
    apply list_elem_of_In, filter_In in Hin as [Hin _]. now apply list_elem_of_In.
Qed.

End Reachable.

Lemma reachable_inv (h : Host) (w : World) : reachable h w -> wellFormed h w.
Proof.
  induction 1 as [|w w' _ IH Hstep]; [|now apply (step_wellFormed h w)].
  split; [intros name wb H; inversion H|discriminate].
Qed.

(** In every state the server can reach by uploads, summaries and
    downloads, the output directory holds only workbooks /generate wrote,
    under names /download accepts, each with transactions and a summary
    ending in the [TOTAL] row, and the stored upload is the records of a
    sheet with rows together with their merchants; so every file that is
    there is sent when asked for. *)
Theorem reachable_wellFormed (h : Host) (w : World) :
  reachable h w ->
  wellFormed h w
  /\ forall name wb, lookupFile name (outputFiles w) = Some wb ->
       exists w', download name w
                  = (DownloadFile xlsxContentType (u "attachment; filename=" ++ name) wb, w').
Proof.
  intros Hr.
  pose proof (reachable_inv h w Hr) as Hwf.
  split; [exact Hwf|]. intros name wb Hl.
  destruct Hwf as [Hfiles _]. pose proof (lookupFile_Some _ _ _ Hl) as Hin.
  apply Hfiles in Hin as (Hname & _). unfold download. rewrite Hname, Hl.
  assert (Hne : name <> []).
  { intros ->. discriminate Hname. }
  simpl. unfold JsString.eqb. rewrite bool_decide_eq_false_2 by exact Hne. simpl. eauto.
Qed.

(** The state after the scenario's upload and its summary for March. *)
Lemma reachable_wellFormed_witness :
  reachable utcHost (snd (generate utcHost 1700000000000 marchRequest scenarioWorld))
  /\ wellFormed utcHost (snd (generate utcHost 1700000000000 marchRequest scenarioWorld)).
Proof.
  assert (Hr : reachable utcHost (snd (generate utcHost 1700000000000 marchRequest scenarioWorld))).
  { eapply reachable_step; [|apply step_generate; lia].
    eapply reachable_step; [apply reachable_start|]. apply step_upload. }
  split; [exact Hr|]. exact (proj1 (reachable_wellFormed utcHost _ Hr)).
Defined.

Section FileFilter.

Lemma isPrefix_app p q s : isPrefix (p ++ q) s = true -> isPrefix p s = true.
Proof.
  revert s. induction p as [|a p IH]; intros s H; [reflexivity|].
  destruct s as [|b s]; [discriminate|]. simpl in *.
  apply andb_true_iff in H as [-> H]. now apply IH.
Qed.

Lemma occursIn_app p q s : occursIn (p ++ q) s = true -> occursIn p s = true.
Proof.
  induction s as [|c s IH]; simpl; rewrite !orb_true_iff.
  - intros [H|H]; [left; now apply (isPrefix_app p q)|discriminate].
  - intros [H|H]; [left; now apply (isPrefix_app p q)|right; now apply IH].
Qed.

Lemma filetypes_spec s :
  filetypes s = occursIn (u "xls") s || occursIn (u "csv") s.
Proof.
  unfold filetypes. destruct (occursIn (u "xlsx") s) eqn:E; [|reflexivity].
  now rewrite (occursIn_app (u "xls") (u "x") s E).
Qed.

End FileFilter.

(** The upload filter lets a file through exactly when [xls] or [csv]
    occurs in its media type and in the lower-cased extension of its name
    (the alternative [xlsx] of the pattern adds nothing). The media types
    registered for .xlsx and .xls files hold neither, so a file sent with
    one of them is refused whatever its name; [text/csv] passes the test
    on the media type. *)
Theorem fileFilter_accepts (p : Platform) (name : jsstring) (mime : jsstring) :
  (fileFilter p {| originalname := name; mimetype := mime |} = Accept
   <-> occursIn (u "xls") mime || occursIn (u "csv") mime = true
       /\ occursIn (u "xls") (toLowerCase p (extname p name))
          || occursIn (u "csv") (toLowerCase p (extname p name)) = true)
  /\ fileFilter p {| originalname := name; mimetype := xlsxContentType |}
     = Reject (u "Only Excel/CSV files are allowed!")
  /\ fileFilter p {| originalname := name; mimetype := xlsContentType |}
     = Reject (u "Only Excel/CSV files are allowed!")
  /\ fileFilter p {| originalname := name; mimetype := csvContentType |}
     = (if filetypes (toLowerCase p (extname p name)) then Accept
        else Reject (u "Only Excel/CSV files are allowed!")).
Proof.
  split; [|repeat split].
  unfold fileFilter. cbn [originalname mimetype]. rewrite <- !filetypes_spec.
  destruct (filetypes mime), (filetypes _); simpl; split; try done; intros [? ?]; done.
Qed.

(* ================================================================= *)
(** ** The rows of a summary *)

Section SummaryMap.

Context (percent : number).

Lemma sameValueZero_str s v : sameValueZero (VStr s) v = bool_decide (VStr s = v).
Proof. reflexivity. Qed.

Lemma sameValueZero_str_r v s : sameValueZero v (VStr s) = bool_decide (v = VStr s).
Proof. destruct v; reflexivity. Qed.

Lemma mapHas_str m s : mapHas m (VStr s) = bool_decide (VStr s ∈ map fst m).
Proof.
  unfold mapHas. induction m as [|[k t] m IH]; simpl; [reflexivity|].
  rewrite IH, sameValueZero_str_r.
  destruct (decide (k = VStr s)) as [->|Hk].
  - rewrite (bool_decide_eq_true_2 (VStr s = VStr s)) by reflexivity. simpl.
    symmetry. apply bool_decide_eq_true_2. now left.
  - rewrite (bool_decide_eq_false_2 (k = VStr s)) by exact Hk. simpl.
    apply bool_decide_ext. rewrite elem_of_cons. split; [now right|].
    intros [E|E]; [congruence|exact E].
Qed.

Lemma mapUpdate_keys m key f : map fst (mapUpdate m key f) = map fst m.
Proof.
  unfold mapUpdate. rewrite List.map_map. apply map_ext. intros [k t]. simpl.
  now destruct (sameValueZero k key).
Qed.

Lemma mapUpdate_absent m s f : VStr s ∉ map fst m -> mapUpdate m (VStr s) f = m.
Proof.
  unfold mapUpdate. induction m as [|[k t] m IH]; simpl; [reflexivity|].
  intros H. rewrite not_elem_of_cons in H. destruct H as [Hk Hm].
  rewrite sameValueZero_str_r, bool_decide_eq_false_2 by congruence.
  now rewrite IH.
Qed.

(** What the callback does to the map, for a row whose merchant is a
    string: the merchant's entry is created if need be, at the end, and
    its count goes up by one. *)
Lemma accumulate_counts m r s :
  get r k_Merchant = VStr s ->
  NoDup (map fst m) ->
  map fst (accumulate percent m r)
  = map fst m ++ (if bool_decide (VStr s ∈ map fst m) then [] else [VStr s])
  /\ sum_list_with (fun e => count (snd e)) ((accumulate percent m r))
     = S (sum_list_with (fun e => count (snd e)) (m))
  /\ forall key t, (key, t) ∈ accumulate percent m r ->
       (key = VStr s /\ (exists t0, ((key, t0) ∈ m) /\ count t = S (count t0)))
       \/ (key = VStr s /\ (VStr s ∉ map fst m) /\ count t = 1%nat)
       \/ (key <> VStr s /\ ((key, t) ∈ m)).
Proof.
  intros Hs Hnd. unfold accumulate. rewrite Hs, mapHas_str.
  set (f := fun current : Totals => _).
  assert (Hf : forall t, count (f t) = S (count t)) by (intros t; simpl; lia).
  clearbody f.
  assert (Hin : forall m0, NoDup (map fst m0) -> VStr s ∈ map fst m0 ->
            sum_list_with (fun e => count (snd e)) ((mapUpdate m0 (VStr s) f))
            = S (sum_list_with (fun e => count (snd e)) (m0))).
  { clear -Hf. unfold mapUpdate. induction m0 as [|[k t] m0 IH]; simpl; intros Hnd Hin.
    - inversion Hin.
    - apply NoDup_cons in Hnd as [Hk Hnd]. rewrite sameValueZero_str_r.
      case_bool_decide as Hk'; simpl.
      + subst k. rewrite Hf. f_equal. f_equal.
        fold (mapUpdate m0 (VStr s) f). now rewrite mapUpdate_absent.
      + apply elem_of_cons in Hin as [Hin|Hin]; [congruence|].
        rewrite IH by done. lia. }
  assert (Hel : forall m0 key t, (key, t) ∈ mapUpdate m0 (VStr s) f ->
            (key = VStr s /\ exists t0, ((key, t0) ∈ m0) /\ t = f t0)
            \/ (key <> VStr s /\ ((key, t) ∈ m0))).
  { clear. unfold mapUpdate. intros m0 key t H. apply list_elem_of_fmap in H as ([k t0] & E & H).
    simpl in E. rewrite sameValueZero_str_r in E. case_bool_decide as Hk.
    - injection E as -> ->. left. split; [exact Hk|]. exists t0. now split.
    - injection E as -> ->. right. now split. }
  case_bool_decide as Hhas.
  - rewrite mapUpdate_keys, app_nil_r. split; [reflexivity|]. split; [now apply Hin|].
    intros key t H. apply Hel in H as [(-> & t0 & H0 & ->)|[Hk H]].
    + left. split; [reflexivity|]. exists t0. now rewrite Hf.
    + right. right. now split.
  - unfold mapAdd. rewrite mapUpdate_keys, map_app. split; [reflexivity|]. split.
    + rewrite Hin.
      * rewrite !sum_list_with_app. simpl. lia.
      * rewrite map_app. simpl. apply NoDup_app. split; [exact Hnd|].
        split; [|apply NoDup_singleton]. intros x Hx Hx'.
        apply list_elem_of_singleton in Hx'. now subst.
      * rewrite map_app. apply elem_of_app. right. now left.
    + intros key t H. apply Hel in H as [(-> & t0 & H0 & ->)|[Hk H]].
      * apply elem_of_app in H0 as [H0|H0].
        -- exfalso. apply Hhas. apply list_elem_of_fmap. now exists (VStr s, t0).
        -- apply list_elem_of_singleton in H0. injection H0 as ->.
           right. left. split; [reflexivity|]. split; [exact Hhas|]. now rewrite Hf.
      * apply elem_of_app in H as [H|H]; [right; right; now split|].
        apply list_elem_of_singleton in H. congruence.
Qed.

End SummaryMap.

Section SummaryRows.

Context (percent : number).

Lemma setOf_snoc seen xs x :
  setOf seen (xs ++ [x])
  = setOf seen xs ++ (if bool_decide (x ∈ seen ++ xs) then [] else [x]).
Proof.
  revert seen. induction xs as [|y xs IH]; intros seen; simpl.
  - rewrite app_nil_r. now case_bool_decide.
  - case_bool_decide as Hy.
    + rewrite IH. f_equal.
      rewrite (bool_decide_ext (x ∈ seen ++ xs) (x ∈ seen ++ y :: xs)); [reflexivity|].
      rewrite !elem_of_app, elem_of_cons. split; [tauto|].
      intros [H|[->|H]]; tauto.
    + simpl. f_equal. rewrite IH. f_equal.
      rewrite (bool_decide_ext (x ∈ (y :: seen) ++ xs) (x ∈ seen ++ y :: xs)); [reflexivity|].
      rewrite !elem_of_app, !elem_of_cons. tauto.
Qed.

Lemma merchantsIn_snoc rs r s :
  get r k_Merchant = VStr s -> merchantsIn (rs ++ [r]) = merchantsIn rs ++ [s].
Proof.
  intros Hs. unfold merchantsIn, stringsOf. rewrite map_app, omap_app. simpl. now rewrite Hs.
Qed.

Lemma merchantsIn_elem rs s :
  s ∈ merchantsIn rs <-> exists r, r ∈ rs /\ get r k_Merchant = VStr s.
Proof.
  unfold merchantsIn. rewrite stringsOf_elem, list_elem_of_fmap. split.
  - intros (r & E & Hr). now exists r.
  - intros (r & Hr & E). now exists r.
Qed.

Lemma recordsOf_nil m rs : m ∉ merchantsIn rs -> recordsOf m rs = [].
Proof.
  intros Hm. unfold recordsOf. induction rs as [|r rs IH]; simpl; [reflexivity|].
  case_bool_decide as E.
  - exfalso. apply Hm, merchantsIn_elem. exists r. split; [now left|exact E].
  - apply IH. intros H. apply Hm. apply merchantsIn_elem in H as (r' & Hr' & E').
    apply merchantsIn_elem. exists r'. split; [now right|exact E'].
Qed.

(** The map after all records: one entry per merchant in order of first
    appearance, each counting the merchant's records. *)
Lemma summaryMapOf_spec rs :
  Forall (fun r => exists s, get r k_Merchant = VStr s) rs ->
  map fst (summaryMapOf percent rs) = map VStr (setOf [] (merchantsIn rs))
  /\ sum_list_with (fun e => count (snd e)) (summaryMapOf percent rs) = length rs
  /\ forall m t, (VStr m, t) ∈ summaryMapOf percent rs -> count t = length (recordsOf m rs).
Proof.
  induction rs as [|r rs IH] using rev_ind; intros Hall.
  - split; [reflexivity|]. split; [reflexivity|]. intros m t H. inversion H.
  - apply Forall_app in Hall as [Hall Hr]. apply Forall_singleton in Hr as [s Hs].
    destruct (IH Hall) as (Hkeys & Hsum & Hcount). clear IH.
    unfold summaryMapOf in *. rewrite fold_left_app. simpl.
    set (m0 := fold_left (accumulate percent) rs []) in *.
    assert (Hnd : NoDup (map fst m0)).
    { rewrite Hkeys. apply NoDup_fmap; [intros a b [=]; done|apply setOf_NoDup]. }
    assert (Hmem : VStr s ∈ map fst m0 <-> s ∈ merchantsIn rs).
    { rewrite Hkeys, list_elem_of_fmap. split.
      - intros (s' & [= <-] & H). apply setOf_elem in H. tauto.
      - intros H. exists s. split; [reflexivity|]. apply setOf_elem. split; [exact H|]. apply not_elem_of_nil. }
    destruct (accumulate_counts percent m0 r s Hs Hnd) as (Hk' & Hs' & Hc').
    split; [|split].
    + rewrite Hk', (bool_decide_ext _ _ Hmem), Hkeys, (merchantsIn_snoc rs r s Hs), setOf_snoc.
      rewrite map_app. f_equal. simpl. repeat case_bool_decide; simpl; try reflexivity; contradiction.
    + rewrite Hs', Hsum, length_app. simpl. lia.
    + intros m t H. unfold recordsOf. rewrite List.filter_app, length_app. simpl.
      apply Hc' in H as [([= ->] & t0 & H0 & Ht)|[([= ->] & Hno & Ht)|(Hne & H)]].
      * rewrite Ht, (Hcount _ _ H0). rewrite bool_decide_eq_true_2 by exact Hs.
        unfold recordsOf. simpl. lia.
      * rewrite Ht. rewrite bool_decide_eq_true_2 by exact Hs.
        fold (recordsOf s rs). rewrite recordsOf_nil by tauto. reflexivity.
      * rewrite (Hcount _ _ H). rewrite bool_decide_eq_false_2 by congruence.
        unfold recordsOf. simpl. lia.
Qed.

Lemma fold_counts (rows : list SummaryRow) n :
  fold_left (fun sum r => (sum + TransactionCount r)%nat) rows n
  = (n + sum_list_with TransactionCount rows)%nat.
Proof.
  revert n. induction rows as [|r rows IH]; intros n; simpl; [lia|]. rewrite IH. lia.
Qed.

Lemma filterData_merchants data selected start stop :
  Forall (fun r => exists s, get r k_Merchant = VStr s /\ s ∈ selected)
    (filterData data selected start stop).
Proof.
  apply Forall_forall. intros r Hr. unfold filterData in Hr.
  apply list_elem_of_In, filter_In in Hr as [_ Hm]. unfold matches in Hm.
  apply andb_true_iff in Hm as [_ Hm]. now apply includes_spec in Hm.
Qed.

End SummaryRows.

(** The summary of an answer: before the [TOTAL] row there is one row per
    merchant with records in the selection, in the order in which the
    merchants first appear there and none twice; every such merchant was
    selected; a row counts the merchant's records in the selection; the
    counts add up to the number of transactions, which is also the count
    of the [TOTAL] row; and the number of merchants answered is the
    number of these rows. *)
Theorem summary_rows (h : Host) (now : Z) (req : GenerateRequest) (w w' : World)
    (summary : list SummaryRow) (url range : jsstring) (tc mc : nat) :
  generate h now req w = (GenerateResponse summary url range tc mc, w') ->
  exists selected start stop fd rows total,
    selectedMerchants req = Some selected
    /\ startDate req = Some start /\ endDate req = Some stop
    /\ fileData w = Some fd
    /\ summary = rows ++ [total]
    /\ map Merchant rows
       = map VStr (setOf [] (merchantsIn (filterData (processedData fd) selected start stop)))
    /\ Forall (fun r => exists m, Merchant r = VStr m /\ m ∈ selected
                 /\ TransactionCount r
                    = length (recordsOf m (filterData (processedData fd) selected start stop))
                 /\ (1 <= TransactionCount r)%nat) rows
    /\ NoDup (map Merchant rows)
    /\ sum_list_with TransactionCount rows = tc
    /\ TransactionCount total = tc
    /\ tc = length (filterData (processedData fd) selected start stop)
    /\ mc = length rows
    /\ (1 <= mc <= tc)%nat.
Proof.
  intros E. apply generate_response in E
    as (selected & percent & start & stop & fd & Hacc & Hne & -> & _ & _ & -> & -> & _).
  destruct Hacc as (Hsel & _ & _ & _ & _ & _ & Hs & He & _ & _ & _ & _ & Hfd).
  set (filtered := filterData (processedData fd) selected start stop) in *.
  pose proof (filterData_merchants (processedData fd) selected start stop) as Hm.
  fold filtered in Hm.
  assert (Hall : Forall (fun r => exists s, get r k_Merchant = VStr s) filtered).
  { eapply Forall_impl; [exact Hm|]. intros r (s & Hr & _). now exists s. }
  destruct (summaryMapOf_spec percent filtered Hall) as (Hkeys & Hsum & Hcount).
  set (sm := summaryMapOf percent filtered) in *.
  assert (Hrows : map Merchant (merchantRows percent sm) = map fst sm).
  { unfold merchantRows. rewrite List.map_map. reflexivity. }
  assert (Hcounts : sum_list_with TransactionCount (merchantRows percent sm) = length filtered).
  { rewrite <- Hsum. unfold merchantRows. clear. induction sm as [|e sm IH]; simpl; [reflexivity|].
    now rewrite IH. }
  assert (Hrow : Forall (fun r => exists m, Merchant r = VStr m /\ m ∈ selected
                 /\ TransactionCount r = length (recordsOf m filtered)
                 /\ (1 <= TransactionCount r)%nat) (merchantRows percent sm)).
  { apply Forall_forall. intros r Hr. unfold merchantRows in Hr.
    apply list_elem_of_fmap in Hr as ([k t] & -> & Hin). simpl.
    assert (Hk : k ∈ map fst sm) by (apply list_elem_of_fmap; now exists (k, t)).
    rewrite Hkeys in Hk. apply list_elem_of_fmap in Hk as (m & -> & Hmem).
    apply setOf_elem in Hmem as [Hmem _].
    pose proof Hmem as Hmem'. apply merchantsIn_elem in Hmem' as (r0 & Hr0 & Er0).
    exists m. split; [reflexivity|]. split.
    { rewrite Forall_forall in Hm. destruct (Hm r0 Hr0) as (s & Es & Hs'). congruence. }
    rewrite (Hcount m t Hin). split; [reflexivity|].
    unfold recordsOf. clear -Hr0 Er0. induction filtered as [|x xs IH]; [inversion Hr0|].
    simpl. case_bool_decide as Ex; simpl; [lia|].
    apply elem_of_cons in Hr0 as [->|Hr0]; [contradiction|]. now apply IH. }
  exists selected, start, stop, fd, (merchantRows percent sm), (totalsRow percent (merchantRows percent sm)).
  split; [exact Hsel|]. split; [exact Hs|]. split; [exact He|]. split; [exact Hfd|].
  split; [reflexivity|]. split; [rewrite Hrows; exact Hkeys|]. split; [exact Hrow|].
  split; [rewrite Hrows, Hkeys; apply NoDup_fmap; [intros a b [=]; done|apply setOf_NoDup]|].
  split; [exact Hcounts|]. split; [simpl; rewrite fold_counts; simpl; exact Hcounts|].
  split; [reflexivity|].
  assert (Hlen : length sm = length (merchantRows percent sm))
    by (unfold merchantRows; now rewrite length_map).
  split; [exact Hlen|]. rewrite Hlen. split.
  - destruct filtered as [|r0 rest] eqn:Ef; [contradiction|].
    destruct (merchantRows percent sm) as [|x xs]; simpl in *; [discriminate|lia].
  - rewrite <- Hcounts. clear -Hrow. induction Hrow as [|r rs (m & _ & _ & _ & H1) _ IH]; simpl; lia.
Qed.

(** The scenario's summary for March 2023: two merchants, two
    transactions. *)
Lemma summary_rows_witness :
  generate utcHost 1700000000000 marchRequest scenarioWorld
  = (GenerateResponse scenarioSummary (u "/download/summary_1700000000000.xlsx")
       (u "2023-03-01 to 2023-03-31") 2 2,
     snd (generate utcHost 1700000000000 marchRequest scenarioWorld))
  /\ exists rows total,
       scenarioSummary = rows ++ [total] /\ sum_list_with TransactionCount rows = 2%nat.
Proof.
  assert (E : generate utcHost 1700000000000 marchRequest scenarioWorld
              = (GenerateResponse scenarioSummary (u "/download/summary_1700000000000.xlsx")
                   (u "2023-03-01 to 2023-03-31") 2 2,
                 snd (generate utcHost 1700000000000 marchRequest scenarioWorld)))
    by (vm_compute; reflexivity).
  split; [exact E|].
  destruct (summary_rows utcHost _ _ _ _ _ _ _ _ _ E)
    as (_ & _ & _ & _ & rows & total & _ & _ & _ & _ & Hs & _ & _ & _ & Hc & _).
  exists rows, total. split; [exact Hs|exact Hc].
Defined.

(** A date range whose end lies before its start (as strings) selects
    nothing from an uploaded dataset: the request is answered 404
    [NO_MATCHING_DATA], not refused as invalid. *)
Theorem generate_inverted_range (h : Host) (now : Z) (req : GenerateRequest) (w : World)
    (selected : list jsstring) (percent : number) (start stop : jsstring) (fd : FileData) :
  reachable h w ->
  accepted h req w selected percent start stop fd ->
  lexLt stop start ->
  generate h now req w = (ErrorResponse 404 (u "NO_MATCHING_DATA"), w).
Proof.
  intros Hr Hacc Hlt. rewrite (generate_accepted h now req w _ _ _ _ _ Hacc). cbv zeta.
  destruct (reachable_inv h w Hr) as [_ Hdata].
  destruct Hacc as (_ & _ & _ & _ & _ & _ & _ & _ & _ & _ & _ & _ & Hfd).
  destruct (Hdata fd Hfd) as (rawData & _ & Hpd & _).
  assert (Hnil : filterData (processedData fd) selected start stop = []).
  { unfold filterData. rewrite Hpd.
    assert (Hall : forall r, r ∈ processRows h rawData -> matches selected start stop r = false).
    { intros r Hr'. destruct (matches selected start stop r) eqn:Hm; [exfalso|reflexivity].
      apply (matches_spec h rawData selected start stop r Hr') in Hm
        as (_ & (d & _ & H1 & H2) & _).
      pose proof (lexLe_trans _ _ _ H1 H2) as [->|H3].
      - now apply (lexLt_irrefl stop).
      - apply (lexLt_irrefl stop). eapply lexLt_trans; eauto. }
    clear -Hall. induction (processRows h rawData) as [|r rs IH]; simpl; [reflexivity|].
    rewrite Hall by now left. apply IH. intros r' Hr'. apply Hall. now right. }
  now rewrite Hnil.
Qed.

(** The scenario's upload asked for the days from 2023-03-31 to
    2023-03-01. *)
Lemma generate_inverted_range_witness :
  reachable utcHost scenarioWorld
  /\ accepted utcHost invertedRequest scenarioWorld [u "A"; u "B"] (Z2num 5)
       (u "2023-03-31") (u "2023-03-01")
       {| processedData := processRows utcHost [rowA; rowB]; merchants := [u "A"; u "B"] |}
  /\ lexLt (u "2023-03-01") (u "2023-03-31")
  /\ generate utcHost 1700000000000 invertedRequest scenarioWorld
     = (ErrorResponse 404 (u "NO_MATCHING_DATA"), scenarioWorld).
Proof.
  assert (Hr : reachable utcHost scenarioWorld).
  { eapply reachable_step; [apply reachable_start|]. apply step_upload. }
  assert (Hacc : accepted utcHost invertedRequest scenarioWorld [u "A"; u "B"] (Z2num 5)
                   (u "2023-03-31") (u "2023-03-01")
                   {| processedData := processRows utcHost [rowA; rowB];
                      merchants := [u "A"; u "B"] |})
    by (unfold accepted; repeat split; try discriminate; vm_compute; reflexivity).
  assert (Hlt : lexLt (u "2023-03-01") (u "2023-03-31"))
    by (apply compare_lt; vm_compute; reflexivity).
  split; [exact Hr|]. split; [exact Hacc|]. split; [exact Hlt|].
  exact (generate_inverted_range utcHost 1700000000000 invertedRequest scenarioWorld
           _ _ _ _ _ Hr Hacc Hlt).
Defined.

(** [!Date.parse(s)] is true for the date whose time value is 0 as it is
    for a text that is no date: on every conforming host a request whose
    range starts or ends on 1970-01-01 is refused 400 [INVALID_DATE],
    whatever has been uploaded. *)
Theorem generate_rejects_epoch (h : Host) (now : Z) (req : GenerateRequest) (w : World)
    (m : jsstring) (ms : list jsstring) :
  conforms h ->
  selectedMerchants req = Some (m :: ms) ->
  isNaN (parseFloat (percentage req)) = false ->
  JsNumber.ltb (parseFloat (percentage req)) (Z2num 0) = false ->
  JsNumber.ltb (Z2num 100) (parseFloat (percentage req)) = false ->
  startDate req = Some (u "1970-01-01") \/ endDate req = Some (u "1970-01-01") ->
  generate h now req w = (ErrorResponse 400 (u "INVALID_DATE"), w).
Proof.
  intros Hc Hsel Hnan Hlo Hhi Hdate.
  assert (Hepoch : unparsable h (u "1970-01-01") = true).
  { unfold unparsable.
    rewrite (Hc (u "1970-01-01") 1970 1 1) by (vm_compute; first [reflexivity|discriminate]).
    reflexivity. }
  unfold generate. rewrite Hsel, Hnan, Hlo, Hhi. cbn [orb].
  destruct Hdate as [Hs|He].
  - rewrite Hs. cbn [missing from_option id orb]. rewrite Hepoch.
    now rewrite orb_true_r.
  - rewrite He. cbn [missing from_option id orb]. rewrite Hepoch.
    now rewrite !orb_true_r.
Qed.

(** On the reference host, with the scenario's upload. *)
Lemma generate_rejects_epoch_witness :
  conforms utcHost
  /\ generate utcHost 1700000000000 epochRequest scenarioWorld
     = (ErrorResponse 400 (u "INVALID_DATE"), scenarioWorld).
Proof.
  split; [exact utcHost_conforms|].
  apply (generate_rejects_epoch utcHost 1700000000000 epochRequest scenarioWorld
           (u "A") [u "B"] utcHost_conforms); try reflexivity.
  left. reflexivity.
Defined.

(* ================================================================= *)
(** ** Date strings and the calendar *)

Ltac month_cases m :=
  let H := fresh "Hc" in
  assert (H : m = 0 \/ m = 1 \/ m = 2 \/ m = 3 \/ m = 4 \/ m = 5 \/ m = 6 \/ m = 7
              \/ m = 8 \/ m = 9 \/ m = 10 \/ m = 11) by lia;
  destruct H as [->|[->|[->|[->|[->|[->|[->|[->|[->|[->|[->| ->]]]]]]]]]]].

Section DateOrder.

(** The day of a time value, from its calendar fields. *)
Lemma Day_fields t :
  let y := YearFromTime t in
  let m := MonthFromTime t in
  let d := DateFromTime t in
  0 <= m <= 11 /\ 1 <= d <= DaysInMonth y (m + 1)
  /\ Day t = DayFromYear y + daysBeforeMonth (isLeapYear y) m + d - 1.
Proof.
  cbv zeta. unfold DateFromTime, MonthFromTime, DayWithinYear, InLeapYear, YearFromTime.
  pose proof (YearFromDay_spec (Day t)) as [Hlo Hhi].
  rewrite DayFromYear_next in Hhi. unfold DaysInYear, DaysInMonth, daysBeforeMonth in *.
  set (y := YearFromDay (Day t)) in *. set (D := Day t) in *.
  destruct (isLeapYear y);
    repeat match goal with
           | |- context [?a <? ?b] => destruct (Z.ltb_spec a b); try lia
           end; simpl; lia.
Qed.

Lemma daysBeforeMonth_next leap y m :
  0 <= m < 11 -> leap = isLeapYear y ->
  daysBeforeMonth leap (m + 1) = daysBeforeMonth leap m + DaysInMonth y (m + 1).
Proof.
  intros Hm ->. unfold daysBeforeMonth, DaysInMonth.
  assert (Hc : m = 0 \/ m = 1 \/ m = 2 \/ m = 3 \/ m = 4 \/ m = 5 \/ m = 6 \/ m = 7
               \/ m = 8 \/ m = 9 \/ m = 10) by lia.
  destruct (isLeapYear y);
    destruct Hc as [->|[->|[->|[->|[->|[->|[->|[->|[->|[->| ->]]]]]]]]]]; reflexivity.
Qed.

(** Within a year the day number grows with the month and the date. *)
Lemma offset_lt leap y m1 d1 m2 d2 :
  leap = isLeapYear y ->
  0 <= m1 <= 11 -> 1 <= d1 <= DaysInMonth y (m1 + 1) ->
  0 <= m2 <= 11 -> 1 <= d2 <= DaysInMonth y (m2 + 1) ->
  (daysBeforeMonth leap m1 + d1 < daysBeforeMonth leap m2 + d2
   <-> m1 < m2 \/ (m1 = m2 /\ d1 < d2))
  /\ 0 <= daysBeforeMonth leap m1 + d1 - 1 < DaysInYear y.
Proof.
  intros -> Hm1 Hd1 Hm2 Hd2. unfold DaysInYear, DaysInMonth, daysBeforeMonth in *.
  destruct (isLeapYear y); month_cases m1; month_cases m2; simpl in *; lia.
Qed.

(** Days are ordered as their calendar dates are, year first, then month,
    then date. *)
Lemma Day_lt t1 t2 :
  Day t1 < Day t2
  <-> YearFromTime t1 < YearFromTime t2
      \/ (YearFromTime t1 = YearFromTime t2
          /\ (MonthFromTime t1 < MonthFromTime t2
              \/ (MonthFromTime t1 = MonthFromTime t2 /\ DateFromTime t1 < DateFromTime t2))).
Proof.
  destruct (Day_fields t1) as (Hm1 & Hd1 & E1). destruct (Day_fields t2) as (Hm2 & Hd2 & E2).
  set (y1 := YearFromTime t1) in *. set (y2 := YearFromTime t2) in *.
  set (m1 := MonthFromTime t1) in *. set (m2 := MonthFromTime t2) in *.
  set (d1 := DateFromTime t1) in *. set (d2 := DateFromTime t2) in *.
  destruct (offset_lt _ y1 m1 d1 m1 d1 eq_refl Hm1 Hd1 Hm1 Hd1) as [_ Ho1].
  destruct (offset_lt _ y2 m2 d2 m2 d2 eq_refl Hm2 Hd2 Hm2 Hd2) as [_ Ho2].
  destruct (Z.lt_trichotomy y1 y2) as [Hlt|[Heq|Hgt]].
  - pose proof (DayFromYear_mono (y1 + 1) y2 ltac:(lia)) as Hmono.
    rewrite DayFromYear_next in Hmono. split; [intros _; now left|]. intros _. lia.
  - rewrite <- Heq in *.
    destruct (offset_lt _ y1 m1 d1 m2 d2 eq_refl Hm1 Hd1 Hm2 Hd2) as [Hiff _].
    split.
    + intros H. right. split; [reflexivity|]. apply Hiff. lia.
    + intros [H|[_ H]]; [lia|]. apply Hiff in H. lia.
  - pose proof (DayFromYear_mono (y2 + 1) y1 ltac:(lia)) as Hmono.
    rewrite DayFromYear_next in Hmono. split; [lia|]. intros [H|[H _]]; lia.
Qed.

(** Strings of equal length are compared part by part. *)
Lemma compare_app a1 a2 r1 r2 :
  length a1 = length a2 ->
  JsString.compare (a1 ++ r1) (a2 ++ r2)
  = match JsString.compare a1 a2 with
    | Eq => JsString.compare r1 r2
    | c => c
    end.
Proof.
  revert a2. induction a1 as [|x a1 IH]; intros [|y a2] Hlen; try discriminate; simpl.
  - reflexivity.
  - destruct (N.compare x y); [|reflexivity..]. apply IH. now injection Hlen.
Qed.

Lemma compare_cons x a b : JsString.compare (x :: a) (x :: b) = JsString.compare a b.
Proof. simpl. now rewrite N.compare_refl. Qed.

Lemma digitsVal_acc ds acc :
  fold_left (fun a c => 10 * a + digitVal c) ds acc
  = acc * 10 ^ Z.of_nat (length ds) + digitsVal ds.
Proof.
  unfold digitsVal. revert acc. induction ds as [|c ds IH]; intros acc; simpl fold_left.
  - simpl. lia.
  - rewrite IH, (IH (10 * 0 + digitVal c)).
    replace (Z.of_nat (length (c :: ds))) with (Z.of_nat (length ds) + 1) by (simpl; lia).
    rewrite Z.pow_add_r by lia. change (10 ^ 1) with 10. ring.
Qed.

Lemma digitsVal_cons c ds :
  digitsVal (c :: ds) = digitVal c * 10 ^ Z.of_nat (length ds) + digitsVal ds.
Proof. unfold digitsVal at 1. cbn [fold_left]. rewrite digitsVal_acc. ring. Qed.

Lemma digitVal_range c : isDigit c = true -> 0 <= digitVal c <= 9.
Proof.
  unfold isDigit, digitVal. intros H. apply andb_true_iff in H as [H1 H2].
  apply N.leb_le in H1, H2. lia.
Qed.

Lemma digitsVal_bound ds :
  Forall (fun c => isDigit c = true) ds -> 0 <= digitsVal ds < 10 ^ Z.of_nat (length ds).
Proof.
  induction 1 as [|c ds Hc _ IH]; [unfold digitsVal; simpl; lia|].
  rewrite digitsVal_cons. apply digitVal_range in Hc.
  replace (Z.of_nat (length (c :: ds))) with (Z.of_nat (length ds) + 1) by (simpl; lia).
  rewrite Z.pow_add_r by lia. change (10 ^ 1) with 10. nia.
Qed.

(** Runs of digits of one length are ordered as the numbers they
    spell. *)
Lemma compare_digits a b :
  length a = length b ->
  Forall (fun c => isDigit c = true) a -> Forall (fun c => isDigit c = true) b ->
  JsString.compare a b = (digitsVal a ?= digitsVal b).
Proof.
  intros Hlen Ha. revert b Hlen. induction Ha as [|x a Hx Ha IH]; intros [|y b] Hlen Hb;
    try discriminate.
  - reflexivity.
  - apply Forall_cons in Hb as [Hy Hb]. injection Hlen as Hlen. simpl.
    rewrite !digitsVal_cons, <- Hlen.
    pose proof (digitsVal_bound a Ha) as Hba. pose proof (digitsVal_bound b Hb) as Hbb.
    rewrite <- Hlen in Hbb. set (P := 10 ^ Z.of_nat (length a)) in *.
    pose proof (digitVal_range x Hx). pose proof (digitVal_range y Hy).
    destruct (N.compare_spec x y) as [->|Hlt|Hgt].
    + rewrite (IH b Hlen Hb). symmetry.
      destruct (Z.compare_spec (digitsVal a) (digitsVal b)) as [E|E|E].
      * apply Z.compare_eq_iff. lia.
      * apply Z.compare_lt_iff. lia.
      * apply Z.compare_gt_iff. lia.
    + symmetry. apply Z.compare_lt_iff. unfold digitVal in *. nia.
    + symmetry. apply Z.compare_gt_iff. unfold digitVal in *. nia.
Qed.

(** A number below 10000 padded to four digits spells itself, and so
    does one below 100 padded to two. *)
Lemma pad4_spec y :
  0 <= y <= 9999 ->
  length (padZeros 4 (decimal y)) = 4%nat /\ digitsVal (padZeros 4 (decimal y)) = y.
Proof.
  intros Hy.
  assert (Hall : forallb (fun k => let s := padZeros 4 (decimal (Z.of_nat k)) in
                                   Nat.eqb (length s) 4 && (digitsVal s =? Z.of_nat k))
                   (seq 0 (Z.to_nat 10000)) = true) by (vm_compute; reflexivity).
  rewrite forallb_forall in Hall. specialize (Hall (Z.to_nat y)).
  rewrite Z2Nat.id in Hall by lia. cbv zeta in Hall.
  rewrite andb_true_iff, Nat.eqb_eq, Z.eqb_eq in Hall. apply Hall.
  apply in_seq. lia.
Qed.

Lemma pad2_spec n :
  0 <= n <= 99 ->
  length (padZeros 2 (decimal n)) = 2%nat /\ digitsVal (padZeros 2 (decimal n)) = n.
Proof.
  intros Hn.
  assert (Hall : forallb (fun k => let s := padZeros 2 (decimal (Z.of_nat k)) in
                                   Nat.eqb (length s) 2 && (digitsVal s =? Z.of_nat k))
                   (seq 0 (Z.to_nat 100)) = true) by (vm_compute; reflexivity).
  rewrite forallb_forall in Hall. specialize (Hall (Z.to_nat n)).
  rewrite Z2Nat.id in Hall by lia. cbv zeta in Hall.
  rewrite andb_true_iff, Nat.eqb_eq, Z.eqb_eq in Hall. apply Hall.
  apply in_seq. lia.
Qed.

Lemma compare_pad4 a b :
  0 <= a <= 9999 -> 0 <= b <= 9999 ->
  JsString.compare (padZeros 4 (decimal a)) (padZeros 4 (decimal b)) = (a ?= b).
Proof.
  intros Ha Hb. destruct (pad4_spec a Ha) as [La Va]. destruct (pad4_spec b Hb) as [Lb Vb].
  rewrite compare_digits, Va, Vb; [reflexivity|congruence|..];
    apply padZeros_digits, decimal_digits.
Qed.

Lemma compare_pad2 a b :
  0 <= a <= 99 -> 0 <= b <= 99 ->
  JsString.compare (padZeros 2 (decimal a)) (padZeros 2 (decimal b)) = (a ?= b).
Proof.
  intros Ha Hb. destruct (pad2_spec a Ha) as [La Va]. destruct (pad2_spec b Hb) as [Lb Vb].
  rewrite compare_digits, Va, Vb; [reflexivity|congruence|..];
    apply padZeros_digits, decimal_digits.
Qed.

(** For years of four digits the date strings are ordered as the days
    are. *)
Lemma isoDate_compare t1 t2 :
  0 <= YearFromTime t1 <= 9999 -> 0 <= YearFromTime t2 <= 9999 ->
  JsString.compare (isoDate t1) (isoDate t2) = (Day t1 ?= Day t2).
Proof.
  intros Hy1 Hy2. pose proof (Day_lt t1 t2) as Hlt. pose proof (Day_lt t2 t1) as Hgt.
  destruct (Day_fields t1) as (Hm1 & Hd1 & _). destruct (Day_fields t2) as (Hm2 & Hd2 & _).
  assert (Hb1 : 1 <= DateFromTime t1 <= 31).
  { revert Hd1. unfold DaysInMonth. generalize (DateFromTime t1). intros d.
    destruct (isLeapYear _); month_cases (MonthFromTime t1); simpl; lia. }
  assert (Hb2 : 1 <= DateFromTime t2 <= 31).
  { revert Hd2. unfold DaysInMonth. generalize (DateFromTime t2). intros d.
    destruct (isLeapYear _); month_cases (MonthFromTime t2); simpl; lia. }
  unfold isoDate, isoYear.
  replace ((0 <=? YearFromTime t1) && (YearFromTime t1 <=? 9999)) with true by lia.
  replace ((0 <=? YearFromTime t2) && (YearFromTime t2 <=? 9999)) with true by lia.
  destruct (pad4_spec _ Hy1) as [L1 _]. destruct (pad4_spec _ Hy2) as [L2 _].
  destruct (pad2_spec (MonthFromTime t1 + 1) ltac:(lia)) as [M1 _].
  destruct (pad2_spec (MonthFromTime t2 + 1) ltac:(lia)) as [M2 _].
  rewrite compare_app by congruence. rewrite compare_pad4 by done.
  rewrite compare_cons.
  rewrite compare_app by congruence. rewrite compare_pad2 by lia.
  rewrite compare_cons.
  rewrite compare_pad2 by lia.
  set (y1 := YearFromTime t1) in *. set (y2 := YearFromTime t2) in *.
  set (m1 := MonthFromTime t1) in *. set (m2 := MonthFromTime t2) in *.
  set (d1 := DateFromTime t1) in *. set (d2 := DateFromTime t2) in *.
  symmetry.
  destruct (Z.compare_spec y1 y2) as [Ey|Ey|Ey];
    [destruct (Z.compare_spec (m1 + 1) (m2 + 1)) as [Em|Em|Em];
       [destruct (Z.compare_spec d1 d2) as [Ed|Ed|Ed]|..]|..].
  - apply Z.compare_eq_iff.
    destruct (Z.lt_trichotomy (Day t1) (Day t2)) as [H|[H|H]]; [|exact H|].
    + apply Hlt in H. lia.
    + apply Hgt in H. lia.
  - apply Z.compare_lt_iff, Hlt. lia.
  - apply Z.compare_gt_iff, Hgt. lia.
  - apply Z.compare_lt_iff, Hlt. lia.
  - apply Z.compare_gt_iff, Hgt. lia.
  - apply Z.compare_lt_iff, Hlt. lia.
  - apply Z.compare_gt_iff, Hgt. lia.
Qed.

End DateOrder.

(** Between dates of years 0 to 9999 the filter of /generate works by the
    calendar: a record whose [DateOnly] is the date of [t] is kept for
    the range from the date of [ts] to the date of [te] exactly when its
    day is not before the first nor after the second, and its merchant
    is selected. *)
Theorem filter_chronological (data : list row) (selected : list jsstring) (ts te t : Z)
    (r : row) :
  r ∈ data ->
  get r k_DateOnly = VStr (isoDate t) ->
  0 <= YearFromTime t <= 9999 ->
  0 <= YearFromTime ts <= 9999 ->
  0 <= YearFromTime te <= 9999 ->
  (r ∈ filterData data selected (isoDate ts) (isoDate te)
   <-> Day ts <= Day t <= Day te /\ exists m, get r k_Merchant = VStr m /\ m ∈ selected).
Proof.
  intros Hr Hd Ht Hts Hte. unfold filterData.
  rewrite list_elem_of_In, filter_In, <- list_elem_of_In.
  unfold matches. rewrite Hd, !andb_true_iff, includes_spec. simpl.
  unfold JsString.eqb. rewrite bool_decide_eq_false_2 by apply isoDate_nonempty. simpl.
  unfold JsString.geb, JsString.leb. rewrite !isoDate_compare by done.
  split.
  - intros [_ [[[_ H1] H2] H3]]. split; [|exact H3].
    destruct (Z.compare_spec (Day ts) (Day t)); try discriminate;
      destruct (Z.compare_spec (Day t) (Day te)); try discriminate; lia.
  - intros [[H1 H2] H3]. split; [exact Hr|]. split; [|exact H3].
    split; [split; [reflexivity|]|].
    + destruct (Z.compare_spec (Day ts) (Day t)); try reflexivity; lia.
    + destruct (Z.compare_spec (Day t) (Day te)); try reflexivity; lia.
Qed.

(** The scenario's first record, dated 2023-03-15, in March 2023. *)
Lemma filter_chronological_witness :
  isoDate (19417 * msPerDay) = u "2023-03-01"
  /\ isoDate (19431 * msPerDay) = u "2023-03-15"
  /\ isoDate (19447 * msPerDay) = u "2023-03-31"
  /\ <[k_DateOnly := VStr (u "2023-03-15")]> (<[k_RowIndex := VNum (Z2num 2)]> rowA)
       ∈ filterData (processRows utcHost [rowA; rowB]) [u "A"; u "B"]
           (u "2023-03-01") (u "2023-03-31").
Proof.
  split; [vm_compute; reflexivity|]. split; [vm_compute; reflexivity|].
  split; [vm_compute; reflexivity|].
  assert (Hin : <[k_DateOnly := VStr (u "2023-03-15")]> (<[k_RowIndex := VNum (Z2num 2)]> rowA)
                  ∈ processRows utcHost [rowA; rowB]).
  { apply list_elem_of_lookup. exists 0%nat. vm_compute. reflexivity. }
  apply (proj2 (filter_chronological (processRows utcHost [rowA; rowB]) [u "A"; u "B"]
                  (19417 * msPerDay) (19447 * msPerDay) (19431 * msPerDay) _ Hin
                  ltac:(vm_compute; reflexivity)
                  ltac:(vm_compute; split; discriminate)
                  ltac:(vm_compute; split; discriminate)
                  ltac:(vm_compute; split; discriminate))).
  split; [vm_compute; split; discriminate|].
  exists (u "A"). split; [vm_compute; reflexivity|]. apply elem_of_cons. now left.
Defined.

(* ================================================================= *)
(** ** part_000: serial numbers *)

Section Part000Dates.

Lemma year_range t :
  DayFromYear 0 <= Day t < DayFromYear 10000 -> 0 <= YearFromTime t <= 9999.
Proof.
  intros [Hlo Hhi]. unfold YearFromTime.
  pose proof (YearFromDay_spec (Day t)) as [Hlo' Hhi'].
  split.
  - destruct (Z.le_gt_cases 0 (YearFromDay (Day t))) as [H|H]; [exact H|].
    pose proof (DayFromYear_mono (YearFromDay (Day t) + 1) 0 ltac:(lia)). lia.
  - destruct (Z.le_gt_cases (YearFromDay (Day t)) 9999) as [H|H]; [exact H|].
    pose proof (DayFromYear_mono 10000 (YearFromDay (Day t)) ltac:(lia)). lia.
Qed.

Lemma isoDate_length t : 0 <= YearFromTime t <= 9999 -> length (isoDate t) = 10%nat.
Proof.
  intros Hy. destruct (Day_fields t) as (Hm & Hd & _).
  assert (Hb : 1 <= DateFromTime t <= 31).
  { revert Hd. unfold DaysInMonth. generalize (DateFromTime t). intros d.
    destruct (isLeapYear _); month_cases (MonthFromTime t); simpl; lia. }
  unfold isoDate, isoYear.
  replace ((0 <=? YearFromTime t) && (YearFromTime t <=? 9999)) with true by lia.
  destruct (pad4_spec _ Hy) as [L _].
  destruct (pad2_spec (MonthFromTime t + 1) ltac:(lia)) as [M _].
  destruct (pad2_spec (DateFromTime t) ltac:(lia)) as [D _].
  rewrite length_app, L. simpl. rewrite length_app, M. simpl. rewrite D. reflexivity.
Qed.

Lemma isoSlice_valid t :
  0 <= YearFromTime t <= 9999 -> Part000.isoSlice (Some t) = Normal (VStr (isoDate t)).
Proof.
  intros Hy. unfold Part000.isoSlice, toISOString, isoString. simpl. do 2 f_equal.
  rewrite take_app_length'; [reflexivity|]. symmetry. now apply isoDate_length.
Qed.

End Part000Dates.

(** part_000 builds the epoch in UTC: a non-zero integer serial [n] with
    a date in the years 0 to 9999 is normalised to the day [n - 1] days
    after 1899-12-30 on every host, whatever its time zone. *)
Theorem Part000_extractDateOnly_serial (h : Host) (n : Z) :
  n <> 0 ->
  -693958 <= n <= 2958466 ->
  Part000.extractDateOnly h (VNum (Z2num n))
  = Normal (VStr (isoDateOfDay (epochDay + (n - 1)))).
Proof.
  intros Hn Hr. unfold Part000.extractDateOnly.
  assert (H53 : 2 ^ 53 = 9007199254740992) by reflexivity.
  simpl toBoolean. rewrite Z2num_truthy by (try rewrite H53; lia). cbn [negb].
  change Part000.excelEpoch with (Some (-2209161600000)).
  unfold getTime, JsNumber.add, JsNumber.sub, JsNumber.mul, newDateNumber.
  rewrite SFsub_Z2num by (rewrite H53; lia).
  rewrite SFmul_Z2num by (rewrite H53; lia).
  rewrite SFadd_Z2num by (rewrite H53; lia).
  rewrite TimeClip_Z2num by (rewrite H53; lia).
  unfold TimeClipZ, maxTime.
  destruct (Z.leb_spec (Z.abs (-2209161600000 + (n - 1) * 86400000)) 8640000000000000); [|lia].
  assert (HD : Day (-2209161600000 + (n - 1) * 86400000) = epochDay + (n - 1)).
  { unfold Day, msPerDay. change epochDay with (-25569).
    replace (-2209161600000 + (n - 1) * 86400000) with ((-25569 + (n - 1)) * 86400000) by lia.
    apply Z.div_mul. lia. }
  rewrite isoSlice_valid.
  - now rewrite isoDate_Day, HD.
  - apply year_range. rewrite HD. change epochDay with (-25569).
    change (DayFromYear 0) with (-719528). change (DayFromYear 10000) with 2932897. lia.
Qed.

(** Serial 45001 on a host east of UTC. *)
Lemma Part000_extractDateOnly_serial_witness :
  45001 <> 0 /\ -693958 <= 45001 <= 2958466
  /\ Part000.extractDateOnly istHost (VNum (Z2num 45001)) = Normal (VStr (u "2023-03-15")).
Proof.
  assert (H1 : 45001 <> 0) by lia.
  assert (H2 : -693958 <= 45001 <= 2958466) by lia.
  split; [exact H1|]. split; [exact H2|].
  exact (Part000_extractDateOnly_serial istHost 45001 H1 H2).
Defined.

(* ================================================================= *)
(** ** part_000: the loops of /generate *)

Section Generate000.

(** No column the handler reads has the name of the share column. *)
Lemma shareKey_other p :
  shareKey p <> k_Withdrawal /\ shareKey p <> k_Fees /\ shareKey p <> k_Merchant.
Proof.
  unfold shareKey. generalize (toStringValue p). intros s.
  repeat split; intros H; apply (f_equal (@rev N)) in H; rewrite rev_app_distr in H;
    vm_compute in H; discriminate H.
Qed.

Context (percent : number) (key : jsstring) (data : list row) (dateFiltered : list nat).
Hypothesis Hkey : key <> k_Withdrawal /\ key <> k_Fees /\ key <> k_Merchant.


Lemma get_insert_ne (r : row) k k' v : k <> k' -> get (<[k := v]> r) k' = get r k'.
Proof. intros Hne. unfold get. now rewrite lookup_insert_ne. Qed.

Lemma marked_lookup V i :
  marked percent key data V !! i
  = (fun r => if bool_decide (i ∈ V) then <[key := VStr (toFixed2 (percentAmountOf percent r))]> r else r) <$> data !! i.
Proof. unfold marked. now rewrite list_lookup_imap. Qed.

Lemma marked_ext V V' : (forall i, i ∈ V <-> i ∈ V') -> marked percent key data V = marked percent key data V'.
Proof.
  intros H. unfold marked. apply imap_ext. intros i r _.
  now rewrite (bool_decide_ext _ _ (H i)).
Qed.

Lemma marked_nil : marked percent key data [] = data.
Proof.
  apply list_eq. intros i. rewrite marked_lookup.
  destruct (data !! i); [|reflexivity]. cbn [fmap option_fmap option_map].
  now rewrite bool_decide_eq_false_2 by apply not_elem_of_nil.
Qed.

(** A marked row reads as the original one in the columns of the
    amounts and the merchant. *)
Lemma marked_reads V i r r0 :
  marked percent key data V !! i = Some r -> data !! i = Some r0 ->
  get r k_Withdrawal = get r0 k_Withdrawal
  /\ get r k_Fees = get r0 k_Fees
  /\ get r k_Merchant = get r0 k_Merchant.
Proof.
  rewrite marked_lookup. intros H H0. rewrite H0 in H. simpl in H. injection H as <-.
  destruct Hkey as (H1 & H2 & H3).
  case_bool_decide; [|done]. now rewrite !get_insert_ne.
Qed.

Lemma visit_marked V st i :
  Part000.rows_ st = marked percent key data V ->
  Part000.visit percent key st i
  = match data !! i with
    | Some r0 =>
        {| Part000.rows_ := marked percent key data (i :: V);
           Part000.totalW := JsNumber.add (Part000.totalW st) (withdrawalOf r0);
           Part000.totalF := JsNumber.add (Part000.totalF st) (feeOf r0);
           Part000.totalP := JsNumber.add (Part000.totalP st) (percentAmountOf percent r0);
           Part000.pushed := Part000.pushed st ++ [i] |}
    | None => st
    end.
Proof.
  intros Hrows. unfold Part000.visit. rewrite Hrows.
  destruct (marked percent key data V !! i) as [r|] eqn:Hr; rewrite marked_lookup in Hr;
    destruct (data !! i) as [r0|] eqn:H0; try discriminate; [|reflexivity].
  assert (Hr' : marked percent key data V !! i = Some r) by (now rewrite marked_lookup, H0).
  destruct (marked_reads V i r r0 Hr' H0) as (Ew & Ef & _).
  rewrite Ew, Ef. unfold withdrawalOf, feeOf, percentAmountOf. f_equal.
  apply list_eq. intros j. rewrite marked_lookup.
  destruct (decide (i = j)) as [<-|Hne].
  - rewrite list_lookup_insert_eq.
    + rewrite H0. simpl. rewrite bool_decide_eq_true_2 by now left.
      simpl in Hr. injection Hr as <-. unfold percentAmountOf.
      case_bool_decide; [now rewrite insert_insert_eq|reflexivity].
    + apply lookup_lt_is_Some. now rewrite Hr'.
  - rewrite list_lookup_insert_ne by done. rewrite marked_lookup.
    destruct (data !! j); [|reflexivity]. simpl.
    rewrite (bool_decide_ext (j ∈ i :: V) (j ∈ V)); [reflexivity|].
    rewrite elem_of_cons. split; [intros [?|?]; [congruence|done]|now right].
Qed.

Lemma inner_loop indices V st :
  Part000.rows_ st = marked percent key data V ->
  fold_left (Part000.visit percent key) indices st
  = {| Part000.rows_ := marked percent key data (indices ++ V);
       Part000.totalW := sumFrom data withdrawalOf indices (Part000.totalW st);
       Part000.totalF := sumFrom data feeOf indices (Part000.totalF st);
       Part000.totalP := sumFrom data (percentAmountOf percent) indices (Part000.totalP st);
       Part000.pushed := Part000.pushed st ++ filter (fun i => is_Some (data !! i)) indices |}.
Proof.
  revert V st. induction indices as [|i indices IH]; intros V st Hrows.
  - simpl. rewrite app_nil_r, <- Hrows. now destruct st.
  - cbn [fold_left]. rewrite (visit_marked V st i Hrows).
    destruct (data !! i) as [r0|] eqn:H0.
    + rewrite (IH (i :: V)) by reflexivity. cbn [Part000.rows_ Part000.totalW Part000.totalF
        Part000.totalP Part000.pushed]. unfold sumFrom. cbn [fold_left]. rewrite H0.
      rewrite filter_cons_True by (rewrite H0; eauto). rewrite <- app_assoc. f_equal.
      apply marked_ext. intros j. rewrite !elem_of_app, !elem_of_cons. tauto.
    + rewrite (IH V) by exact Hrows. unfold sumFrom. cbn [fold_left]. rewrite H0.
      rewrite filter_cons_False by (rewrite H0; intros [? ?]; discriminate). f_equal.
      apply imap_ext. intros j r Hj.
      rewrite (bool_decide_ext (j ∈ indices ++ V) (j ∈ (i :: indices) ++ V)); [reflexivity|].
      rewrite !elem_of_app, elem_of_cons. split; [tauto|].
      intros [[->|?]|?]; [congruence|tauto..].
Qed.

Lemma rowsFor_valid m i : In i (rowsFor data dateFiltered m) -> is_Some (data !! i).
Proof.
  unfold rowsFor. rewrite filter_In. intros [_ H]. destruct (data !! i); [eauto|discriminate].
Qed.

Lemma filter_valid indices :
  (forall i, In i indices -> is_Some (data !! i)) ->
  filter (fun i => is_Some (data !! i)) indices = indices.
Proof.
  induction indices as [|i indices IH]; intros H; [reflexivity|].
  rewrite filter_cons_True by (apply H; now left). f_equal. apply IH.
  intros j Hj. apply H. now right.
Qed.

Lemma perMerchant_marked V o m :
  Part000.data_ o = marked percent key data V ->
  Part000.perMerchant percent key dateFiltered o m
  = {| Part000.data_ := marked percent key data (rowsFor data dateFiltered m ++ V);
       Part000.summaryData :=
         Part000.summaryData o ++ [merchantRow000 percent key data dateFiltered m];
       Part000.filteredData := Part000.filteredData o ++ rowsFor data dateFiltered m;
       Part000.grandW :=
         JsNumber.add (Part000.grandW o) (sumOver data withdrawalOf (rowsFor data dateFiltered m));
       Part000.grandF :=
         JsNumber.add (Part000.grandF o) (sumOver data feeOf (rowsFor data dateFiltered m));
       Part000.grandP :=
         JsNumber.add (Part000.grandP o)
           (sumOver data (percentAmountOf percent) (rowsFor data dateFiltered m)) |}.
Proof.
  intros Hdata. unfold Part000.perMerchant.
  assert (Hrows : List.filter
                    (fun i => match Part000.data_ o !! i with
                              | Some r => bool_decide (get r k_Merchant = VStr m)
                              | None => false
                              end) dateFiltered
                  = rowsFor data dateFiltered m).
  { unfold rowsFor. apply List.filter_ext. intros i. rewrite Hdata.
    destruct (marked percent key data V !! i) as [r|] eqn:Hr.
    - pose proof Hr as Hr'. rewrite marked_lookup in Hr'.
      destruct (data !! i) as [r0|] eqn:H0; [|discriminate].
      destruct (marked_reads V i r r0 Hr H0) as (_ & _ & ->). reflexivity.
    - rewrite marked_lookup in Hr. now destruct (data !! i). }
  rewrite Hrows. rewrite (inner_loop _ V) by exact Hdata.
  cbn [Part000.rows_ Part000.totalW Part000.totalF Part000.totalP Part000.pushed].
  rewrite filter_valid by apply rowsFor_valid. reflexivity.
Qed.

Lemma outer_loop selected V o :
  Part000.data_ o = marked percent key data V ->
  fold_left (Part000.perMerchant percent key dateFiltered) selected o
  = {| Part000.data_ := marked percent key data (concat (map (rowsFor data dateFiltered) selected) ++ V);
       Part000.summaryData :=
         Part000.summaryData o ++ map (merchantRow000 percent key data dateFiltered) selected;
       Part000.filteredData :=
         Part000.filteredData o ++ concat (map (rowsFor data dateFiltered) selected);
       Part000.grandW :=
         fold_left (fun g m => JsNumber.add g (sumOver data withdrawalOf (rowsFor data dateFiltered m)))
           selected (Part000.grandW o);
       Part000.grandF :=
         fold_left (fun g m => JsNumber.add g (sumOver data feeOf (rowsFor data dateFiltered m)))
           selected (Part000.grandF o);
       Part000.grandP :=
         fold_left (fun g m => JsNumber.add g
                      (sumOver data (percentAmountOf percent) (rowsFor data dateFiltered m)))
           selected (Part000.grandP o) |}.
Proof.
  revert V o. induction selected as [|m ms IH]; intros V o Hdata.
  - simpl. rewrite !app_nil_r, <- Hdata. now destruct o.
  - cbn [fold_left]. rewrite (perMerchant_marked V o m Hdata).
    rewrite (IH (rowsFor data dateFiltered m ++ V)) by reflexivity.
    cbn [Part000.data_ Part000.summaryData Part000.filteredData
         Part000.grandW Part000.grandF Part000.grandP map concat].
    rewrite <- !app_assoc. f_equal.
    apply marked_ext. intros j. rewrite !elem_of_app. tauto.
Qed.

End Generate000.

Section Generate000Handler.

Context (h : Host).

(** The answer and the state after a request that part_000's /generate
    answers with a summary. *)
Lemma generate000_spec req w summary range w' :
  Part000.generate h req w = Normal (Part000.SummaryResponse summary range, w') ->
  exists selected s e start stop,
    Part000.selectedMerchants req = Part000.Merchants selected
    /\ Part000.startDate req = Some s /\ Part000.endDate req = Some e
    /\ Part000.normalizeDate h s = Normal start /\ Part000.normalizeDate h e = Normal stop
    /\ range = start ++ u " to " ++ stop
    /\ summary
       = map (merchantRow000 (parseFloat (Part000.percentage req)) (shareKey (Part000.percentage req))
                (Part000.globalData w) (inRange start stop (Part000.globalData w))) selected
         ++ [totalRow000 (parseFloat (Part000.percentage req)) (shareKey (Part000.percentage req))
               (Part000.globalData w) (inRange start stop (Part000.globalData w)) selected]
    /\ Part000.globalData w'
       = marked (parseFloat (Part000.percentage req)) (shareKey (Part000.percentage req))
           (Part000.globalData w)
           (concat (map (rowsFor (Part000.globalData w) (inRange start stop (Part000.globalData w)))
                      selected))
    /\ Part000.outputFile w'
       = Some {| Part000.FilteredData :=
                   omap (fun i => Part000.globalData w' !! i)
                     (concat (map (rowsFor (Part000.globalData w)
                                     (inRange start stop (Part000.globalData w))) selected));
                 Part000.Summary := summary |}.
Proof.
  unfold Part000.generate.
  destruct (Part000.selectedMerchants req) as [|selected|] eqn:Hsel; [discriminate| |];
    (destruct (Part000.startDate req) as [[|c s]|] eqn:Hs; try discriminate;
     destruct (Part000.endDate req) as [[|c' e]|] eqn:He; try discriminate;
     destruct (negb (toBoolean (Part000.percentage req))); [discriminate|];
     destruct (isNaN (parseFloat (Part000.percentage req))); [discriminate|];
     destruct (Part000.normalizeDate h (c :: s)) as [start|] eqn:Hstart; [|discriminate];
     destruct (Part000.normalizeDate h (c' :: e)) as [stop|] eqn:Hstop; [|discriminate];
     cbn [mbind completion_bind]); [|discriminate].
  unfold Part000.summarize.
  fold (shareKey (Part000.percentage req)). fold (inRange start stop (Part000.globalData w)).
  set (percent := parseFloat (Part000.percentage req)).
  set (key := shareKey (Part000.percentage req)).
  set (data := Part000.globalData w). set (rows := inRange start stop data).
  rewrite (outer_loop percent key data rows (shareKey_other _) selected [])
    by (cbn [Part000.data_]; symmetry; apply (marked_nil percent key data)).
  cbn [Part000.data_ Part000.summaryData Part000.filteredData
       Part000.grandW Part000.grandF Part000.grandP app].
  rewrite app_nil_r.
  rewrite (bool_decide_eq_false_2 (length (_ ++ [_]) = 0%nat))
    by (rewrite length_app; simpl; lia).
  rewrite andb_false_r. intros [= <- <- <-].
  exists selected, (c :: s), (c' :: e), start, stop. repeat split; try done.
Qed.

End Generate000Handler.

(** In part_000 the summary holds one row per selected merchant, in the
    order of the selection (also for a merchant without rows, and twice
    for one selected twice), and the [TOTAL] row. A merchant's amounts are
    the sums over the merchant's rows in the date range, rounded; the
    amounts of the [TOTAL] row are the sums of those sums before
    rounding, rounded once: not the sums of the rounded rows. *)
Theorem Part000_summary_from_raw_sums (h : Host) (req : Part000.Request) (w w' : Part000.World)
    (summary : list Part000.SummaryRow) (range : jsstring) :
  Part000.generate h req w = Normal (Part000.SummaryResponse summary range, w') ->
  exists selected s e start stop,
    Part000.selectedMerchants req = Part000.Merchants selected
    /\ Part000.startDate req = Some s /\ Part000.endDate req = Some e
    /\ Part000.normalizeDate h s = Normal start /\ Part000.normalizeDate h e = Normal stop
    /\ summary
       = map (merchantRow000 (parseFloat (Part000.percentage req)) (shareKey (Part000.percentage req))
                (Part000.globalData w) (inRange start stop (Part000.globalData w))) selected
         ++ [totalRow000 (parseFloat (Part000.percentage req)) (shareKey (Part000.percentage req))
               (Part000.globalData w) (inRange start stop (Part000.globalData w)) selected].
Proof.
  intros E. apply generate000_spec in E
    as (selected & s & e & start & stop & H1 & H2 & H3 & H4 & H5 & _ & H6 & _).
  exists selected, s, e, start, stop. repeat split; assumption.
Qed.

(** The scenario's dataset and the March request. *)
Lemma Part000_summary_from_raw_sums_witness :
  Part000.generate utcHost marchRequest000
    {| Part000.globalData := scenarioData000; Part000.outputFile := None |}
  = Normal (Part000.SummaryResponse (summary000 marchRequest000 scenarioData000)
              (u "2023-03-01 to 2023-03-31"),
            world000 marchRequest000 scenarioData000)
  /\ exists rows total, summary000 marchRequest000 scenarioData000 = rows ++ [total].
Proof.
  assert (E : Part000.generate utcHost marchRequest000
                {| Part000.globalData := scenarioData000; Part000.outputFile := None |}
              = Normal (Part000.SummaryResponse (summary000 marchRequest000 scenarioData000)
                          (u "2023-03-01 to 2023-03-31"),
                        world000 marchRequest000 scenarioData000))
    by (vm_compute; reflexivity).
  split; [exact E|].
  destruct (Part000_summary_from_raw_sums utcHost _ _ _ _ _ E)
    as (selected & s & e & start & stop & _ & _ & _ & _ & _ & Hs).
  eexists. eexists. exact Hs.
Defined.

Section Written000.

Context (h : Host).

Lemma indicesWhere_elem (p : row -> bool) (data : list row) i :
  i ∈ Part000.indicesWhere p data <-> exists r, data !! i = Some r /\ p r = true.
Proof.
  unfold Part000.indicesWhere. rewrite list_elem_of_omap. split.
  - intros (o & Ho & E). apply elem_of_lookup_imap in Ho as (j & r & -> & Hr).
    destruct (p r) eqn:Hp; [|discriminate]. simpl in E. injection E as <-. now exists r.
  - intros (r & Hr & Hp). exists (Some i). split; [|reflexivity].
    apply elem_of_lookup_imap. exists i, r. now rewrite Hp.
Qed.

(** The rows the loops visit: those of a selected merchant whose
    [DateOnly] lies in the range. *)
Lemma visited_elem (data : list row) (selected : list jsstring) (start stop : jsstring) i :
  i ∈ concat (map (rowsFor data (inRange start stop data)) selected)
  <-> exists r m, data !! i = Some r /\ m ∈ selected /\ get r k_Merchant = VStr m
        /\ geStr (get r k_DateOnly) start = true /\ leStr (get r k_DateOnly) stop = true.
Proof.
  rewrite list_elem_of_In, in_concat. split.
  - intros (l & Hl & Hi). apply in_map_iff in Hl as (m & <- & Hm).
    unfold rowsFor in Hi. apply filter_In in Hi as [Hi Hr].
    apply list_elem_of_In in Hi. unfold inRange in Hi.
    apply indicesWhere_elem in Hi as (r & Er & Hp). rewrite Er in Hr.
    apply andb_true_iff in Hp as [H1 H2]. apply bool_decide_eq_true_1 in Hr.
    exists r, m. repeat split; try assumption. now apply list_elem_of_In.
  - intros (r & m & Er & Hm & Hr & H1 & H2).
    exists (rowsFor data (inRange start stop data) m). split.
    + apply in_map_iff. exists m. split; [reflexivity|now apply list_elem_of_In].
    + unfold rowsFor. apply filter_In. split.
      * apply list_elem_of_In. unfold inRange. apply indicesWhere_elem. exists r.
        split; [exact Er|]. now rewrite H1, H2.
      * rewrite Er. now apply bool_decide_eq_true_2.
Qed.

End Written000.

(** part_000's /generate writes into the stored dataset. The rows it
    visits are those of a selected merchant whose [DateOnly] lies in the
    range, merchant by merchant in the order of the selection. Afterwards
    exactly these rows hold their share under the name
    [<percentage>% Amount], every other row is as it was and every other
    column of every row is as before; no row is added or removed; and the
    sheet of filtered data lists the visited rows as they now are. *)
Theorem Part000_generate_writes_rows (h : Host) (req : Part000.Request) (w w' : Part000.World)
    (summary : list Part000.SummaryRow) (range : jsstring) :
  Part000.generate h req w = Normal (Part000.SummaryResponse summary range, w') ->
  exists selected s e start stop visited sheet,
    Part000.selectedMerchants req = Part000.Merchants selected
    /\ Part000.startDate req = Some s /\ Part000.endDate req = Some e
    /\ Part000.normalizeDate h s = Normal start /\ Part000.normalizeDate h e = Normal stop
    /\ visited = concat (map (rowsFor (Part000.globalData w)
                                (inRange start stop (Part000.globalData w))) selected)
    /\ (forall i, i ∈ visited
          <-> exists r m, Part000.globalData w !! i = Some r /\ m ∈ selected
                /\ get r k_Merchant = VStr m
                /\ geStr (get r k_DateOnly) start = true
                /\ leStr (get r k_DateOnly) stop = true)
    /\ (forall i r, Part000.globalData w !! i = Some r ->
          Part000.globalData w' !! i
          = Some (if bool_decide (i ∈ visited)
                  then <[shareKey (Part000.percentage req)
                         := VStr (toFixed2 (percentAmountOf (parseFloat (Part000.percentage req)) r))]> r
                  else r))
    /\ Part000.globalData w'
       = marked (parseFloat (Part000.percentage req)) (shareKey (Part000.percentage req))
           (Part000.globalData w) visited
    /\ length (Part000.globalData w') = length (Part000.globalData w)
    /\ (forall i r', Part000.globalData w' !! i = Some r' ->
          exists r, Part000.globalData w !! i = Some r
            /\ forall k, k <> shareKey (Part000.percentage req) -> r' !! k = r !! k)
    /\ Part000.outputFile w' = Some {| Part000.FilteredData := sheet; Part000.Summary := summary |}
    /\ sheet = omap (fun i => Part000.globalData w' !! i) visited
    /\ Forall (fun r' => exists r,
                 r' = <[shareKey (Part000.percentage req)
                        := VStr (toFixed2 (percentAmountOf (parseFloat (Part000.percentage req)) r))]> r
                 /\ r ∈ Part000.globalData w) sheet.
Proof.
  intros E. apply generate000_spec in E
    as (selected & s & e & start & stop & Hsel & Hs & He & Hstart & Hstop & _ & _ & Hdata & Hout).
  set (visited := concat (map (rowsFor (Part000.globalData w)
                                 (inRange start stop (Part000.globalData w))) selected)) in *.
  exists selected, s, e, start, stop, visited,
    (omap (fun i => Part000.globalData w' !! i) visited).
  split; [exact Hsel|]. split; [exact Hs|]. split; [exact He|].
  split; [exact Hstart|]. split; [exact Hstop|]. split; [reflexivity|].
  split; [intros i; apply visited_elem|].
  split.
  { intros i r Hr. rewrite Hdata. unfold marked. rewrite list_lookup_imap, Hr. reflexivity. }
  split; [exact Hdata|]. split; [rewrite Hdata; apply length_imap|].
  split.
  { intros i r' Hr'. rewrite Hdata in Hr'. unfold marked in Hr'.
    rewrite list_lookup_imap in Hr'. destruct (Part000.globalData w !! i) as [r|]; [|discriminate].
    simpl in Hr'. injection Hr' as <-. exists r. split; [reflexivity|].
    intros k Hk. case_bool_decide; [|reflexivity]. now rewrite lookup_insert_ne. }
  split; [exact Hout|]. split; [reflexivity|].
  apply Forall_forall. intros r' Hr'. apply list_elem_of_omap in Hr' as (i & Hi & Hr').
  rewrite Hdata in Hr'. unfold marked in Hr'. rewrite list_lookup_imap in Hr'.
  destruct (Part000.globalData w !! i) as [r|] eqn:Hr; [|discriminate].
  simpl in Hr'. rewrite bool_decide_eq_true_2 in Hr' by exact Hi. injection Hr' as <-.
  exists r. split; [reflexivity|]. now apply list_elem_of_lookup_2 in Hr.
Qed.

(** The scenario's dataset and the March request: both rows are visited
    and hold their share afterwards. *)
Lemma Part000_generate_writes_rows_witness :
  Part000.generate utcHost marchRequest000
    {| Part000.globalData := scenarioData000; Part000.outputFile := None |}
  = Normal (Part000.SummaryResponse (summary000 marchRequest000 scenarioData000)
              (u "2023-03-01 to 2023-03-31"),
            world000 marchRequest000 scenarioData000)
  /\ exists visited : list nat,
       (forall i, i ∈ visited <-> (i = 0 \/ i = 1)%nat)
       /\ length (Part000.globalData (world000 marchRequest000 scenarioData000))
          = length scenarioData000
       /\ forall i r, scenarioData000 !! i = Some r ->
            Part000.globalData (world000 marchRequest000 scenarioData000) !! i
            = Some (if bool_decide (i ∈ visited)
                    then <[u "5% Amount"
                           := VStr (toFixed2 (percentAmountOf (Z2num 5) r))]> r
                    else r).
Proof.
  assert (E : Part000.generate utcHost marchRequest000
                {| Part000.globalData := scenarioData000; Part000.outputFile := None |}
              = Normal (Part000.SummaryResponse (summary000 marchRequest000 scenarioData000)
                          (u "2023-03-01 to 2023-03-31"),
                        world000 marchRequest000 scenarioData000))
    by (vm_compute; reflexivity).
  split; [exact E|].
  destruct (Part000_generate_writes_rows utcHost _ _ _ _ _ E)
    as (selected & s & e & start & stop & visited & sheet & Hsel & Hs & He & Hstart & Hstop
        & _ & Hv & Hrows & _ & Hlen & _).
  injection Hsel as <-. injection Hs as <-. injection He as <-.
  vm_compute in Hstart. injection Hstart as <-.
  vm_compute in Hstop. injection Hstop as <-.
  exists visited. split; [|split; [exact Hlen|exact Hrows]].
  intros i. rewrite Hv. split.
  - intros (r & m & Hr & _). apply lookup_lt_Some in Hr. cbn [Part000.globalData] in Hr.
    assert (Hlen2 : length scenarioData000 = 2%nat) by (vm_compute; reflexivity).
    lia.
  - intros [-> | ->].
    + eexists. exists (u "A"). split; [reflexivity|]. split; [now left|].
      repeat split; vm_compute; reflexivity.
    + eexists. exists (u "B"). split; [reflexivity|]. split; [right; now left|].
      repeat split; vm_compute; reflexivity.
Defined.

Ltac refuse000 :=
  left; split;
  [ unfold complete000;
    let H1 := fresh in let H2 := fresh in let H3 := fresh in
    let H4 := fresh in let H5 := fresh in
    let s1 := fresh in let e1 := fresh in let H2' := fresh in let H3' := fresh in
    intros (H1 & (s1 & H2 & H2') & (e1 & H3 & H3') & H4 & H5); congruence
  | eexists; reflexivity ].

(** part_000's /generate has four outcomes, each under its own
    condition. A request that is not complete (nothing selected, a date
    missing, a percentage that is missing or no number) is refused with
    status 400 and the state is left alone. A complete request whose
    start or end date is no date throws a RangeError, which nothing in
    the handler catches. A complete request with two dates whose
    selection cannot be iterated throws a TypeError at [for...of]. A
    complete request with two dates and an array of merchants is
    answered with a summary that ends in the [TOTAL] row. The answer 404
    in the source is never given, the [TOTAL] row being in the summary
    before the length of the summary is tested. *)
Theorem Part000_generate_outcomes (h : Host) (req : Part000.Request) (w : Part000.World) :
  (~ complete000 req
   /\ exists code, Part000.generate h req w = Normal (Part000.ErrorResponse 400 code, w))
  \/ (complete000 req
      /\ (exists s e, Part000.startDate req = Some s /\ Part000.endDate req = Some e
            /\ (newDateString h s = None \/ newDateString h e = None))
      /\ Part000.generate h req w = Throw RangeError)
  \/ (complete000 req /\ datesParse000 h req
      /\ Part000.selectedMerchants req = Part000.NotIterable
      /\ Part000.generate h req w = Throw TypeError)
  \/ (complete000 req /\ datesParse000 h req
      /\ exists selected rows total range w',
           Part000.selectedMerchants req = Part000.Merchants selected
           /\ Part000.generate h req w
              = Normal (Part000.SummaryResponse (rows ++ [total]) range, w')
           /\ length rows = length selected
           /\ Part000.Merchant total = u "TOTAL").
Proof.
  unfold Part000.generate.
  destruct (Part000.selectedMerchants req) as [|selected|] eqn:Hsel; [refuse000| |];
    (destruct (Part000.startDate req) as [[|c s]|] eqn:Hs; [refuse000| |refuse000];
     destruct (Part000.endDate req) as [[|c' e]|] eqn:He; [refuse000| |refuse000];
     destruct (toBoolean (Part000.percentage req)) eqn:Hp; cbn [negb]; [|refuse000];
     destruct (isNaN (parseFloat (Part000.percentage req))) eqn:Hn; [refuse000|];
     right;
     assert (Hc : complete000 req)
       by (unfold complete000; rewrite Hsel, Hs, He;
           split; [discriminate|]; split; [eexists; split; [reflexivity|discriminate]|];
           split; [eexists; split; [reflexivity|discriminate]|]; split; assumption);
     unfold Part000.normalizeDate;
     destruct (newDateString h (c :: s)) as [ts|] eqn:Hts;
     [|left; split; [exact Hc|]; split; [exists (c :: s), (c' :: e); auto|reflexivity]];
     destruct (newDateString h (c' :: e)) as [te|] eqn:Hte;
     [|left; split; [exact Hc|]; split; [exists (c :: s), (c' :: e); auto|reflexivity]];
     right;
     assert (Hd : datesParse000 h req)
       by (unfold datesParse000; rewrite Hs, He; exists (c :: s), (c' :: e), ts, te; auto);
     cbn [toISOString mbind completion_bind]).
  - right. split; [exact Hc|]. split; [exact Hd|].
    unfold Part000.summarize.
    fold (shareKey (Part000.percentage req)).
    set (start := take 10 (isoString ts)). set (stop := take 10 (isoString te)).
    fold (inRange start stop (Part000.globalData w)).
    rewrite (outer_loop (parseFloat (Part000.percentage req)) (shareKey (Part000.percentage req))
               (Part000.globalData w) (inRange start stop (Part000.globalData w))
               (shareKey_other _) selected [])
      by (cbn [Part000.data_]; symmetry; apply marked_nil).
    cbn [Part000.data_ Part000.summaryData Part000.filteredData
         Part000.grandW Part000.grandF Part000.grandP app].
    rewrite (bool_decide_eq_false_2 (length (_ ++ [_]) = 0%nat))
      by (rewrite length_app; simpl; lia).
    rewrite andb_false_r.
    eexists selected, _, _, _, _. split; [reflexivity|]. split; [reflexivity|].
    split; [apply length_map|reflexivity].
  - left. split; [exact Hc|]. split; [exact Hd|]. split; reflexivity.
Qed.

(** The number 5 as the selection, with the scenario's dataset. *)
Lemma Part000_number_selection_throws :
  Part000.generate utcHost numberSelection000
    {| Part000.globalData := scenarioData000; Part000.outputFile := None |}
  = Throw TypeError.
Proof. vm_compute; reflexivity. Qed.

(* ================================================================= *)
(** ** part_001: dates, upload and summary *)

(** part_001's [parseExcelDate] never throws either, and on Numbers it
    differs from the one of src/server.js only at zero, which it does not
    test for: every other Number (NaN and the infinities included) gives
    the same result in both, while zero is no date for src/server.js
    and the day before serial 1 for part_001. *)
Theorem Part001_parseExcelDate_numbers (h : Host) :
  (forall v, exists r, Part001.parseExcelDate h v = Normal r)
  /\ (forall x, JsNumber.truthy x = true \/ x = NaN ->
        Part001.parseExcelDate h (VNum x) = parseExcelDate h (VNum x))
  /\ parseExcelDate h (VNum (Z2num 0)) = Normal VNull
  /\ (Z.abs (LocalTZA h epochLocal) <= msPerDay ->
      Part001.parseExcelDate h (VNum (Z2num 0))
      = Normal (VStr (isoDateOfDay (epochDay - 1 + (- LocalTZA h epochLocal) / msPerDay)))).
Proof.
  split; [apply Part001_parseExcelDate_returns|]. split; [|split; [reflexivity|]].
  - intros x [Hx| ->].
    + unfold parseExcelDate, Part001.parseExcelDate. simpl toBoolean. rewrite Hx. reflexivity.
    + unfold parseExcelDate, Part001.parseExcelDate. simpl.
      destruct (getTime (newDateLocal h 1899 11 30)); reflexivity.
  - intros Htz.
    change (Part001.parseExcelDate h (VNum (Z2num 0)))
      with (tryCatch (parseExcelDate_try h (VNum (Z2num 0))) (fun _ => Normal VNull)).
    rewrite serial_time.
    + simpl tryCatch. rewrite isoDate_Day, serial_day.
      replace (epochDay + (0 - 1)) with (epochDay - 1) by lia. reflexivity.
    + exact Htz.
    + rewrite epochLocal_value in *. unfold msPerDay, maxTime in *. lia.
Qed.

Section Part001Upload.

Context (h : Host).

Lemma processRows001_spec rawData :
  Part001Server.processRows h rawData
  = Normal (map (fun r => <[k_DateOnly := dateOnlyOf001 h r]> r) rawData).
Proof.
  induction rawData as [|r rest IH]; [reflexivity|].
  cbn [Part001Server.processRows map].
  destruct (Part001_parseExcelDate_returns h (get r k_Date)) as [d Hd].
  rewrite Hd. cbn [mbind completion_bind]. rewrite IH. cbn [mbind completion_bind].
  assert (E : dateOnlyOf001 h r = d) by (unfold dateOnlyOf001; now rewrite Hd).
  now rewrite E.
Qed.

Lemma keepName_spec v :
  Part001Server.keepName v
  = if nameOrNothing v then Normal (isMerchantName v) else Throw TypeError.
Proof.
  unfold Part001Server.keepName, nameOrNothing, isMerchantName.
  destruct v as [| |b|x|s|t]; simpl; try reflexivity.
  - now destruct b.
  - now destruct (JsNumber.truthy x).
  - unfold JsString.eqb. case_bool_decide; reflexivity.
Qed.

Lemma filterNames_spec names :
  Part001Server.filterNames names
  = if forallb nameOrNothing names then Normal (List.filter isMerchantName names)
    else Throw TypeError.
Proof.
  induction names as [|v names IH]; [reflexivity|].
  cbn [Part001Server.filterNames forallb List.filter]. rewrite keepName_spec, IH.
  destruct (nameOrNothing v); [|reflexivity]. cbn [mbind completion_bind andb].
  destruct (forallb nameOrNothing names); reflexivity.
Qed.

Lemma merchant_names rawData :
  map (fun r => get r k_Merchant) (map (fun r => <[k_DateOnly := dateOnlyOf001 h r]> r) rawData)
  = map (fun r => get r k_Merchant) rawData.
Proof.
  rewrite List.map_map. apply map_ext. intros r. unfold get.
  now rewrite lookup_insert_ne by discriminate.
Qed.

End Part001Upload.

Lemma stringsOf_names (vs : list jsval) :
  stringsOf (List.filter isMerchantName vs)
  = List.filter (fun s => negb (JsString.eqb (JsString.trim s) [])) (stringsOf vs).
Proof.
  induction vs as [|v vs IH]; [reflexivity|].
  assert (E : isMerchantName v
              = match v with
                | VStr s => negb (JsString.eqb (JsString.trim s) [])
                | _ => false
                end).
  { unfold isMerchantName. destruct v as [| |b|x|s|d]; try reflexivity;
      try apply andb_false_r. now destruct s. }
  cbn [List.filter]. rewrite E.
  destruct v as [| |b|x|s|d]; try exact IH.
  cbn [stringsOf omap list_omap List.filter].
  destruct (negb (JsString.eqb (JsString.trim s) [])); [|exact IH].
  cbn [stringsOf omap list_omap]. f_equal. exact IH.
Qed.

(** part_001's upload works when every merchant cell is a string or a
    falsy value: it stores a record per row and lists the merchant names
    (the cells that hold a string with something other than white space)
    once each, in the order in which they first appear in the rows, not
    sorted; sorted, the list is the one src/server.js answers. One truthy
    cell that is no string (a number, say) makes [name.trim()] throw: the
    upload is answered 500 and nothing is stored. *)
Theorem Part001_upload_merchants (h : Host) (rawData : list row) (w : Part001Server.World) :
  (Forall (fun r => nameOrNothing (get r k_Merchant) = true) rawData
   /\ exists data ms,
        Part001Server.upload h rawData w
        = (Part001Server.UploadResponse ms,
           {| Part001Server.processedData := Some data;
              Part001Server.outputFiles := Part001Server.outputFiles w |})
        /\ data = map (fun r => <[k_DateOnly := dateOnlyOf001 h r]> r) rawData
        /\ ms = setOf [] (namesIn rawData)
        /\ NoDup ms
        /\ (forall s, s ∈ ms
              <-> JsString.trim s <> [] /\ exists r, r ∈ rawData /\ get r k_Merchant = VStr s)
        /\ sort ms = extractMerchants rawData)
  \/ (Exists (fun r => nameOrNothing (get r k_Merchant) = false) rawData
      /\ Part001Server.upload h rawData w
         = (Part001Server.ErrorResponse 500 (u "Failed to process file"), w)).
Proof.
  unfold Part001Server.upload. rewrite processRows001_spec. cbn [mbind completion_bind].
  rewrite merchant_names, filterNames_spec.
  destruct (forallb nameOrNothing (map (fun r => get r k_Merchant) rawData)) eqn:E.
  - left. rewrite forallb_forall in E. split.
    { apply Forall_forall. intros r Hr. apply E. apply in_map_iff. exists r.
      split; [reflexivity|now apply list_elem_of_In]. }
    cbn [mbind completion_bind]. eexists. eexists. split; [reflexivity|].
    split; [reflexivity|].
    split; [unfold namesIn, merchantsIn; now rewrite stringsOf_names|].
    split; [apply setOf_NoDup|]. split; [|reflexivity].
    intros s. rewrite setOf_elem, stringsOf_elem.
    rewrite list_elem_of_In, filter_In, <- list_elem_of_In, list_elem_of_fmap, isMerchantName_str.
    split.
    + intros [[(r & Er & Hr) Ht] _]. split; [exact Ht|]. now exists r.
    + intros [Ht (r & Hr & Er)]. split; [|apply not_elem_of_nil].
      split; [|exact Ht]. now exists r.
  - right. split; [|reflexivity].
    apply Exists_exists. apply not_true_iff_false in E.
    destruct (existsb (fun r => negb (nameOrNothing (get r k_Merchant))) rawData) eqn:E'.
    + apply existsb_exists in E' as (r & Hr & Hn). exists r.
      split; [now apply list_elem_of_In|]. now apply negb_true_iff.
    + exfalso. apply E. apply forallb_forall. intros v Hv.
      apply in_map_iff in Hv as (r & <- & Hr).
      destruct (nameOrNothing (get r k_Merchant)) eqn:Hn; [reflexivity|].
      assert (existsb (fun r => negb (nameOrNothing (get r k_Merchant))) rawData = true).
      { apply existsb_exists. exists r. split; [exact Hr|]. now rewrite Hn. }
      congruence.
Qed.

(** The scenario's rows in the other order: the merchants are listed as
    they come, [B] before [A]. *)
Lemma Part001_upload_keeps_order :
  fst (Part001Server.upload utcHost [rowB; rowA]
         {| Part001Server.processedData := None; Part001Server.outputFiles := [] |})
  = Part001Server.UploadResponse [u "B"; u "A"].
Proof. vm_compute; reflexivity. Qed.

Section Part001Generate.

Context (percent : number).

Lemma mapUpdate_dropCount m key f g :
  (forall t, totalsWithoutCount (f t) = g (totalsWithoutCount t)) ->
  map entryWithoutCount (mapUpdate m key f) = Part001Server.mapUpdate (map entryWithoutCount m) key g.
Proof.
  intros Hfg. unfold mapUpdate, Part001Server.mapUpdate.
  induction m as [|[k t] m IH]; [reflexivity|]. cbn [map]. rewrite IH. f_equal.
  unfold entryWithoutCount at 2. cbn [fst snd].
  destruct (sameValueZero k key); [|reflexivity].
  unfold entryWithoutCount. cbn [fst snd]. now rewrite Hfg.
Qed.

Lemma accumulate_dropCount m r :
  map entryWithoutCount (accumulate percent m r) = Part001Server.accumulate percent (map entryWithoutCount m) r.
Proof.
  unfold accumulate, Part001Server.accumulate. cbv zeta.
  assert (Hhas : forall key, Part001Server.mapHas (map entryWithoutCount m) key = mapHas m key).
  { intros key. unfold Part001Server.mapHas, mapHas. induction m as [|e m IH]; [reflexivity|].
    simpl. now rewrite IH. }
  rewrite Hhas. unfold mapAdd.
  destruct (mapHas m (get r k_Merchant)).
  - apply mapUpdate_dropCount. intros t. reflexivity.
  - rewrite (mapUpdate_dropCount _ _ _
               (fun current =>
                  {| Part001Server.withdrawal :=
                       JsNumber.add (Part001Server.withdrawal current)
                         (JsNumber.orZero (parseFloat (get r k_Withdrawal)));
                     Part001Server.fee :=
                       JsNumber.add (Part001Server.fee current)
                         (JsNumber.orZero (parseFloat (get r k_Fees)));
                     Part001Server.percentAmount :=
                       JsNumber.add (Part001Server.percentAmount current)
                         (JsNumber.div
                            (JsNumber.mul (JsNumber.orZero (parseFloat (get r k_Withdrawal)))
                               percent) (Z2num 100)) |}))
      by (intros t; reflexivity).
    now rewrite map_app.
Qed.

Lemma summaryMap_dropCount rs m :
  map entryWithoutCount (fold_left (accumulate percent) rs m)
  = fold_left (Part001Server.accumulate percent) rs (map entryWithoutCount m).
Proof.
  revert m. induction rs as [|r rs IH]; intros m; [reflexivity|].
  simpl. now rewrite IH, accumulate_dropCount.
Qed.

Lemma merchantRows_withoutCount m :
  map withoutCount (merchantRows percent m) = Part001Server.merchantRows percent (map entryWithoutCount m).
Proof.
  unfold merchantRows, Part001Server.merchantRows. rewrite !List.map_map. reflexivity.
Qed.

Lemma totalsRow_withoutCount rows :
  withoutCount (totalsRow percent rows) = Part001Server.totalsRow percent (map withoutCount rows).
Proof.
  assert (H : forall f g, (forall r, g (withoutCount r) = f r) ->
            Part001Server.sumField g (map withoutCount rows) = sumField f rows).
  { intros f g Hfg. unfold Part001Server.sumField, sumField. generalize (Z2num 0).
    induction rows as [|r rows IH]; intros acc; [reflexivity|]. simpl. now rewrite IH, Hfg. }
  unfold withoutCount at 1, totalsRow, Part001Server.totalsRow. simpl.
  rewrite (H TotalWithdrawalAmount Part001Server.TotalWithdrawalAmount) by reflexivity.
  rewrite (H TotalWithdrawalFees Part001Server.TotalWithdrawalFees) by reflexivity.
  now rewrite (H PercentAmount Part001Server.PercentAmount) by reflexivity.
Qed.

Lemma summary_withoutCount rs :
  map withoutCount (summaryData percent rs)
  = let rows := Part001Server.merchantRows percent
                  (fold_left (Part001Server.accumulate percent) rs []) in
    rows ++ [Part001Server.totalsRow percent rows].
Proof.
  unfold summaryData, summaryMapOf. cbv zeta.
  rewrite map_app, merchantRows_withoutCount, summaryMap_dropCount. simpl.
  now rewrite totalsRow_withoutCount, merchantRows_withoutCount, summaryMap_dropCount.
Qed.

End Part001Generate.

(** The two versions compute the same summary: a request that
    src/server.js answers with a summary is answered by part_001, from
    the same stored records, with the same rows less their counts, the
    same URL and the same range, as long as the percentage is not a falsy
    value (part_001 tests [!percentage], so the Number 0 is refused
    there). The sheet of transactions part_001 writes holds the selected
    records as they are stored, [DateOnly] and any other bookkeeping
    field included; the one src/server.js writes holds them without. *)
Theorem Part001_generate_same_summary (h : Host) (now : Z) (req : GenerateRequest)
    (w w' : World) (w1 : Part001Server.World) (fd : FileData)
    (summary : list SummaryRow) (url range : jsstring) (tc mc : nat) :
  0 <= now ->
  generate h now req w = (GenerateResponse summary url range tc mc, w') ->
  fileData w = Some fd ->
  Part001Server.processedData w1 = Some (processedData fd) ->
  toBoolean (percentage req) = true ->
  exists w1',
    Part001Server.generate now req w1
    = (Part001Server.GenerateResponse (map withoutCount summary) url range, w1')
    /\ Part001Server.processedData w1' = Part001Server.processedData w1
    /\ exists selected start stop transactions,
         selectedMerchants req = Some selected
         /\ startDate req = Some start /\ endDate req = Some stop
         /\ transactions = filterData (processedData fd) selected start stop
         /\ Part001Server.outputFiles w1'
            = Part001Server.outputFiles w1
              ++ [(outputName now, {| Part001Server.Transactions := transactions;
                                      Part001Server.Summary := map withoutCount summary |})]
         /\ written w w'
            = [{| Transactions := map stripBookkeeping transactions; Summary := summary |}].
Proof.
  intros _ E Hfd Hdata Hp.
  apply generate_response in E
    as (selected & percent & start & stop & fd' & Hacc & Hne & -> & -> & -> & _ & _ & ->).
  destruct Hacc as (Hsel & Hsne & -> & Hnan & _ & _ & Hs & He & Hsn & Hen & _ & _ & Hfd').
  assert (fd' = fd) as -> by congruence.
  unfold Part001Server.generate. rewrite Hsel, Hp, Hnan, Hs, He, Hdata.
  destruct selected as [|m ms]; [done|].
  destruct start as [|c start]; [done|]. destruct stop as [|c' stop]; [done|].
  cbn [negb orb missing from_option id].
  destruct (processedData fd) as [|r0 data] eqn:Hpd; [now simpl in Hne|].
  rewrite (bool_decide_eq_false_2 (length _ = 0%nat))
    by (intros Hlen; apply Hne; now apply length_zero_iff_nil).
  rewrite summary_withoutCount. cbv zeta.
  eexists. split; [reflexivity|]. split; [reflexivity|].
  exists (m :: ms), (c :: start), (c' :: stop). eexists.
  split; [reflexivity|]. split; [reflexivity|]. split; [reflexivity|].
  split; [rewrite <- Hpd; reflexivity|]. split; [rewrite <- Hpd; reflexivity|].
  unfold written. cbn [outputFiles]. rewrite drop_app_length. now rewrite <- Hpd.
Qed.

(** The scenario's summary for March 2023 in both versions. *)
Lemma Part001_generate_same_summary_witness :
  generate utcHost 1700000000000 marchRequest scenarioWorld
  = (GenerateResponse scenarioSummary (u "/download/summary_1700000000000.xlsx")
       (u "2023-03-01 to 2023-03-31") 2 2,
     snd (generate utcHost 1700000000000 marchRequest scenarioWorld))
  /\ exists w1',
       Part001Server.generate 1700000000000 marchRequest scenarioWorld001
       = (Part001Server.GenerateResponse (map withoutCount scenarioSummary)
            (u "/download/summary_1700000000000.xlsx") (u "2023-03-01 to 2023-03-31"), w1').
Proof.
  assert (H0 : 0 <= 1700000000000) by lia.
  assert (E : generate utcHost 1700000000000 marchRequest scenarioWorld
              = (GenerateResponse scenarioSummary (u "/download/summary_1700000000000.xlsx")
                   (u "2023-03-01 to 2023-03-31") 2 2,
                 snd (generate utcHost 1700000000000 marchRequest scenarioWorld)))
    by (vm_compute; reflexivity).
  split; [exact E|].
  destruct (Part001_generate_same_summary utcHost _ _ _ _ scenarioWorld001
              {| processedData := processRows utcHost [rowA; rowB];
                 merchants := [u "A"; u "B"] |} _ _ _ _ _ H0 E eq_refl eq_refl eq_refl)
    as (w1' & Hg & _).
  exists w1'. exact Hg.
Defined.

(* ================================================================= *)
(** ** Texts in part_001 and date objects *)

Section Part001Texts.

Lemma splitDashSlash_plain p :
  Forall (fun c => c <> 45%N /\ c <> 47%N) p -> Part001.splitDashSlash p = [p].
Proof.
  induction 1 as [|c p [H1 H2] _ IH]; [reflexivity|]. simpl.
  destruct (N.eqb_spec c 45); [contradiction|]. destruct (N.eqb_spec c 47); [contradiction|].
  simpl. now rewrite IH.
Qed.

Lemma splitDashSlash_app p sep r :
  Forall (fun c => c <> 45%N /\ c <> 47%N) p -> sep = 45%N \/ sep = 47%N ->
  Part001.splitDashSlash (p ++ sep :: r) = p :: Part001.splitDashSlash r.
Proof.
  intros Hp Hsep. induction Hp as [|c p [H1 H2] _ IH]; simpl.
  - destruct Hsep as [-> | ->]; reflexivity.
  - destruct (N.eqb_spec c 45); [contradiction|]. destruct (N.eqb_spec c 47); [contradiction|].
    simpl. now rewrite IH.
Qed.

End Part001Texts.

(** part_001 reads a text of three parts, separated by [-] or [/] in any
    mixture, day first and in no other way: the result is the date the
    host's parser finds in [year-month-day] put together from the parts,
    and [null] when it finds none there, even if the text read month
    first, or as it stands, is a date. *)
Theorem Part001_parseExcelDate_day_first (h : Host) (p0 p1 p2 : jsstring) (s1 s2 : N) :
  Forall (fun c => c <> 45%N /\ c <> 47%N) p0 ->
  Forall (fun c => c <> 45%N /\ c <> 47%N) p1 ->
  Forall (fun c => c <> 45%N /\ c <> 47%N) p2 ->
  s1 = 45%N \/ s1 = 47%N -> s2 = 45%N \/ s2 = 47%N ->
  Part001.parseExcelDate h (VStr (p0 ++ s1 :: p1 ++ s2 :: p2))
  = Normal (match newDateString h (p2 ++ 45%N :: p1 ++ 45%N :: p0) with
            | Some t => VStr (isoDate t)
            | None => VNull
            end).
Proof.
  intros H0 H1 H2 Hs1 Hs2. unfold Part001.parseExcelDate.
  rewrite splitDashSlash_app, splitDashSlash_app, splitDashSlash_plain by done.
  destruct (newDateString h _) as [t|]; [|reflexivity].
  now rewrite datePart_valid.
Qed.

(** A date written month first, on the reference host. *)
Lemma Part001_parseExcelDate_day_first_witness :
  Forall (fun c => c <> 45%N /\ c <> 47%N) (u "01")
  /\ Forall (fun c => c <> 45%N /\ c <> 47%N) (u "31")
  /\ Forall (fun c => c <> 45%N /\ c <> 47%N) (u "2024")
  /\ Part001.parseExcelDate utcHost (VStr (u "01/31/2024")) = Normal VNull.
Proof.
  assert (H0 : Forall (fun c => c <> 45%N /\ c <> 47%N) (u "01"))
    by (repeat constructor; discriminate).
  assert (H1 : Forall (fun c => c <> 45%N /\ c <> 47%N) (u "31"))
    by (repeat constructor; discriminate).
  assert (H2 : Forall (fun c => c <> 45%N /\ c <> 47%N) (u "2024"))
    by (repeat constructor; discriminate).
  split; [exact H0|]. split; [exact H1|]. split; [exact H2|].
  exact (Part001_parseExcelDate_day_first utcHost (u "01") (u "31") (u "2024") 47 47
           H0 H1 H2 (or_intror eq_refl) (or_intror eq_refl)).
Defined.

(** A cell that holds a [Date] object, as the sheet reader hands over
    date cells, is normalised to the calendar day of its time value in
    UTC, and to [null] when the date is invalid; [true] is taken for one
    millisecond past the epoch. *)
Theorem parseExcelDate_date_objects (h : Host) :
  (forall t, parseExcelDate h (VDate (Some t)) = Normal (VStr (isoDate t)))
  /\ parseExcelDate h (VDate None) = Normal VNull
  /\ parseExcelDate h (VBool true) = Normal (VStr (u "1970-01-01"))
  /\ (forall v, typeof v <> TNumber -> typeof v <> TString -> toBoolean v = true ->
        parseExcelDate h v
        = Normal (match newDate h v with Some t => VStr (isoDate t) | None => VNull end)).
Proof.
  assert (H : forall v, typeof v <> TNumber -> typeof v <> TString -> toBoolean v = true ->
            parseExcelDate h v
            = Normal (match newDate h v with Some t => VStr (isoDate t) | None => VNull end)).
  { intros v Hn Hs Hb. unfold parseExcelDate. rewrite Hb. cbn [negb].
    now rewrite parseExcelDate_try_other. }
  split; [intros t; now apply H|]. split; [now apply H|]. split; [|exact H].
  rewrite H by done. reflexivity.
Qed.

(* ================================================================= *)
(** ** Whole amounts *)

Section DecimalDigits.

Lemma uint_codes_revapp d acc :
  uint_codes (Decimal.revapp d acc) = rev (uint_codes d) ++ uint_codes acc.
Proof.
  revert acc. induction d; intros acc; simpl; [reflexivity|..];
    rewrite IHd; simpl; now rewrite <- app_assoc.
Qed.

Lemma decimal_tenfold p : decimal (Zpos (10 * p)) = decimal (Zpos p) ++ [48%N].
Proof.
  unfold decimal. simpl Z.abs_N. unfold N.to_uint, Pos.to_uint, Decimal.rev.
  change (Pos.to_little_uint (10 * p)) with (DecimalPos.Unsigned.to_lu (10 * Npos p)).
  rewrite DecimalPos.Unsigned.to_ldec_tenfold. simpl DecimalPos.Unsigned.to_lu.
  simpl Decimal.revapp. rewrite !uint_codes_revapp. simpl. now rewrite app_nil_r.
Qed.

Lemma decimal_hundredfold c : 0 < c -> decimal (100 * c) = decimal c ++ [48%N; 48%N].
Proof.
  intros Hc. destruct c as [|p|p]; try lia.
  replace (100 * Zpos p) with (Zpos (10 * (10 * p))) by lia.
  rewrite !decimal_tenfold, <- app_assoc. reflexivity.
Qed.

Lemma of_uint_acc_codes d acc :
  fold_left (fun a c => 10 * a + digitVal c) (uint_codes d) (Zpos acc)
  = Zpos (Pos.of_uint_acc d acc).
Proof.
  revert acc. induction d; intros acc; simpl; [reflexivity|..];
    rewrite <- IHd; f_equal; unfold digitVal; simpl; lia.
Qed.

Lemma digitsVal_uint d : digitsVal (uint_codes d) = Z.of_N (Pos.of_uint d).
Proof.
  unfold digitsVal. induction d; simpl; [reflexivity|exact IHd|..];
    match goal with
    | |- fold_left _ _ ?a = _ => change a with (Zpos (Z.to_pos a))
    end; now rewrite of_uint_acc_codes.
Qed.

Lemma digitsVal_decimal c : 0 <= c -> digitsVal (decimal c) = c.
Proof.
  intros Hc. unfold decimal. rewrite digitsVal_uint.
  change (Pos.of_uint (N.to_uint (Z.abs_N c))) with (N.of_uint (N.to_uint (Z.abs_N c))).
  rewrite DecimalN.Unsigned.of_to. lia.
Qed.

End DecimalDigits.

Section WholeNumbers.

Lemma fixed2_hundredfold c : 0 <= c -> JsNumber.fixed2 (100 * c) = decimal c ++ u ".00".
Proof.
  intros Hc. destruct (Z.eq_dec c 0) as [->|Hne]; [reflexivity|].
  unfold JsNumber.fixed2. rewrite decimal_hundredfold by lia.
  assert (Hlen : (1 <= length (decimal c))%nat).
  { pose proof (decimal_nonempty c). destruct (decimal c); [contradiction|simpl; lia]. }
  assert (Epad : padZeros 3 (decimal c ++ [48%N; 48%N]) = decimal c ++ [48%N; 48%N]).
  { unfold padZeros. rewrite length_app. simpl length.
    replace (3 - (length (decimal c) + 2))%nat with 0%nat by lia. reflexivity. }
  rewrite Epad. cbv zeta. rewrite length_app. simpl length.
  replace (length (decimal c) + 2 - 2)%nat with (length (decimal c)) by lia.
  rewrite take_app_length, drop_app_length. reflexivity.
Qed.

(** [toFixed(2)] of a whole Number. *)
Lemma toFixed2_Z2num k : Z.abs k < 2 ^ 53 -> toFixed2 (Z2num k) = money k.
Proof.
  intros Hk. destruct (Z.eq_dec k 0) as [->|Hne]; [reflexivity|].
  rewrite Z2num_finite by lia. unfold money.
  set (c := Z.abs k). assert (Hc : 0 < c < 2 ^ 53) by (unfold c; lia).
  destruct (canon_m_spec c Hc) as [Hm _].
  destruct (Zdigits2_pos_bounds c Hc) as [Hd _].
  unfold toFixed2, canon_e. rewrite Hm.
  assert (Hdec : decimal k = decimal c).
  { unfold decimal, c. f_equal. f_equal. lia. }
  rewrite Hdec.
  destruct (Z.leb_spec 0 (Zdigits2 c - 53)) as [H0|H0].
  - assert (E : Zdigits2 c = 53) by lia. rewrite E. simpl (53 - 53).
    rewrite Z.pow_0_r, !Z.mul_1_r.
    destruct (Z.leb_spec (10 ^ 21) c) as [Hbig|_].
    + change (2 ^ 53) with 9007199254740992 in Hc. change (10 ^ 21) with 1000000000000000000000 in Hbig. lia.
    + rewrite fixed2_hundredfold by lia. reflexivity.
  - set (P := 2 ^ (53 - Zdigits2 c)).
    replace (- (Zdigits2 c - 53)) with (53 - Zdigits2 c) by lia.
    replace (1 - (Zdigits2 c - 53)) with (1 + (53 - Zdigits2 c)) by lia.
    rewrite Z.pow_add_r by lia. fold P. change (2 ^ 1) with 2.
    assert (HP : 0 < P) by (apply Z.pow_pos_nonneg; lia).
    replace (200 * (c * P) + P) with ((200 * c + 1) * P) by ring.
    rewrite Z.div_mul_cancel_r by lia.
    replace ((200 * c + 1) / 2) with (100 * c) by (Z.div_mod_to_equations; lia).
    rewrite fixed2_hundredfold by lia. reflexivity.
Qed.

(** The quotient of [100 * c] by 100, correctly rounded, is [c]. *)
Lemma Q2num_hundredth neg c :
  0 < c < 2 ^ 53 ->
  JsNumber.Q2num neg (Z.to_pos (100 * c)) 100 = S754_finite neg (canon_m c) (canon_e c).
Proof.
  intros Hc. destruct (canon_m_spec c Hc) as [Hm Hd53].
  destruct (Zdigits2_pos_bounds c Hc) as [Hd [Hlo Hhi]].
  unfold JsNumber.Q2num, SFdiv_core_binary.
  rewrite Z2Pos.id by lia.
  set (D := Zdigits2 (100 * c)).
  assert (HD : D = Zdigits2 c + 6 \/ D = Zdigits2 c + 7).
  { assert (H100 : 0 < 100 * c) by lia.
    destruct (100 * c) as [|p|p] eqn:Ep; try lia. unfold D. simpl Zdigits2.
    pose proof (digits2_bounds p) as [Hl Hh]. rewrite <- Ep in Hl, Hh.
    set (dp := Zpos (digits2_pos p)) in *. set (dc := Zdigits2 c) in *.
    assert (Hup : 100 * c < 2 ^ (dc + 7)).
    { rewrite Z.pow_add_r by lia. change (2 ^ 7) with 128. lia. }
    assert (Hdn : 2 ^ (dc + 5) <= 100 * c).
    { replace (dc + 5) with (dc - 1 + 6) by lia. rewrite Z.pow_add_r by lia.
      change (2 ^ 6) with 64. lia. }
    assert (H1 : dp - 1 < dc + 7).
    { apply (Z.pow_lt_mono_r_iff 2); lia. }
    assert (H2 : dc + 5 < dp).
    { apply (Z.pow_lt_mono_r_iff 2); lia. }
    lia. }
  change (Zdigits2 100) with 7. unfold fexp, emin, prec, emax.
  replace (Z.min (Z.max (D + 0 - (7 + 0) - 53) (3 - 1024 - 53)) (0 - 0)) with (D - 60) by lia.
  replace (0 - 0 - (D - 60)) with (60 - D) by lia.
  remember (60 - D) as s eqn:Es0. assert (Hs : 0 <= s) by lia.
  assert (Hm' : match s with
                | 0 => 100 * c
                | Z.pos _ => Z.shiftl (100 * c) s
                | Z.neg _ => 0
                end = 100 * (c * 2 ^ s)).
  { clear Es0. destruct s as [|p|p]; try lia.
    rewrite Z.shiftl_mul_pow2 by lia. ring. }
  rewrite Hm'.
  assert (Hps : 0 < 2 ^ s) by (apply Z.pow_pos_nonneg; lia).
  pose proof (Z_div_mod (100 * (c * 2 ^ s)) 100 ltac:(lia)) as Hdiv.
  destruct (Z.div_eucl (100 * (c * 2 ^ s)) 100) as [q r].
  assert (q = c * 2 ^ s /\ r = 0) as [-> ->] by lia.
  change (new_location 100 0) with loc_Exact.
  assert (Hq : 0 < c * 2 ^ s) by nia.
  destruct (c * 2 ^ s) as [|m|m] eqn:Em; try lia.
  apply binary_round_aux_canon.
  - exact Hd53.
  - unfold canon_e. lia.
  - unfold canon_e. lia.
  - rewrite Hm. unfold canon_e. rewrite <- Z.mul_assoc, <- Z.pow_add_r by lia.
    rewrite <- Em. f_equal. f_equal. lia.
Qed.

Lemma digit_cases d :
  isDigit d = true ->
  (d = 48 \/ d = 49 \/ d = 50 \/ d = 51 \/ d = 52 \/ d = 53 \/ d = 54 \/ d = 55
   \/ d = 56 \/ d = 57)%N.
Proof.
  unfold isDigit. rewrite andb_true_iff, !N.leb_le. lia.
Qed.

Lemma digitsVal_app a b :
  digitsVal (a ++ b) = fold_left (fun acc c => 10 * acc + digitVal c) b (digitsVal a).
Proof. unfold digitsVal. apply fold_left_app. Qed.

(** Reading back an unsigned amount with two zero decimals. *)
Lemma decimalPrefix_amount c :
  0 <= c < 2 ^ 53 ->
  decimalPrefix (decimal c ++ u ".00") = Some (Z2num c, []) /\
  trimStart (decimal c ++ u ".00") = decimal c ++ u ".00" /\
  decimalPrefix (45%N :: decimal c ++ u ".00") =
    Some ((if c =? 0 then S754_zero true else Z2num (- c)), []).
Proof.
  intros Hc.
  pose proof (decimal_digits c) as Hds. pose proof (decimal_nonempty c) as Hne.
  assert (Hspan : spanDigits (decimal c ++ u ".00") = (decimal c, u ".00")).
  { apply spanDigits_app; [exact Hds|reflexivity]. }
  assert (Hval : digitsVal (decimal c ++ [48%N; 48%N]) = 100 * c).
  { rewrite digitsVal_app, digitsVal_decimal by lia. simpl. unfold digitVal. simpl. lia. }
  assert (Hnil : decimal c ++ [48%N; 48%N] <> []).
  { destruct (decimal c); [contradiction|discriminate]. }
  assert (Hbody : forall neg,
    (let '(ip, r1) := spanDigits (decimal c ++ u ".00") in
     let '(fp, r2) :=
       match r1 with
       | 46%N :: r => spanDigits r
       | _ => ([], r1)
       end in
     match ip ++ fp with
     | [] => None
     | ds =>
         let '(e, rest) := takeExponent r2 in
         Some (dec2num neg (digitsVal ds) (e - Z.of_nat (length fp)), rest)
     end) = Some (dec2num neg (100 * c) (-2), [])).
  { intros neg. rewrite Hspan.
    change (u ".00") with (46%N :: [48%N; 48%N]). cbv iota beta.
    change (spanDigits [48%N; 48%N]) with ([48%N; 48%N], @nil N). cbv iota beta.
    change (takeExponent []) with (0, @nil N). cbv iota beta.
    change (0 - Z.of_nat (length [48%N; 48%N])) with (-2).
    revert Hval Hnil. generalize (decimal c ++ [48%N; 48%N]).
    intros [|d ds] Hval Hnil; [contradiction|]. rewrite Hval. reflexivity. }
  assert (Hdec : forall neg, 0 < c ->
    dec2num neg (100 * c) (-2) = S754_finite neg (canon_m c) (canon_e c)).
  { intros neg H0. unfold dec2num.
    destruct (100 * c) as [|p|p] eqn:Ep; try lia.
    change (0 <=? -2) with false. cbv iota.
    change (Z.to_pos (10 ^ (- -2))) with 100%positive.
    replace p with (Z.to_pos (100 * c)) by (rewrite Ep; reflexivity).
    apply Q2num_hundredth. lia. }
  destruct (decimal c) as [|d ds] eqn:Ed; [contradiction|].
  assert (Hd : isDigit d = true) by (inversion Hds; assumption).
  simpl app in *.
  split; [|split].
  - unfold decimalPrefix.
    assert (Hs : takeSign (d :: ds ++ u ".00") = (false, d :: ds ++ u ".00")).
    { destruct (digit_cases d Hd) as [->|[->|[->|[->|[->|[->|[->|[->|[->| ->]]]]]]]]];
        reflexivity. }
    rewrite Hs.
    assert (Hi : isPrefix Infinity_lit (d :: ds ++ u ".00") = false).
    { destruct (digit_cases d Hd) as [->|[->|[->|[->|[->|[->|[->|[->|[->| ->]]]]]]]]];
        reflexivity. }
    rewrite Hi. rewrite (Hbody false).
    destruct (Z.eq_dec c 0) as [->|H0]; [reflexivity|].
    rewrite Hdec by lia. rewrite Z2num_finite by lia.
    replace (Z.abs c) with c by lia. replace (c <? 0) with false by lia. reflexivity.
  - simpl.
    destruct (digit_cases d Hd) as [->|[->|[->|[->|[->|[->|[->|[->|[->| ->]]]]]]]]];
      reflexivity.
  - unfold decimalPrefix. simpl takeSign. cbv iota beta.
    assert (Hi : isPrefix Infinity_lit (d :: ds ++ u ".00") = false).
    { destruct (digit_cases d Hd) as [->|[->|[->|[->|[->|[->|[->|[->|[->| ->]]]]]]]]];
        reflexivity. }
    rewrite Hi. rewrite (Hbody true).
    destruct (Z.eqb_spec c 0) as [->|H0]; [reflexivity|].
    rewrite Hdec by lia. rewrite Z2num_finite by lia.
    replace (Z.abs (- c)) with c by lia. replace (- c <? 0) with true by lia. reflexivity.
Qed.

(** A whole Number survives [parseFloat(x.toFixed(2))]. *)
Lemma parseFloat_toFixed2_whole k :
  Z.abs k < 2 ^ 53 -> parseFloatString (toFixed2 (Z2num k)) = Z2num k.
Proof.
  intros Hk. rewrite toFixed2_Z2num by exact Hk. unfold money, parseFloatString.
  destruct (decimalPrefix_amount (Z.abs k) ltac:(lia)) as [Hpos [Htrim Hneg]].
  assert (Hdec : decimal k = decimal (Z.abs k)).
  { unfold decimal. f_equal. f_equal. lia. }
  rewrite Hdec. destruct (Z.ltb_spec k 0) as [Hlt|Hge].
  - change ([45%N] ++ decimal (Z.abs k) ++ u ".00") with (45%N :: decimal (Z.abs k) ++ u ".00").
    change (trimStart (45%N :: decimal (Z.abs k) ++ u ".00"))
      with (45%N :: decimal (Z.abs k) ++ u ".00").
    rewrite Hneg. replace (Z.abs k =? 0) with false by lia.
    f_equal. lia.
  - simpl app at 1. rewrite Htrim, Hpos. f_equal. lia.
Qed.

End WholeNumbers.

Section WholeAmounts.

Context (percent : number).

(** What the callback does to the amounts of an entry. *)
Lemma accumulate_entries m r s key t :
  get r k_Merchant = VStr s ->
  (key, t) ∈ accumulate percent m r ->
  (key = VStr s
   /\ exists t0, (((key, t0) ∈ m) \/ ((VStr s ∉ map fst m) /\ t0 = zeroTotals))
        /\ withdrawal t
           = JsNumber.add (withdrawal t0) (JsNumber.orZero (parseFloat (get r k_Withdrawal)))
        /\ fee t = JsNumber.add (fee t0) (JsNumber.orZero (parseFloat (get r k_Fees))))
  \/ (key <> VStr s /\ ((key, t) ∈ m)).
Proof.
  intros Hs. unfold accumulate. rewrite Hs, mapHas_str.
  set (f := fun current : Totals => _).
  assert (Hel : forall m0 key t, (key, t) ∈ mapUpdate m0 (VStr s) f ->
            (key = VStr s /\ exists t0, ((key, t0) ∈ m0) /\ t = f t0)
            \/ (key <> VStr s /\ ((key, t) ∈ m0))).
  { clear. unfold mapUpdate. intros m0 key t H. apply list_elem_of_fmap in H as ([k t0] & E & H).
    simpl in E. rewrite sameValueZero_str_r in E. case_bool_decide as Hk.
    - injection E as -> ->. left. split; [exact Hk|]. exists t0. now split.
    - injection E as -> ->. right. now split. }
  case_bool_decide as Hhas; intros H; apply Hel in H as [(-> & t0 & H0 & ->)|[Hk H]].
  - left. split; [reflexivity|]. exists t0. split; [now left|]. now split.
  - right. now split.
  - unfold mapAdd in H0. apply elem_of_app in H0 as [H0|H0].
    + left. split; [reflexivity|]. exists t0. split; [now left|]. now split.
    + apply list_elem_of_singleton in H0. injection H0 as ->.
      left. split; [reflexivity|]. exists zeroTotals. split; [now right|]. now split.
  - unfold mapAdd in H. apply elem_of_app in H as [H|H]; [right; now split|].
    apply list_elem_of_singleton in H. congruence.
Qed.

Lemma sumWhole_app f a b : sumWhole f (a ++ b) = sumWhole f a + sumWhole f b.
Proof. unfold sumWhole. induction a as [|x a IH]; simpl; lia. Qed.

Lemma sumWhole_snoc f rs r : sumWhole f (rs ++ [r]) = sumWhole f rs + f r.
Proof. rewrite sumWhole_app. unfold sumWhole. simpl. lia. Qed.

Lemma sumAbs_snoc f rs r : sumAbs f (rs ++ [r]) = sumAbs f rs + Z.abs (f r).
Proof. unfold sumAbs. apply sumWhole_snoc. Qed.

Lemma sumAbs_nonneg f rs : 0 <= sumAbs f rs.
Proof. unfold sumAbs, sumWhole. induction rs as [|x rs IH]; simpl; lia. Qed.

Lemma sumWhole_abs f rs : Z.abs (sumWhole f rs) <= sumAbs f rs.
Proof. unfold sumAbs, sumWhole. induction rs as [|x rs IH]; simpl; lia. Qed.

Lemma sumAbs_filter f p rs : sumAbs f (List.filter p rs) <= sumAbs f rs.
Proof.
  unfold sumAbs, sumWhole. induction rs as [|x rs IH]; simpl; [lia|].
  destruct (p x); simpl; lia.
Qed.

Lemma sumWhole_recordsOf_bound f m rs :
  Z.abs (sumWhole f (recordsOf m rs)) <= sumAbs f rs.
Proof.
  pose proof (sumWhole_abs f (recordsOf m rs)).
  pose proof (sumAbs_filter f (fun r => bool_decide (get r k_Merchant = VStr m)) rs).
  unfold recordsOf in *. lia.
Qed.

(** A cell that holds a whole Number, as the callback reads it. *)
Lemma cell_whole a :
  Z.abs a < 2 ^ 53 -> JsNumber.orZero (parseFloat (VNum (Z2num a))) = Z2num a.
Proof.
  intros Ha. destruct (Z.eq_dec a 0) as [->|Hne]; [reflexivity|].
  rewrite Z2num_finite by lia. reflexivity.
Qed.

Section Column.

Variables (proj : Totals -> number) (cellKey : jsstring) (field : SummaryRow -> jsstring).
Variable (amount : row -> Z).

Hypothesis Hproj : forall m r s key t,
  get r k_Merchant = VStr s ->
  (key, t) ∈ accumulate percent m r ->
  (key = VStr s
   /\ exists t0, (((key, t0) ∈ m) \/ ((VStr s ∉ map fst m) /\ proj t0 = Z2num 0))
        /\ proj t = JsNumber.add (proj t0) (JsNumber.orZero (parseFloat (get r cellKey))))
  \/ (key <> VStr s /\ ((key, t) ∈ m)).

Hypothesis Hfield : forall m,
  map field (merchantRows percent m) = map (fun e => toFixed2 (proj (snd e))) m.

(** The accumulator of a merchant holds the exact sum of the merchant's
    amounts. *)
Lemma summaryMapOf_whole rs :
  Forall (fun r => exists s, get r k_Merchant = VStr s) rs ->
  Forall (fun r => get r cellKey = VNum (Z2num (amount r))) rs ->
  sumAbs amount rs < 2 ^ 53 ->
  forall m t, (VStr m, t) ∈ summaryMapOf percent rs ->
    proj t = Z2num (sumWhole amount (recordsOf m rs)).
Proof.
  induction rs as [|r rs IH] using rev_ind; intros Hall Hcells Hb m t H.
  - inversion H.
  - apply Forall_app in Hall as [Hall Hr]. apply Forall_singleton in Hr as [s Hs].
    apply Forall_app in Hcells as [Hcells Hc]. rewrite Forall_singleton in Hc.
    rewrite sumAbs_snoc in Hb.
    pose proof (sumAbs_nonneg amount rs) as H0.
    assert (Hb' : sumAbs amount rs < 2 ^ 53) by lia.
    specialize (IH Hall Hcells Hb').
    destruct (summaryMapOf_spec percent rs Hall) as (Hkeys & _ & _).
    unfold summaryMapOf in H. rewrite fold_left_app in H. simpl in H.
    fold (summaryMapOf percent rs) in H.
    pose proof (sumWhole_recordsOf_bound amount m rs) as Hbm.
    assert (Hrec : recordsOf m (rs ++ [r])
                   = recordsOf m rs ++ (if bool_decide (s = m) then [r] else [])).
    { unfold recordsOf. rewrite List.filter_app. simpl. rewrite Hs.
      rewrite (bool_decide_ext (VStr s = VStr m) (s = m)) by (split; congruence).
      now case_bool_decide. }
    rewrite Hrec.
    apply (Hproj _ _ s) in H as [([= ->] & t0 & Ht0 & Ht)|[Hk H]]; [| |exact Hs].
    + rewrite bool_decide_eq_true_2 by reflexivity. rewrite sumWhole_snoc.
      rewrite Ht, Hc, cell_whole by lia.
      destruct Ht0 as [Ht0|[Hno Ht0]].
      * rewrite (IH _ _ Ht0). apply SFadd_Z2num; lia.
      * rewrite Ht0. rewrite recordsOf_nil.
        -- change (sumWhole amount []) with 0. apply SFadd_Z2num; lia.
        -- intros Hin. apply Hno. rewrite Hkeys. apply list_elem_of_fmap.
           exists s. split; [reflexivity|]. apply setOf_elem. split; [exact Hin|].
           apply not_elem_of_nil.
    + rewrite bool_decide_eq_false_2 by congruence. rewrite app_nil_r. now apply IH.
Qed.

(** The column of the rows, merchant by merchant. *)
Lemma merchantRows_whole rs :
  Forall (fun r => exists s, get r k_Merchant = VStr s) rs ->
  Forall (fun r => get r cellKey = VNum (Z2num (amount r))) rs ->
  sumAbs amount rs < 2 ^ 53 ->
  map field (merchantRows percent (summaryMapOf percent rs))
  = map (fun m => toFixed2 (Z2num (sumWhole amount (recordsOf m rs))))
      (setOf [] (merchantsIn rs)).
Proof.
  intros Hall Hcells Hb. rewrite Hfield.
  destruct (summaryMapOf_spec percent rs Hall) as (Hkeys & _ & _).
  pose proof (summaryMapOf_whole rs Hall Hcells Hb) as Hw.
  revert Hkeys Hw. generalize (setOf [] (merchantsIn rs)) (summaryMapOf percent rs).
  intros ms sm. revert ms. induction sm as [|[k t] sm IH]; intros [|m ms] Hkeys Hw;
    simpl in *; try discriminate; [reflexivity|].
  injection Hkeys as -> Hkeys. f_equal.
  - f_equal. apply Hw. now left.
  - apply IH; [exact Hkeys|]. intros m' t' H. apply Hw. now right.
Qed.

End Column.

Lemma sum_indicator (s : jsstring) (a : Z) ms :
  NoDup ms -> s ∈ ms ->
  fold_right Z.add 0 (map (fun m => if bool_decide (s = m) then a else 0) ms) = a.
Proof.
  induction ms as [|m ms IH]; intros Hnd Hin; [inversion Hin|].
  apply NoDup_cons in Hnd as [Hm Hnd]. simpl. case_bool_decide as E.
  - subst m. assert (Hz : forall l, s ∉ l ->
      fold_right Z.add 0 (map (fun m => if bool_decide (s = m) then a else 0) l) = 0).
    { clear. induction l as [|x l IH]; intros H; simpl; [reflexivity|].
      rewrite not_elem_of_cons in H. destruct H as [Hx Hl].
      rewrite bool_decide_eq_false_2 by exact Hx. rewrite IH by exact Hl. reflexivity. }
    rewrite Hz by exact Hm. lia.
  - apply elem_of_cons in Hin as [Hin|Hin]; [congruence|]. rewrite IH by done. lia.
Qed.

(** The records of the merchants partition the records. *)
Lemma sumWhole_partition f ms rs :
  NoDup ms ->
  Forall (fun r => exists s, get r k_Merchant = VStr s /\ s ∈ ms) rs ->
  fold_right Z.add 0 (map (fun m => sumWhole f (recordsOf m rs)) ms) = sumWhole f rs.
Proof.
  intros Hnd. induction rs as [|r rs IH]; intros Hall.
  - clear. induction ms as [|m ms IH]; [reflexivity|]. cbn [map fold_right]. rewrite IH. reflexivity.
  - apply Forall_cons in Hall as [(s & Hs & Hin) Hall]. specialize (IH Hall).
    assert (E : map (fun m => sumWhole f (recordsOf m (r :: rs))) ms
                = map (fun m => (if bool_decide (s = m) then f r else 0)
                                + sumWhole f (recordsOf m rs)) ms).
    { apply map_ext. intros m. unfold recordsOf. simpl. rewrite Hs.
      rewrite (bool_decide_ext (VStr s = VStr m) (s = m)) by (split; congruence).
      case_bool_decide; unfold sumWhole; simpl; lia. }
    rewrite E. clear E.
    assert (Hsplit : forall (g k : jsstring -> Z) l,
      fold_right Z.add 0 (map (fun m => g m + k m) l)
      = fold_right Z.add 0 (map g l) + fold_right Z.add 0 (map k l)).
    { clear. intros g k l. induction l as [|x l IH]; simpl; lia. }
    rewrite Hsplit, IH, (sum_indicator s (f r) ms Hnd Hin).
    unfold sumWhole. simpl. lia.
Qed.

(** Adding up amounts that were written with two decimals and read
    back. *)
Lemma fold_whole ws a :
  Z.abs a + fold_right Z.add 0 (map Z.abs ws) < 2 ^ 53 ->
  fold_left (fun sum s => JsNumber.add sum (parseFloatString s))
    (map (fun w => toFixed2 (Z2num w)) ws) (Z2num a)
  = Z2num (a + fold_right Z.add 0 ws).
Proof.
  revert a. induction ws as [|w ws IH]; intros a Hb; simpl in *.
  - f_equal. lia.
  - assert (H0 : 0 <= fold_right Z.add 0 (map Z.abs ws)).
    { clear. induction ws as [|x ws IH]; simpl; lia. }
    rewrite parseFloat_toFixed2_whole by lia.
    unfold JsNumber.add. rewrite SFadd_Z2num by lia.
    rewrite IH by lia. f_equal. lia.
Qed.

Section Totals.

Variables (field : SummaryRow -> jsstring) (amount : row -> Z).

(** The [TOTAL] of a column whose rows are the exact sums. *)
Lemma sumField_whole rows rs :
  Forall (fun r => exists s, get r k_Merchant = VStr s) rs ->
  sumAbs amount rs < 2 ^ 53 ->
  map field rows
  = map (fun m => toFixed2 (Z2num (sumWhole amount (recordsOf m rs))))
      (setOf [] (merchantsIn rs)) ->
  toFixed2 (sumField field rows) = money (sumWhole amount rs).
Proof.
  intros Hall Hb Hrows.
  assert (Hms : Forall (fun r => exists s, get r k_Merchant = VStr s
                                  /\ s ∈ setOf [] (merchantsIn rs)) rs).
  { apply Forall_forall. intros r Hr. rewrite Forall_forall in Hall.
    destruct (Hall r Hr) as [s Hs]. exists s. split; [exact Hs|].
    apply setOf_elem. split; [|apply not_elem_of_nil].
    apply merchantsIn_elem. now exists r. }
  pose proof (setOf_NoDup [] (merchantsIn rs)) as Hnd.
  assert (Hfold : sumField field rows
    = fold_left (fun sum s => JsNumber.add sum (parseFloatString s)) (map field rows) (Z2num 0)).
  { clear. unfold sumField. generalize (Z2num 0). induction rows as [|r rows IH]; intros x; simpl;
      [reflexivity|]. apply IH. }
  rewrite Hfold, Hrows.
  rewrite <- (List.map_map (fun m => sumWhole amount (recordsOf m rs))
                (fun w => toFixed2 (Z2num w))).
  pose proof (sumWhole_partition amount _ rs Hnd Hms) as Hsum.
  pose proof (sumWhole_partition (fun r => Z.abs (amount r)) _ rs Hnd Hms) as Habs.
  fold (sumAbs amount rs) in Habs.
  assert (Hle : fold_right Z.add 0
                  (map Z.abs (map (fun m => sumWhole amount (recordsOf m rs))
                                (setOf [] (merchantsIn rs))))
                <= sumAbs amount rs).
  { rewrite <- Habs. rewrite List.map_map. generalize (setOf [] (merchantsIn rs)).
    induction l as [|m l IH]; simpl; [lia|].
    pose proof (sumWhole_abs amount (recordsOf m rs)) as Hm. unfold sumAbs in Hm. lia. }
  rewrite fold_whole by (simpl; lia). rewrite Hsum. simpl.
  apply toFixed2_Z2num. pose proof (sumWhole_abs amount rs). lia.
Qed.

End Totals.

End WholeAmounts.

(** When the withdrawal amounts and the fees of the selected records are
    whole Numbers and the sums of their absolute values stay below 2^53,
    no rounding takes place anywhere: the row of a merchant shows the
    exact sum of the merchant's amounts and of its fees, written with two
    zero decimals, and the [TOTAL] row, which adds up what it reads back
    from the rows, shows the exact sums over all selected records. *)
Theorem whole_amounts_exact (h : Host) (now : Z) (req : GenerateRequest) (w w' : World)
    (selected : list jsstring) (percent : number) (start stop : jsstring) (fd : FileData)
    (summary : list SummaryRow) (url range : jsstring) (tc mc : nat)
    (amount fees : row -> Z) :
  accepted h req w selected percent start stop fd ->
  generate h now req w = (GenerateResponse summary url range tc mc, w') ->
  Forall (fun r => get r k_Withdrawal = VNum (Z2num (amount r))
                   /\ get r k_Fees = VNum (Z2num (fees r)))
    (filterData (processedData fd) selected start stop) ->
  sumAbs amount (filterData (processedData fd) selected start stop) < 2 ^ 53 ->
  sumAbs fees (filterData (processedData fd) selected start stop) < 2 ^ 53 ->
  exists rows total,
    summary = rows ++ [total]
    /\ map Merchant rows
       = map VStr (setOf [] (merchantsIn (filterData (processedData fd) selected start stop)))
    /\ map TotalWithdrawalAmount rows
       = map (fun m => money (sumWhole amount
                (recordsOf m (filterData (processedData fd) selected start stop))))
           (setOf [] (merchantsIn (filterData (processedData fd) selected start stop)))
    /\ map TotalWithdrawalFees rows
       = map (fun m => money (sumWhole fees
                (recordsOf m (filterData (processedData fd) selected start stop))))
           (setOf [] (merchantsIn (filterData (processedData fd) selected start stop)))
    /\ TotalWithdrawalAmount total
       = money (sumWhole amount (filterData (processedData fd) selected start stop))
    /\ TotalWithdrawalFees total
       = money (sumWhole fees (filterData (processedData fd) selected start stop)).
Proof.
  intros Hacc E Hcells Hba Hbf.
  rewrite (generate_accepted h now req w _ _ _ _ _ Hacc) in E. cbv zeta in E.
  case_bool_decide as Hlen; [discriminate|]. injection E as <- _ _ _ _ _.
  set (filtered := filterData (processedData fd) selected start stop) in *.
  pose proof (filterData_merchants (processedData fd) selected start stop) as Hm.
  fold filtered in Hm.
  assert (Hall : Forall (fun r => exists s, get r k_Merchant = VStr s) filtered).
  { eapply Forall_impl; [exact Hm|]. intros r (s & Hr & _). now exists s. }
  assert (Hw : Forall (fun r => get r k_Withdrawal = VNum (Z2num (amount r))) filtered).
  { eapply Forall_impl; [exact Hcells|]. intros r [H _]. exact H. }
  assert (Hf : Forall (fun r => get r k_Fees = VNum (Z2num (fees r))) filtered).
  { eapply Forall_impl; [exact Hcells|]. intros r [_ H]. exact H. }
  destruct (summaryMapOf_spec percent filtered Hall) as (Hkeys & _ & _).
  pose proof (merchantRows_whole percent withdrawal k_Withdrawal TotalWithdrawalAmount amount)
    as Hrw.
  pose proof (merchantRows_whole percent fee k_Fees TotalWithdrawalFees fees) as Hrf.
  assert (Hrows_w := Hrw).
  specialize (Hrows_w
    ltac:(intros m r s key t Hs H;
          destruct (accumulate_entries percent m r s key t Hs H)
            as [(-> & t0 & [H0|[Hno ->]] & Ha & _)|[Hk H0]];
          [left; split; [reflexivity|]; exists t0; split; [now left|exact Ha]
          |left; split; [reflexivity|]; exists zeroTotals; split; [now right|exact Ha]
          |right; now split])
    ltac:(intros m; unfold merchantRows; rewrite List.map_map; reflexivity)
    filtered Hall Hw Hba).
  assert (Hrows_f := Hrf).
  specialize (Hrows_f
    ltac:(intros m r s key t Hs H;
          destruct (accumulate_entries percent m r s key t Hs H)
            as [(-> & t0 & [H0|[Hno ->]] & _ & Ha)|[Hk H0]];
          [left; split; [reflexivity|]; exists t0; split; [now left|exact Ha]
          |left; split; [reflexivity|]; exists zeroTotals; split; [now right|exact Ha]
          |right; now split])
    ltac:(intros m; unfold merchantRows; rewrite List.map_map; reflexivity)
    filtered Hall Hf Hbf).
  clear Hrw Hrf.
  set (rows := merchantRows percent (summaryMapOf percent filtered)) in *.
  exists rows, (totalsRow percent rows).
  split; [reflexivity|]. split.
  { unfold rows, merchantRows. rewrite List.map_map. simpl. exact Hkeys. }
  assert (Hmoney : forall f, sumAbs f filtered < 2 ^ 53 ->
    map (fun m => toFixed2 (Z2num (sumWhole f (recordsOf m filtered))))
      (setOf [] (merchantsIn filtered))
    = map (fun m => money (sumWhole f (recordsOf m filtered)))
        (setOf [] (merchantsIn filtered))).
  { intros f Hb. apply map_ext. intros m. apply toFixed2_Z2num.
    pose proof (sumWhole_recordsOf_bound f m filtered). lia. }
  split; [rewrite Hrows_w; now apply Hmoney|].
  split; [rewrite Hrows_f; now apply Hmoney|].
  split.
  - exact (sumField_whole TotalWithdrawalAmount amount rows filtered Hall Hba Hrows_w).
  - exact (sumField_whole TotalWithdrawalFees fees rows filtered Hall Hbf Hrows_f).
Qed.

(** The scenario's upload and its request for March 2023: 100 and 50
    withdrawn, fees of 2 and 1. *)
Lemma whole_amounts_exact_witness :
  accepted utcHost marchRequest scenarioWorld [u "A"; u "B"] (Z2num 5)
    (u "2023-03-01") (u "2023-03-31")
    {| processedData := processRows utcHost [rowA; rowB]; merchants := [u "A"; u "B"] |}
  /\ generate utcHost 1700000000000 marchRequest scenarioWorld
     = (GenerateResponse scenarioSummary (u "/download/summary_1700000000000.xlsx")
          (u "2023-03-01 to 2023-03-31") 2 2,
        snd (generate utcHost 1700000000000 marchRequest scenarioWorld))
  /\ sumAbs scenarioAmount
       (filterData (processRows utcHost [rowA; rowB]) [u "A"; u "B"]
          (u "2023-03-01") (u "2023-03-31")) < 2 ^ 53
  /\ sumAbs scenarioFees
       (filterData (processRows utcHost [rowA; rowB]) [u "A"; u "B"]
          (u "2023-03-01") (u "2023-03-31")) < 2 ^ 53
  /\ exists rows total,
       scenarioSummary = rows ++ [total]
       /\ TotalWithdrawalAmount total = money 150
       /\ TotalWithdrawalFees total = money 3.
Proof.
  assert (Hacc : accepted utcHost marchRequest scenarioWorld [u "A"; u "B"] (Z2num 5)
                   (u "2023-03-01") (u "2023-03-31")
                   {| processedData := processRows utcHost [rowA; rowB];
                      merchants := [u "A"; u "B"] |})
    by (unfold accepted; repeat split; try discriminate; vm_compute; reflexivity).
  assert (E : generate utcHost 1700000000000 marchRequest scenarioWorld
              = (GenerateResponse scenarioSummary (u "/download/summary_1700000000000.xlsx")
                   (u "2023-03-01 to 2023-03-31") 2 2,
                 snd (generate utcHost 1700000000000 marchRequest scenarioWorld)))
    by (vm_compute; reflexivity).
  assert (Hcells : Forall (fun r => get r k_Withdrawal = VNum (Z2num (scenarioAmount r))
                                    /\ get r k_Fees = VNum (Z2num (scenarioFees r)))
                     (filterData (processRows utcHost [rowA; rowB]) [u "A"; u "B"]
                        (u "2023-03-01") (u "2023-03-31")))
    by (apply (bool_decide_unpack _); vm_compute; exact I).
  assert (Hba : sumAbs scenarioAmount
                  (filterData (processRows utcHost [rowA; rowB]) [u "A"; u "B"]
                     (u "2023-03-01") (u "2023-03-31")) < 2 ^ 53)
    by (vm_compute; reflexivity).
  assert (Hbf : sumAbs scenarioFees
                  (filterData (processRows utcHost [rowA; rowB]) [u "A"; u "B"]
                     (u "2023-03-01") (u "2023-03-31")) < 2 ^ 53)
    by (vm_compute; reflexivity).
  split; [exact Hacc|]. split; [exact E|]. split; [exact Hba|]. split; [exact Hbf|].
  destruct (whole_amounts_exact utcHost _ _ _ _ _ _ _ _ _ _ _ _ _ _
              scenarioAmount scenarioFees Hacc E Hcells Hba Hbf)
    as (rows & total & Hs & _ & _ & _ & Hw & Hf).
  exists rows, total. split; [exact Hs|]. split; [exact Hw|exact Hf].
Defined.

(* ================================================================= *)
(** ** Texts in src/server.js *)

Section ServerTexts.

Lemma plain_not sep p :
  sep ∈ [45%N; 47%N; 46%N] -> plain p -> Forall (fun c => c <> sep) p.
Proof.
  intros Hsep Hp. eapply Forall_impl; [exact Hp|]. intros c (H1 & H2 & H3).
  rewrite !elem_of_cons, elem_of_nil in Hsep. destruct Hsep as [->|[->|[->|[]]]]; assumption.
Qed.

(** What a separator makes of a text of three plain parts joined by a
    separator: the three parts when it is the one used, the text itself
    when it is another. *)
Lemma split_joined sep' sep p0 p1 p2 :
  sep' ∈ [45%N; 47%N; 46%N] -> plain p0 -> plain p1 -> plain p2 ->
  JsString.split sep' (joined sep p0 p1 p2)
  = if bool_decide (sep' = sep) then [p0; p1; p2] else [joined sep p0 p1 p2].
Proof.
  intros Hsep H0 H1 H2. unfold joined. case_bool_decide as E.
  - subst sep'. rewrite (split_prefix sep p0) by now apply plain_not.
    rewrite (split_prefix sep p1) by now apply plain_not.
    rewrite (split_no_sep sep p2) by now apply plain_not. reflexivity.
  - apply split_no_sep.
    apply Forall_app; split; [now apply plain_not|]. constructor; [congruence|].
    apply Forall_app; split; [now apply plain_not|]. constructor; [congruence|].
    now apply plain_not.
Qed.

(** The strings tried for three plain parts joined by one of the three
    separators: day first, month first, the text as it stands. *)
Lemma interpretations_joined sep p0 p1 p2 :
  sep ∈ [45%N; 47%N; 46%N] -> plain p0 -> plain p1 -> plain p2 ->
  interpretations (joined sep p0 p1 p2)
  = [joined 45 p2 p1 p0; joined 45 p2 p0 p1; joined sep p0 p1 p2].
Proof.
  intros Hsep H0 H1 H2. unfold interpretations, separators, candidatesAt. cbn [flat_map].
  rewrite !split_joined by (rewrite ?elem_of_cons; auto).
  rewrite !elem_of_cons, elem_of_nil in Hsep.
  destruct Hsep as [->|[->|[->|[]]]];
    repeat (first [rewrite bool_decide_eq_true_2 by reflexivity
                  |rewrite bool_decide_eq_false_2 by discriminate]);
    reflexivity.
Qed.

Lemma digits_plain s : Forall (fun c => isDigit c = true) s -> plain s.
Proof.
  intros H. eapply Forall_impl; [exact H|]. intros c Hc.
  destruct (digit_cases c Hc) as [->|[->|[->|[->|[->|[->|[->|[->|[->| ->]]]]]]]]];
    repeat split; discriminate.
Qed.

Lemma two_digits n : Forall (fun c => isDigit c = true) (two n).
Proof. apply padZeros_digits, decimal_digits. Qed.

Lemma four_digits n : Forall (fun c => isDigit c = true) (four n).
Proof. apply padZeros_digits, decimal_digits. Qed.

Lemma takeDigits_app n ds rest :
  length ds = n -> Forall (fun c => isDigit c = true) ds ->
  takeDigits n (ds ++ rest) = Some (digitsVal ds, rest).
Proof.
  intros Hlen Hds. unfold takeDigits. subst n.
  rewrite take_app_length, drop_app_length.
  rewrite bool_decide_eq_true_2 by reflexivity.
  replace (forallb isDigit ds) with true; [reflexivity|].
  symmetry. apply forallb_forall. intros c Hc. rewrite Forall_forall in Hds.
  apply Hds. now apply list_elem_of_In.
Qed.

Lemma parseYear_digit c r : isDigit c = true -> parseYear (c :: r) = takeDigits 4 (c :: r).
Proof.
  intros Hc.
  destruct (digit_cases c Hc) as [->|[->|[->|[->|[->|[->|[->|[->|[->| ->]]]]]]]]]; reflexivity.
Qed.

(** A date-only string of the calendar is read as its fields. *)
Lemma parseDateOnly_ymd y m d :
  0 <= y <= 9999 -> 1 <= m <= 12 -> 1 <= d <= 31 ->
  parseDateOnly (ymd y m d) = Some (y, m, d).
Proof.
  intros Hy Hm Hd. unfold ymd, joined, parseDateOnly.
  destruct (pad4_spec y Hy) as [L4 V4]. fold (four y) in L4, V4.
  destruct (pad2_spec m ltac:(lia)) as [Lm Vm]. fold (two m) in Lm, Vm.
  destruct (pad2_spec d ltac:(lia)) as [Ld Vd]. fold (two d) in Ld, Vd.
  assert (Ey : parseYear (four y ++ 45%N :: two m ++ 45%N :: two d)
               = Some (y, 45%N :: two m ++ 45%N :: two d)).
  { pose proof (four_digits y) as Hds.
    destruct (four y) as [|c r] eqn:E; [discriminate L4|].
    cbn [app]. rewrite parseYear_digit by (inversion Hds; assumption).
    change (c :: r ++ 45%N :: two m ++ 45%N :: two d)
      with ((c :: r) ++ 45%N :: two m ++ 45%N :: two d).
    rewrite takeDigits_app by assumption. now rewrite V4. }
  rewrite Ey. cbn [parseDashed].
  rewrite takeDigits_app by (auto using two_digits). rewrite Vm.
  replace ((1 <=? m) && (m <=? 12)) with true by lia.
  rewrite <- (app_nil_r (two d)) at 1. cbn [parseDashed].
  rewrite takeDigits_app by (auto using two_digits). rewrite Vd.
  replace ((1 <=? d) && (d <=? 31)) with true by lia. reflexivity.
Qed.

Lemma DaysInMonth_le y m : DaysInMonth y m <= 31.
Proof.
  unfold DaysInMonth.
  repeat match goal with |- context [match ?x with _ => _ end] => destruct x end; lia.
Qed.

(** The time value of a calendar day in the years 0 to 9999, and its
    date part. *)
Lemma calendar_day y m d :
  0 <= y <= 9999 -> 1 <= m <= 12 -> 1 <= d <= DaysInMonth y m ->
  TimeClipZ (MakeDate (MakeDay y (m - 1) d) 0) = Some (MakeDate (MakeDay y (m - 1) d) 0)
  /\ isoDate (MakeDate (MakeDay y (m - 1) d) 0) = ymd y m d.
Proof.
  intros Hy Hm Hd.
  destruct (MakeDay_fields y m d Hm Hd) as (Fy & Fm & Fd).
  split.
  - unfold TimeClipZ. replace (Z.abs _ <=? maxTime) with true; [reflexivity|].
    symmetry. apply Z.leb_le.
    pose proof (DaysInMonth_le y m).
    pose proof (DayFromYear_mono 0 y ltac:(lia)).
    pose proof (DayFromYear_mono y 9999 ltac:(lia)).
    assert (Hy0 : DayFromYear 0 = -719528) by reflexivity.
    assert (Hy9 : DayFromYear 9999 = 2932532) by reflexivity.
    assert (Hb : 0 <= daysBeforeMonth (isLeapYear y) (m - 1) <= 335).
    { unfold daysBeforeMonth. destruct (isLeapYear y); month_cases (m - 1); simpl; lia. }
    unfold MakeDate, MakeDay, msPerDay, maxTime.
    replace ((m - 1) / 12) with 0 by (Z.div_mod_to_equations; lia).
    replace ((m - 1) mod 12) with (m - 1) by (Z.div_mod_to_equations; lia).
    rewrite !Z.add_0_r. lia.
  - unfold isoDate, isoYear. rewrite Fy, Fm, Fd.
    replace ((0 <=? y) && (y <=? 9999)) with true by lia.
    replace (m - 1 + 1) with m by lia. reflexivity.
Qed.

Context (h : Host).
Hypothesis Hconf : conforms h.

Lemma newDateString_ymd y m d :
  0 <= y <= 9999 -> 1 <= m <= 12 -> 1 <= d <= DaysInMonth y m ->
  exists t, newDateString h (ymd y m d) = Some t /\ isoDate t = ymd y m d.
Proof.
  intros Hy Hm Hd. pose proof (DaysInMonth_le y m).
  rewrite (conforms_date h (ymd y m d) y m d Hconf)
    by (first [apply parseDateOnly_ymd; lia | lia]).
  destruct (calendar_day y m d Hy Hm Hd) as [Ht Hs]. rewrite Ht, Ht.
  eexists. split; [reflexivity|exact Hs].
Qed.

End ServerTexts.

(** C4: a text is normalised to the date part of the first of its
    interpretations that the [Date] parser accepts, [null] when there is
    none. For three parts joined by [-], by [/] or by [.] the strings
    tried are, in this order, the day-first rearrangement
    ([DD-MM-YYYY] read as [YYYY-MM-DD]), the month-first rearrangement
    and the text as it stands. On a conforming host a calendar date
    written day first with any of the three separators is read as that
    date, also when month first would give a date too; written month
    first with a day above 12 it is read as that date where the parser
    rejects the day-first string; and when the parser rejects both
    rearrangements, the text itself is parsed. ["31-01-2024"] gives
    ["2024-01-31"] and the ambiguous ["03-04-2024"] is read day first. *)
Theorem parseExcelDate_text (h : Host) :
  conforms h ->
  (forall s, s <> [] ->
     parseExcelDate h (VStr s) = Normal (dateOrNull (firstValid h (interpretations s))))
  /\ (forall p0 p1 p2, plain p0 -> plain p1 -> plain p2 ->
        interpretations (p0 ++ 45%N :: p1 ++ 45%N :: p2)
        = [ p2 ++ 45%N :: p1 ++ 45%N :: p0 ;
            p2 ++ 45%N :: p0 ++ 45%N :: p1 ;
            p0 ++ 45%N :: p1 ++ 45%N :: p2 ])
  /\ (forall sep p0 p1 p2,
        sep ∈ [45%N; 47%N; 46%N] -> plain p0 -> plain p1 -> plain p2 ->
        parseExcelDate h (VStr (joined sep p0 p1 p2))
        = Normal (dateOrNull (firstValid h [ joined 45 p2 p1 p0 ;
                                             joined 45 p2 p0 p1 ;
                                             joined sep p0 p1 p2 ])))
  /\ (forall sep y m d,
        sep ∈ [45%N; 47%N; 46%N] ->
        0 <= y <= 9999 -> 1 <= m <= 12 -> 1 <= d <= DaysInMonth y m ->
        parseExcelDate h (VStr (joined sep (two d) (two m) (four y)))
        = Normal (VStr (ymd y m d)))
  /\ (forall sep y m d,
        sep ∈ [45%N; 47%N; 46%N] ->
        0 <= y <= 9999 -> 1 <= m <= 12 -> 13 <= d <= DaysInMonth y m ->
        newDateString h (ymd y d m) = None ->
        parseExcelDate h (VStr (joined sep (two m) (two d) (four y)))
        = Normal (VStr (ymd y m d)))
  /\ (forall sep p0 p1 p2,
        sep ∈ [45%N; 47%N; 46%N] -> plain p0 -> plain p1 -> plain p2 ->
        newDateString h (joined 45 p2 p1 p0) = None ->
        newDateString h (joined 45 p2 p0 p1) = None ->
        parseExcelDate h (VStr (joined sep p0 p1 p2))
        = Normal (match newDateString h (joined sep p0 p1 p2) with
                  | Some t => VStr (isoDate t)
                  | None => VNull
                  end))
  /\ parseExcelDate h (VStr (u "31-01-2024")) = Normal (VStr (u "2024-01-31"))
  /\ parseExcelDate h (VStr (u "03-04-2024")) = Normal (VStr (u "2024-04-03")).
Proof.
  intros Hc.
  assert (HB : forall sep p0 p1 p2,
            sep ∈ [45%N; 47%N; 46%N] -> plain p0 -> plain p1 -> plain p2 ->
            parseExcelDate h (VStr (joined sep p0 p1 p2))
            = Normal (dateOrNull (firstValid h [ joined 45 p2 p1 p0 ;
                                                 joined 45 p2 p0 p1 ;
                                                 joined sep p0 p1 p2 ]))).
  { intros sep p0 p1 p2 Hsep H0 H1 H2.
    rewrite parseExcelDate_text_spec by (unfold joined; now destruct p0).
    now rewrite interpretations_joined. }
  assert (HC : forall sep y m d,
            sep ∈ [45%N; 47%N; 46%N] ->
            0 <= y <= 9999 -> 1 <= m <= 12 -> 1 <= d <= DaysInMonth y m ->
            parseExcelDate h (VStr (joined sep (two d) (two m) (four y)))
            = Normal (VStr (ymd y m d))).
  { intros sep y m d Hsep Hy Hm Hd.
    rewrite HB by (auto using digits_plain, two_digits, four_digits).
    fold (ymd y m d). cbn [firstValid].
    destruct (newDateString_ymd h Hc y m d Hy Hm Hd) as (t & -> & Ht).
    cbn [dateOrNull]. now rewrite Ht. }
  split; [apply parseExcelDate_text_spec|].
  split; [apply interpretations_three|].
  split; [exact HB|]. split; [exact HC|]. split; [|split; [|split]].
  - intros sep y m d Hsep Hy Hm Hd Hno.
    rewrite HB by (auto using digits_plain, two_digits, four_digits).
    fold (ymd y d m). fold (ymd y m d). cbn [firstValid]. rewrite Hno.
    destruct (newDateString_ymd h Hc y m d Hy Hm ltac:(lia)) as (t & -> & Ht).
    cbn [dateOrNull]. now rewrite Ht.
  - intros sep p0 p1 p2 Hsep H0 H1 H2 Hn1 Hn2. rewrite HB by assumption.
    cbn [firstValid]. rewrite Hn1, Hn2.
    now destruct (newDateString h (joined sep p0 p1 p2)).
  - exact (HC 45%N 2024 1 31 ltac:(now left) ltac:(lia) ltac:(lia)
             ltac:(vm_compute; split; discriminate)).
  - exact (HC 45%N 2024 4 3 ltac:(now left) ltac:(lia) ltac:(lia)
             ltac:(vm_compute; split; discriminate)).
Qed.

(** On the reference host: the two dates of the claim, the same day
    with [/] and with [.], and a date written month first. *)
Lemma parseExcelDate_text_witness :
  conforms utcHost
  /\ parseExcelDate utcHost (VStr (u "31-01-2024")) = Normal (VStr (u "2024-01-31"))
  /\ parseExcelDate utcHost (VStr (u "03-04-2024")) = Normal (VStr (u "2024-04-03"))
  /\ parseExcelDate utcHost (VStr (u "31/01/2024")) = Normal (VStr (u "2024-01-31"))
  /\ parseExcelDate utcHost (VStr (u "31.01.2024")) = Normal (VStr (u "2024-01-31"))
  /\ parseExcelDate utcHost (VStr (u "01/31/2024")) = Normal (VStr (u "2024-01-31")).
Proof.
  pose proof (parseExcelDate_text utcHost utcHost_conforms)
    as (_ & _ & _ & HC & HD & _ & E1 & E2).
  split; [exact utcHost_conforms|]. split; [exact E1|]. split; [exact E2|].
  split; [|split].
  - exact (HC 47%N 2024 1 31 ltac:(right; now left) ltac:(lia) ltac:(lia)
             ltac:(vm_compute; split; discriminate)).
  - exact (HC 46%N 2024 1 31 ltac:(right; right; now left) ltac:(lia) ltac:(lia)
             ltac:(vm_compute; split; discriminate)).
  - exact (HD 47%N 2024 1 31 ltac:(right; now left) ltac:(lia) ltac:(lia)
             ltac:(vm_compute; split; discriminate) ltac:(vm_compute; reflexivity)).
Defined.
